(** * Pago Movil GSKY: the payment form of [src/App.tsx]

    A shallow embedding of the logic of the React component [App]: the
    helpers [adjustColor] and [hexToRgba], the change handlers of the
    calculator, the file picker, the submission flow [handleNotifyPayment]
    and the admin [saveSettings], together with the parts of the JavaScript
    platform they call ([parseFloat], [parseInt], IEEE-754 multiplication,
    [Number.prototype.toLocaleString] for the locale es-VE and
    [encodeURIComponent]).

    Conventions.
    - A JavaScript string is a [string]: the UTF-8 bytes of its text.
      [encodeURIComponent] works on exactly these bytes.  Where the code
      counts or cuts by UTF-16 code units on text that may hold any
      character ([formatPhone], [adjustColor], [hexToRgba]) the model
      goes through the code units, [Utf16.units]; where the text is
      known to be ASCII (the reference after its filter, the digits of a
      number) one byte is one code unit and the bytes are used as they
      are.
    - A JavaScript number is a binary64 value, [spec_float] with precision
      53 and maximal exponent 1024; a single NaN, two zeros.
    - React state is a record; a handler is a function from the state of
      the render it was created in to the next state and the list of
      effects it performed, in order.  What the outside world answers
      (clock, upload endpoint, database) is an explicit argument.
    - A handler runs to its end before the next event: the awaits inside
      [handleNotifyPayment] and [saveSettings] are sequenced, not
      interleaved with other events, and the timers that hide a toast are
      left out.
    - Signing in, the start-up of [src/firebase.ts], the history list and
      the formatting of the cedula and the phone stand beside the state
      of the form, each with its own small model.  The clipboard and the
      markup are left out. *)

From Stdlib Require Import ZArith Lia Bool List Ascii String.
From Stdlib Require Import Numbers.DecimalString Numbers.HexadecimalString.
From Stdlib Require Numbers.DecimalPos.
From Stdlib Require Import Floats.SpecFloat.
From Stdlib Require Import Sorting.Sorted.
From stdpp Require Import base strings gmap.

Local Open Scope Z_scope.

(** ** Strings *)

Module Str.

Definition is_digit (c : ascii) : bool :=
  let n := N_of_ascii c in (48 <=? n)%N && (n <=? 57)%N.

Definition digit_val (c : ascii) : Z := Z.of_N (N_of_ascii c) - 48.

Fixpoint filter (p : ascii -> bool) (s : string) : string :=
  match s with
  | EmptyString => EmptyString
  | String c r => if p c then String c (filter p r) else filter p r
  end.

Fixpoint forallb (p : ascii -> bool) (s : string) : bool :=
  match s with
  | EmptyString => true
  | String c r => p c && forallb p r
  end.

(** [s.slice(0, n)] *)
Fixpoint take (n : nat) (s : string) : string :=
  match n, s with
  | O, _ => EmptyString
  | _, EmptyString => EmptyString
  | S k, String c r => String c (take k r)
  end.

Fixpoint drop (n : nat) (s : string) : string :=
  match n, s with
  | O, _ => s
  | _, EmptyString => EmptyString
  | S k, String _ r => drop k r
  end.

(** [s.slice(a, b)] for [0 <= a <= b] *)
Definition slice (a b : nat) (s : string) : string := take (b - a) (drop a s).

(** [s.substr(-n)]: the last [n] characters, the whole string when it
    is shorter. *)
Definition last_n (n : nat) (s : string) : string :=
  drop (String.length s - n) s.

(** The longest prefix of characters satisfying [p], and the rest. *)
Fixpoint span (p : ascii -> bool) (s : string) : string * string :=
  match s with
  | EmptyString => (EmptyString, EmptyString)
  | String c r =>
      if p c then let '(a, b) := span p r in (String c a, b)
      else (EmptyString, s)
  end.

(** [t] occurs in [s] *)
Definition contains (s t : string) : Prop :=
  exists pre post, s = pre +:+ t +:+ post.

Definition is_empty (s : string) : bool :=
  match s with EmptyString => true | _ => false end.

Definition of_Z (z : Z) : string :=
  DecimalString.NilZero.string_of_int (Z.to_int z).

End Str.

(** ** Numbers *)

Module Num.

Definition number := spec_float.

Definition prec : Z := 53.
Definition emax : Z := 1024.

Definition NaN : number := S754_nan.

Definition isNaN (x : number) : bool :=
  match x with S754_nan => true | _ => false end.

(** [x * y] *)
Definition mul (x y : number) : number := SFmul prec emax x y.

(** [x <= y] *)
Definition leb (x y : number) : bool := SFleb x y.

(** [x < y] *)
Definition ltb (x y : number) : bool := SFltb x y.

(** The number denoted by an integer literal. *)
Definition of_Z (z : Z) : number := binary_normalize prec emax z 0 false.

Definition zero : number := S754_zero false.

(** ToBoolean on a number: NaN, +0 and -0 are falsy. *)
Definition truthy (x : number) : bool :=
  match x with
  | S754_nan | S754_zero _ => false
  | _ => true
  end.

(** [x || y] on numbers *)
Definition or_else (x y : number) : number := if truthy x then x else y.

(** [Object.is] on numbers, the comparison React applies to the
    dependency array of an effect. *)
Definition same_value (x y : number) : bool :=
  match x, y with
  | S754_nan, S754_nan => true
  | S754_zero a, S754_zero b => Bool.eqb a b
  | S754_infinity a, S754_infinity b => Bool.eqb a b
  | S754_finite a m e, S754_finite b n f =>
      Bool.eqb a b && Pos.eqb m n && Z.eqb e f
  | _, _ => false
  end.

(** The binary64 value nearest to [(-1)^neg * m * 10^e], ties to even:
    the rounding of a decimal literal. *)
Definition of_decimal (neg : bool) (m : Z) (e : Z) : number :=
  match m with
  | Zpos p =>
      if 0 <=? e then binary_round prec emax neg (p * Z.to_pos (10 ^ e))%positive 0
      else
        let '(q, e', l) :=
          SFdiv_core_binary prec emax (Zpos p) 0 (10 ^ (- e)) 0 in
        binary_round_aux prec emax neg q e' l
  | _ => S754_zero neg
  end.

(** *** The shortest decimal of a number

    [Number::toString] and the number formatter start from the decimal
    [d * 10^q] with the fewest digits [d] that reads back as the number,
    the nearest to the number when several do. *)

(** [m * 2^e] as a fraction. *)
Definition ratio (m : positive) (e : Z) : Z * Z :=
  if 0 <=? e then (Zpos m * 2 ^ e, 1) else (Zpos m, 2 ^ (- e)).

(** The least [n >= n0] with [num / den < 10^n]. *)
Fixpoint exp_up (fuel : nat) (num den n : Z) : Z :=
  match fuel with
  | O => n
  | S f => if num <? den * 10 ^ n then n else exp_up f num den (n + 1)
  end.

(** For [num / den < 10^-j]: minus the greatest such [j]. *)
Fixpoint exp_down (fuel : nat) (num den j : Z) : Z :=
  match fuel with
  | O => - j
  | S f =>
      if num * 10 ^ (j + 1) <? den then exp_down f num den (j + 1) else - j
  end.

(** The [n] with [10^(n-1) <= num / den < 10^n]; the fuel covers every
    binary64 number. *)
Definition decimal_exponent (num den : Z) : Z :=
  if den <=? num then exp_up 400 num den 1 else exp_down 400 num den 0.

(** The integer part of [num / den * 10^a]. *)
Definition scaled_floor (num den a : Z) : Z :=
  if 0 <=? a then num * 10 ^ a / den else num / (den * 10 ^ (- a)).

(** Whether [num / den * 10^a] is nearer to [lo + 1] than to [lo]; halfway
    the even one is taken. *)
Definition nearer_up (num den a lo : Z) : bool :=
  let '(l, r) :=
    if 0 <=? a then (2 * num * 10 ^ a, (2 * lo + 1) * den)
    else (2 * num, (2 * lo + 1) * den * 10 ^ (- a)) in
  (r <? l) || ((r =? l) && Z.odd lo).

Definition reads_back (x : number) (d q : Z) : bool :=
  same_value (of_decimal false d q) x.

(** Try [k] digits, then [k + 1], ...: the two decimals of [k] digits
    around the number are [lo] and [lo + 1] times [10^(n - k)].  With
    seventeen digits the nearer one always reads back. *)
Fixpoint shortest_from (fuel : nat) (x : number) (num den n k : Z) : Z * Z :=
  let a := k - n in
  let lo := scaled_floor num den a in
  let nearest := if nearer_up num den a lo then lo + 1 else lo in
  match fuel with
  | O => (nearest, - a)
  | S f =>
      match reads_back x lo (- a), reads_back x (lo + 1) (- a) with
      | true, true => (nearest, - a)
      | true, false => (lo, - a)
      | false, true => (lo + 1, - a)
      | false, false => shortest_from f x num den n (k + 1)
      end
  end.

(** The shortest decimal [(d, q)], of value [d * 10^q], of the positive
    number [m * 2^e]. *)
Definition shortest (m : positive) (e : Z) : Z * Z :=
  let '(num, den) := ratio m e in
  shortest_from 16 (S754_finite false m e) num den
                (decimal_exponent num den) 1.

End Num.

(** ** The JavaScript functions the component calls *)

Module JS.

Import Num.

Definition of_bytes (l : list N) : string :=
  fold_right (fun n s => String (ascii_of_N n) s) EmptyString l.

(** One-byte white space and line terminators: TAB, LF, VT, FF, CR, SP. *)
Definition ws1 (a : N) : bool :=
  ((9 <=? a) && (a <=? 13) || (a =? 32))%N.

(** U+00A0 in UTF-8. *)
Definition ws2 (a b : N) : bool := ((a =? 194) && (b =? 160))%N.

(** The three-byte ones: U+1680, U+2000..U+200A, U+2028, U+2029, U+202F,
    U+205F, U+3000 and U+FEFF. *)
Definition ws3 (a b c : N) : bool :=
  ((a =? 225) && (b =? 154) && (c =? 128)
   || (a =? 226) && (b =? 128)
      && ((128 <=? c) && (c <=? 138) || (c =? 168) || (c =? 169) || (c =? 175))
   || (a =? 226) && (b =? 129) && (c =? 159)
   || (a =? 227) && (b =? 128) && (c =? 128)
   || (a =? 239) && (b =? 187) && (c =? 191))%N.

(** TrimString(s, start) *)
Fixpoint trim_start (s : string) : string :=
  match s with
  | EmptyString => s
  | String c1 r1 =>
      if ws1 (N_of_ascii c1) then trim_start r1
      else
        match r1 with
        | EmptyString => s
        | String c2 r2 =>
            if ws2 (N_of_ascii c1) (N_of_ascii c2) then trim_start r2
            else
              match r2 with
              | EmptyString => s
              | String c3 r3 =>
                  if ws3 (N_of_ascii c1) (N_of_ascii c2) (N_of_ascii c3)
                  then trim_start r3
                  else s
              end
        end
  end.

(** The value of a string of decimal digits. *)
Definition digits_val (s : string) : Z :=
  (fix go (acc : Z) (s : string) : Z :=
     match s with
     | EmptyString => acc
     | String c r => go (10 * acc + Str.digit_val c) r
     end) 0 s.

Definition is_exp_mark (c : ascii) : bool :=
  let n := N_of_ascii c in ((n =? 101) || (n =? 69))%N.

(** ExponentPart, when one starts the string: [e] or [E], an optional
    sign and at least one digit.  Anything else contributes exponent 0
    and is left unread. *)
Definition exponent_part (s : string) : Z :=
  match s with
  | String c r =>
      if is_exp_mark c then
        let '(eneg, r') :=
          match r with
          | String "-" t => (true, t)
          | String "+" t => (false, t)
          | _ => (false, r)
          end in
        let '(ed, _) := Str.span Str.is_digit r' in
        if Str.is_empty ed then 0
        else if eneg then - digits_val ed else digits_val ed
      else 0
  | EmptyString => 0
  end.

(** The longest prefix that is a StrUnsignedDecimalLiteral, evaluated. *)
Definition parse_unsigned (neg : bool) (s : string) : number :=
  if String.prefix "Infinity" s then S754_infinity neg
  else
    let '(ip, r1) := Str.span Str.is_digit s in
    let '(fp, r2) :=
      match r1 with
      | String "." t => Str.span Str.is_digit t
      | _ => (EmptyString, r1)
      end in
    if Str.is_empty ip && Str.is_empty fp then NaN
    else
      of_decimal neg (digits_val (ip +:+ fp))
                 (exponent_part r2 - Z.of_nat (String.length fp)).

(** [parseFloat(s)] *)
Definition parseFloat (s : string) : number :=
  match trim_start s with
  | String "-" r => parse_unsigned true r
  | String "+" r => parse_unsigned false r
  | t => parse_unsigned false t
  end.

(** *** parseInt(s, 16) *)

Definition hex_val (c : ascii) : option Z :=
  let n := N_of_ascii c in
  if ((48 <=? n) && (n <=? 57))%N then Some (Z.of_N n - 48)
  else if ((97 <=? n) && (n <=? 102))%N then Some (Z.of_N n - 87)
  else if ((65 <=? n) && (n <=? 70))%N then Some (Z.of_N n - 55)
  else None.

Definition is_hex (c : ascii) : bool :=
  match hex_val c with Some _ => true | None => false end.

Definition hex_digits_val (s : string) : Z :=
  (fix go (acc : Z) (s : string) : Z :=
     match s with
     | EmptyString => acc
     | String c r => go (16 * acc + default 0 (hex_val c)) r
     end) 0 s.

(** [parseInt(s, 16)]; [None] is NaN.  The result is the integer read,
    which is the number JavaScript returns as long as it is below 2^53
    in magnitude; the sign of a zero is not kept. *)
Definition parseInt16 (s : string) : option Z :=
  let t := trim_start s in
  let '(neg, t1) :=
    match t with
    | String "-" r => (true, r)
    | String "+" r => (false, r)
    | _ => (false, t)
    end in
  let t2 :=
    match t1 with
    | String "0" (String "x" r) => r
    | String "0" (String "X" r) => r
    | _ => t1
    end in
  let '(ds, _) := Str.span is_hex t2 in
  if Str.is_empty ds then None
  else Some (if neg then - hex_digits_val ds else hex_digits_val ds).

(** [n.toString(16)] for an integer [n] *)
Definition toString16 (n : Z) : string :=
  HexadecimalString.NilZero.string_of_int (Z.to_hex_int n).

(** [String(n)] for the result of [parseInt] *)
Definition int_to_string (v : option Z) : string :=
  match v with
  | None => "NaN"
  | Some n => Str.of_Z n
  end.

(** *** encodeURIComponent *)

Definition unreserved (c : ascii) : bool :=
  let n := N_of_ascii c in
  ((65 <=? n) && (n <=? 90) || (97 <=? n) && (n <=? 122)
   || (48 <=? n) && (n <=? 57)
   || (n =? 45) || (n =? 95) || (n =? 46) || (n =? 33) || (n =? 126)
   || (n =? 42) || (n =? 39) || (n =? 40) || (n =? 41))%N.

Definition hex_upper (n : N) : ascii :=
  if (n <? 10)%N then ascii_of_N (48 + n) else ascii_of_N (55 + n).

(** Every byte outside the unreserved set becomes [%XX].  (The strings
    of this model are well-formed UTF-8, so the URIError that
    JavaScript raises on a lone surrogate cannot happen.) *)
Fixpoint encodeURIComponent (s : string) : string :=
  match s with
  | EmptyString => EmptyString
  | String c r =>
      if unreserved c then String c (encodeURIComponent r)
      else
        let n := N_of_ascii c in
        String "%" (String (hex_upper (n / 16)) (String (hex_upper (n mod 16))
          (encodeURIComponent r)))
  end.

End JS.

(** ** Number formatting for the locale es-VE

    [x.toLocaleString('es-VE', { minimumFractionDigits, maximumFractionDigits })]
    as ECMA-402 defines it, with the locale data of es-VE: decimal
    comma, groups of three separated by a full stop from four integer
    digits on, a hyphen for the sign, "NaN" and the infinity sign for the
    non-finite values.  The formatter rounds the shortest decimal that
    reads back as the number, not the binary value itself, to the nearest
    multiple of [10^-maxFD], ties away from zero: 63.735, though stored
    slightly below, is shown as 63,74. *)

Module Intl.

Import Num.

Fixpoint rev_onto (s acc : string) : string :=
  match s with
  | EmptyString => acc
  | String c r => rev_onto r (String c acc)
  end.

Definition rev (s : string) : string := rev_onto s EmptyString.

Fixpoint zeros (n : nat) : string :=
  match n with
  | O => EmptyString
  | S k => String "0" (zeros k)
  end.

(** Pad with zeros on the left up to length [n]. *)
Definition pad_left (n : nat) (s : string) : string :=
  zeros (n - String.length s) +:+ s.

(** The decimal [d * 10^q] rounded to [f] fraction digits, ties away
    from zero (the rounding mode halfExpand), as the integer number of
    units of [10^-f]. *)
Definition round_half_expand (d q : Z) (f : nat) : Z :=
  let a := q + Z.of_nat f in
  if 0 <=? a then d * 10 ^ a
  else (2 * d + 10 ^ (- a)) / (2 * 10 ^ (- a)).

(** Remove up to [cut] zeros from the front (of a reversed fraction). *)
Fixpoint strip_zeros (cut : nat) (s : string) : string :=
  match cut, s with
  | S k, String "0" r => strip_zeros k r
  | _, _ => s
  end.

(** ToRawFixed: the digits of [n / 10^maxFD], integer part and fraction,
    the fraction without the trailing zeros beyond [minFD] places. *)
Definition raw_fixed (n : Z) (minFD maxFD : nat) : string * string :=
  let ds := pad_left (S maxFD) (Str.of_Z n) in
  let k := (String.length ds - maxFD)%nat in
  (Str.take k ds, rev (strip_zeros (maxFD - minFD) (rev (Str.drop k ds)))).

(** Separator before every complete group of three, on reversed digits. *)
Fixpoint group_rev (k : nat) (s : string) : string :=
  match s with
  | EmptyString => EmptyString
  | String c r =>
      match k with
      | O => String "." (String c (group_rev 2 r))
      | S k' => String c (group_rev k' r)
      end
  end.

Definition group (s : string) : string := rev (group_rev 3 (rev s)).

Definition format_scaled (n : Z) (minFD maxFD : nat) : string :=
  let '(a, b) := raw_fixed n minFD maxFD in
  if Str.is_empty b then group a else group a +:+ "," +:+ b.

Definition minus (s : bool) : string := if s then "-" else "".

Definition infinity_sign : string := JS.of_bytes [226; 136; 158]%N.

Definition toLocaleString_esVE (minFD maxFD : nat) (x : number) : string :=
  match x with
  | S754_nan => "NaN"
  | S754_infinity s => minus s +:+ infinity_sign
  | S754_zero s => minus s +:+ format_scaled 0 minFD maxFD
  | S754_finite s m e =>
      let '(d, q) := shortest m e in
      minus s +:+ format_scaled (round_half_expand d q maxFD) minFD maxFD
  end.

(** [{ minimumFractionDigits: 2, maximumFractionDigits: 2 }] *)
Definition fmt_2_2 : number -> string := toLocaleString_esVE 2 2.

(** [{ minimumFractionDigits: 2 }]: the maximum defaults to
    [max(2, 3) = 3]. *)
Definition fmt_min2 : number -> string := toLocaleString_esVE 2 3.

End Intl.

(** ** Data of the component *)

Record AppConfig := {
  tasa : Num.number;
  whatsapp : string;
  nombreNegocio : string;
  bankName : string;
  bankCode : string;
  cedula : string;
  telefono : string;
  themeColor : string;
  lastUpdate : Z;
  googleScriptUrl : string
}.

(** What [snapshot.val()] holds under [config]: any subset of the fields. *)
Record ConfigData := {
  d_tasa : option Num.number;
  d_whatsapp : option string;
  d_nombreNegocio : option string;
  d_bankName : option string;
  d_bankCode : option string;
  d_cedula : option string;
  d_telefono : option string;
  d_themeColor : option string;
  d_lastUpdate : option Z;
  d_googleScriptUrl : option string
}.

(** The fields of a [File] the component reads. *)
Record File := {
  file_name : string;
  file_type : string;
  file_size : Z
}.

Variant ToastType := success | error | info.

Record Toast := { message : string; type : ToastType; show : bool }.

Record Errors := { amount_error : bool; reference_error : bool }.

(** The record pushed under [payments]. *)
Record Payment := {
  p_date : string;
  p_amountUSD : Num.number;
  p_amountBs : string;
  p_reference : string;
  p_photoUrl : option string;
  p_timestamp : Z
}.

(** The JSON body sent to the upload endpoint. *)
Record UploadPayload := {
  u_filename : string;
  u_mimeType : string;
  u_file : string
}.

(** The parsed body of the endpoint's answer: [data.result], [data.url]. *)
Record UploadReply := { result : string; url : option string }.

Variant Field := AmountInput | ReferenceInput.

(** What a handler does to the world outside the React state. *)
Variant Effect :=
  | Notice (t : ToastType) (msg : string)          (* showToast *)
  | Focus (f : Field)                              (* ref.current.focus() *)
  | Fetch (endpoint : string) (body : UploadPayload)
  | Push (record : Payment)                        (* push(ref(db, 'payments'), _) *)
  | SetConfig (c : AppConfig)                      (* set(ref(db, 'config'), _) *)
  | ConsoleError (msg : string)
  | WindowOpen (link : string)                     (* window.open(_, '_blank') *)
  | CreateObjectURL (f : File)
  | RevokeObjectURL (u : string).

(** The state hooks of [App] that these handlers read or write, and the
    custom properties of the root element's style. *)
Record State := {
  config : AppConfig;
  amountUSD : string;
  amountBs : string;
  reference : string;
  selectedFile : option File;
  previewUrl : option string;
  isUploading : bool;
  showSettings : bool;
  editConfig : AppConfig;
  tasaInput : string;
  isSaving : bool;
  saveSuccess : bool;
  toast : Toast;
  errors : Errors;
  rootStyle : gmap string string
}.

(** What the outside world answers during one handler call. *)
Record World := {
  db_ready : bool;                       (* [db] is not null *)
  amount_input_mounted : bool;           (* [amountInputRef.current] *)
  reference_input_mounted : bool;        (* [referenceInputRef.current] *)
  read_file : option string;             (* fileToBase64; [None]: rejected *)
  upload_reply : option UploadReply;     (* fetch and json(); [None]: threw *)
  push_ok : bool;                        (* push resolved *)
  set_ok : bool;                         (* set resolved *)
  now_upload : Z;                        (* Date.now() in the file name *)
  now_push : Z;                          (* Date.now() in the record *)
  now_save : Z;                          (* Date.now() in saveSettings *)
  iso_now : string;                      (* new Date().toISOString() *)
  fecha : string;                        (* toLocaleDateString('es-VE') *)
  hora : string                          (* toLocaleTimeString('es-VE', _) *)
}.

(** ** Handlers as state-and-effect computations *)

Module Act.

Definition M (A : Type) : Type := State -> A * State * list Effect.

Definition ret {A} (a : A) : M A := fun s => (a, s, []).

Definition bind {A B} (m : M A) (k : A -> M B) : M B :=
  fun s =>
    let '(a, s1, e1) := m s in
    let '(b, s2, e2) := k a s1 in
    (b, s2, e1 ++ e2).

(** The state of the render a handler closes over. *)
Definition get : M State := fun s => (s, s, []).

(** A state setter. *)
Definition modify (f : State -> State) : M unit := fun s => (tt, f s, []).

Definition emit (e : Effect) : M unit := fun s => (tt, s, [e]).

Definition when (b : bool) (m : M unit) : M unit := if b then m else ret tt.

Definition state_of {A} (r : A * State * list Effect) : State := snd (fst r).
Definition effects_of {A} (r : A * State * list Effect) : list Effect := snd r.
Definition value_of {A} (r : A * State * list Effect) : A := fst (fst r).

End Act.

Declare Scope act_scope.
Delimit Scope act_scope with act.
Notation "x <- m ;; k" := (Act.bind m (fun x => k))
  (at level 100, m at next level, right associativity) : act_scope.
Notation "m ;; k" := (Act.bind m (fun _ => k))
  (at level 100, right associativity) : act_scope.

(** State setters, one per hook. *)

Definition set_config (v : AppConfig) (s : State) : State :=
  Build_State v (amountUSD s) (amountBs s) (reference s) (selectedFile s)
    (previewUrl s) (isUploading s) (showSettings s) (editConfig s)
    (tasaInput s) (isSaving s) (saveSuccess s) (toast s) (errors s)
    (rootStyle s).

Definition set_amountUSD (v : string) (s : State) : State :=
  Build_State (config s) v (amountBs s) (reference s) (selectedFile s)
    (previewUrl s) (isUploading s) (showSettings s) (editConfig s)
    (tasaInput s) (isSaving s) (saveSuccess s) (toast s) (errors s)
    (rootStyle s).

Definition set_amountBs (v : string) (s : State) : State :=
  Build_State (config s) (amountUSD s) v (reference s) (selectedFile s)
    (previewUrl s) (isUploading s) (showSettings s) (editConfig s)
    (tasaInput s) (isSaving s) (saveSuccess s) (toast s) (errors s)
    (rootStyle s).

Definition set_reference (v : string) (s : State) : State :=
  Build_State (config s) (amountUSD s) (amountBs s) v (selectedFile s)
    (previewUrl s) (isUploading s) (showSettings s) (editConfig s)
    (tasaInput s) (isSaving s) (saveSuccess s) (toast s) (errors s)
    (rootStyle s).

Definition set_selectedFile (v : option File) (s : State) : State :=
  Build_State (config s) (amountUSD s) (amountBs s) (reference s) v
    (previewUrl s) (isUploading s) (showSettings s) (editConfig s)
    (tasaInput s) (isSaving s) (saveSuccess s) (toast s) (errors s)
    (rootStyle s).

Definition set_previewUrl (v : option string) (s : State) : State :=
  Build_State (config s) (amountUSD s) (amountBs s) (reference s)
    (selectedFile s) v (isUploading s) (showSettings s) (editConfig s)
    (tasaInput s) (isSaving s) (saveSuccess s) (toast s) (errors s)
    (rootStyle s).

Definition set_isUploading (v : bool) (s : State) : State :=
  Build_State (config s) (amountUSD s) (amountBs s) (reference s)
    (selectedFile s) (previewUrl s) v (showSettings s) (editConfig s)
    (tasaInput s) (isSaving s) (saveSuccess s) (toast s) (errors s)
    (rootStyle s).

Definition set_showSettings (v : bool) (s : State) : State :=
  Build_State (config s) (amountUSD s) (amountBs s) (reference s)
    (selectedFile s) (previewUrl s) (isUploading s) v (editConfig s)
    (tasaInput s) (isSaving s) (saveSuccess s) (toast s) (errors s)
    (rootStyle s).

Definition set_editConfig (v : AppConfig) (s : State) : State :=
  Build_State (config s) (amountUSD s) (amountBs s) (reference s)
    (selectedFile s) (previewUrl s) (isUploading s) (showSettings s) v
    (tasaInput s) (isSaving s) (saveSuccess s) (toast s) (errors s)
    (rootStyle s).

Definition set_tasaInput (v : string) (s : State) : State :=
  Build_State (config s) (amountUSD s) (amountBs s) (reference s)
    (selectedFile s) (previewUrl s) (isUploading s) (showSettings s)
    (editConfig s) v (isSaving s) (saveSuccess s) (toast s) (errors s)
    (rootStyle s).

Definition set_isSaving (v : bool) (s : State) : State :=
  Build_State (config s) (amountUSD s) (amountBs s) (reference s)
    (selectedFile s) (previewUrl s) (isUploading s) (showSettings s)
    (editConfig s) (tasaInput s) v (saveSuccess s) (toast s) (errors s)
    (rootStyle s).

Definition set_saveSuccess (v : bool) (s : State) : State :=
  Build_State (config s) (amountUSD s) (amountBs s) (reference s)
    (selectedFile s) (previewUrl s) (isUploading s) (showSettings s)
    (editConfig s) (tasaInput s) (isSaving s) v (toast s) (errors s)
    (rootStyle s).

Definition set_toast (v : Toast) (s : State) : State :=
  Build_State (config s) (amountUSD s) (amountBs s) (reference s)
    (selectedFile s) (previewUrl s) (isUploading s) (showSettings s)
    (editConfig s) (tasaInput s) (isSaving s) (saveSuccess s) v (errors s)
    (rootStyle s).

Definition set_errors (v : Errors) (s : State) : State :=
  Build_State (config s) (amountUSD s) (amountBs s) (reference s)
    (selectedFile s) (previewUrl s) (isUploading s) (showSettings s)
    (editConfig s) (tasaInput s) (isSaving s) (saveSuccess s) (toast s) v
    (rootStyle s).

Definition set_rootStyle (v : gmap string string) (s : State) : State :=
  Build_State (config s) (amountUSD s) (amountBs s) (reference s)
    (selectedFile s) (previewUrl s) (isUploading s) (showSettings s)
    (editConfig s) (tasaInput s) (isSaving s) (saveSuccess s) (toast s)
    (errors s) v.


Local Open Scope act_scope.

(** ** The helpers of [App.tsx] *)

(** *** UTF-16 code units

    JavaScript counts and cuts strings by UTF-16 code units.  [units]
    gives the code units of a text from its UTF-8 bytes, a character
    beyond U+FFFF as its two surrogates; [text] gives the bytes back, a
    surrogate that stands alone written like any other unit of three
    bytes.  (Bytes that are no UTF-8 are read byte by byte; the strings
    of this model are well-formed.) *)

Module Utf16.

(** The six payload bits of a continuation byte. *)
Definition cont (b : N) : N := (b mod 64)%N.

Fixpoint units (s : string) : list N :=
  match s with
  | EmptyString => []
  | String c1 r1 =>
      let b1 := N_of_ascii c1 in
      if (b1 <? 192)%N then b1 :: units r1
      else
        match r1 with
        | EmptyString => [b1]
        | String c2 r2 =>
            let b2 := N_of_ascii c2 in
            if (b1 <? 224)%N
            then ((b1 - 192) * 64 + cont b2)%N :: units r2
            else
              match r2 with
              | EmptyString => [b1; b2]
              | String c3 r3 =>
                  let b3 := N_of_ascii c3 in
                  if (b1 <? 240)%N
                  then ((b1 - 224) * 4096 + cont b2 * 64 + cont b3)%N
                       :: units r3
                  else
                    match r3 with
                    | EmptyString => [b1; b2; b3]
                    | String c4 r4 =>
                        let b4 := N_of_ascii c4 in
                        let v :=
                          ((b1 - 240) * 262144 + cont b2 * 4096
                           + cont b3 * 64 + cont b4 - 65536)%N in
                        (55296 + v / 1024)%N :: (56320 + v mod 1024)%N
                        :: units r4
                    end
              end
        end
  end.

Definition is_high (u : N) : bool := ((55296 <=? u) && (u <? 56320))%N.
Definition is_low (u : N) : bool := ((56320 <=? u) && (u <? 57344))%N.

(** One code unit on its own. *)
Definition unit_text (u : N) : string :=
  if (u <? 128)%N then String (ascii_of_N u) EmptyString
  else if (u <? 2048)%N
  then String (ascii_of_N (192 + u / 64))
         (String (ascii_of_N (128 + u mod 64)) EmptyString)
  else String (ascii_of_N (224 + u / 4096))
         (String (ascii_of_N (128 + (u / 64) mod 64))
            (String (ascii_of_N (128 + u mod 64)) EmptyString)).

(** A high surrogate followed by a low one: a character of four bytes. *)
Definition pair_text (h l : N) : string :=
  let cp := (65536 + (h - 55296) * 1024 + (l - 56320))%N in
  String (ascii_of_N (240 + cp / 262144))
    (String (ascii_of_N (128 + (cp / 4096) mod 64))
       (String (ascii_of_N (128 + (cp / 64) mod 64))
          (String (ascii_of_N (128 + cp mod 64)) EmptyString))).

Fixpoint text (l : list N) : string :=
  match l with
  | [] => EmptyString
  | u :: t =>
      match t with
      | v :: t' =>
          if is_high u && is_low v then pair_text u v +:+ text t'
          else unit_text u +:+ text t
      | [] => unit_text u
      end
  end.

(** [s.slice(a, b)] on code units, for [0 <= a <= b] *)
Definition slice (a b : nat) (l : list N) : list N :=
  firstn (b - a) (skipn a l).

End Utf16.

(** What [.] matches in a regular expression without the [u] flag: any
    code unit but the line terminators LF, CR, U+2028 and U+2029. *)
Definition dot (u : N) : bool :=
  negb ((u =? 10) || (u =? 13) || (u =? 8232) || (u =? 8233))%N.

(** [s.replace(/^#/, '')] *)
Definition strip_hash (s : string) : string :=
  match s with
  | String "#" r => r
  | _ => s
  end.

(** [s.replace(/../g, f)] on the code units of [s]: every two consecutive
    units that [.] matches, scanning from the left, are replaced by [f]
    of them; the others stay. *)
Fixpoint replace_pairs (f : string -> string) (l : list N) : string :=
  match l with
  | [] => EmptyString
  | a :: t =>
      match t with
      | b :: r =>
          if dot a && dot b
          then f (Utf16.text [a; b]) +:+ replace_pairs f r
          else Utf16.unit_text a +:+ replace_pairs f t
      | [] => Utf16.unit_text a
      end
  end.

(** The callback of [adjustColor]:
    [('0' + Math.min(255, Math.max(0, parseInt(color, 16) + amount)).toString(16)).substr(-2)];
    [Math.max] and [Math.min] propagate NaN, which prints as "NaN". *)
Definition shade (amount : Z) (pair : string) : string :=
  let text :=
    match JS.parseInt16 pair with
    | None => "NaN"
    | Some n => JS.toString16 (Z.min 255 (Z.max 0 (n + amount)))
    end in
  Str.last_n 2 ("0" +:+ text).

(** [adjustColor(color, amount)], for an integer [amount]. *)
Definition adjustColor (color : string) (amount : Z) : string :=
  "#" +:+ replace_pairs (shade amount) (Utf16.units (strip_hash color)).

(** [hexToRgba(hex, alpha)]; [alphaText] is the text the template
    literal prints for [alpha] ("0.2" for 0.2). *)
Definition hexToRgba (hex : string) (alphaText : string) : string :=
  let u := Utf16.units hex in
  let r := JS.parseInt16 (Utf16.text (Utf16.slice 1 3 u)) in
  let g := JS.parseInt16 (Utf16.text (Utf16.slice 3 5 u)) in
  let b := JS.parseInt16 (Utf16.text (Utf16.slice 5 7 u)) in
  "rgba(" +:+ JS.int_to_string r +:+ ", " +:+ JS.int_to_string g +:+ ", "
    +:+ JS.int_to_string b +:+ ", " +:+ alphaText +:+ ")".

(** The six [setProperty] calls of [updateTheme], in order. *)
Definition themeProperties (colorHex : string) (style : gmap string string)
  : gmap string string :=
  let dark := adjustColor colorHex (-20) in
  let darker := adjustColor colorHex (-40) in
  let shadow := hexToRgba colorHex "0.2" in
  <["--shadow-color" := shadow]>
    (<["--color-primary-lighter" := "#f9fafb"]>
      (<["--color-primary-light" := "#f3f4f6"]>
        (<["--color-primary-darker" := darker]>
          (<["--color-primary-dark" := dark]>
            (<["--color-primary" := colorHex]> style))))).

Definition updateTheme (colorHex : string) : Act.M unit :=
  Act.modify (fun s => set_rootStyle (themeProperties colorHex (rootStyle s)) s).

Definition showToast (msg : string) (t : ToastType) : Act.M unit :=
  Act.modify (set_toast {| message := msg; type := t; show := true |});;
  Act.emit (Notice t msg).

(** [/^\d*\.?\d*$/.test(v)], the filter of the rate field. *)
Definition tasa_pattern (v : string) : bool :=
  let '(_, r1) := Str.span Str.is_digit v in
  let r2 := match r1 with String "." t => t | _ => r1 end in
  let '(_, r3) := Str.span Str.is_digit r2 in
  Str.is_empty r3.

(** [fiveMB = 5 * 1024 * 1024] *)
Definition max_file_size : Z := 5 * 1024 * 1024.

Definition with_tasa (c : AppConfig) (t : Num.number) (updated : Z)
  : AppConfig :=
  {| tasa := t; whatsapp := whatsapp c; nombreNegocio := nombreNegocio c;
     bankName := bankName c; bankCode := bankCode c; cedula := cedula c;
     telefono := telefono c; themeColor := themeColor c;
     lastUpdate := updated; googleScriptUrl := googleScriptUrl c |}.

(** [{ ...base, ...data }] *)
Definition merge (base : AppConfig) (data : ConfigData) : AppConfig :=
  {| tasa := default (tasa base) (d_tasa data);
     whatsapp := default (whatsapp base) (d_whatsapp data);
     nombreNegocio := default (nombreNegocio base) (d_nombreNegocio data);
     bankName := default (bankName base) (d_bankName data);
     bankCode := default (bankCode base) (d_bankCode data);
     cedula := default (cedula base) (d_cedula data);
     telefono := default (telefono base) (d_telefono data);
     themeColor := default (themeColor base) (d_themeColor data);
     lastUpdate := default (lastUpdate base) (d_lastUpdate data);
     googleScriptUrl := default (googleScriptUrl base) (d_googleScriptUrl data) |}.

(** The fields of the admin form other than the rate. *)
Variant ConfigField :=
  | F_nombreNegocio | F_whatsapp | F_bankName | F_bankCode | F_cedula
  | F_telefono | F_themeColor | F_googleScriptUrl.

(** The [onChange] of each field; the WhatsApp number and the cedula keep
    their digits only. *)
Definition edit_field (f : ConfigField) (v : string) (c : AppConfig)
  : AppConfig :=
  {| tasa := tasa c;
     whatsapp :=
       match f with F_whatsapp => Str.filter Str.is_digit v | _ => whatsapp c end;
     nombreNegocio := match f with F_nombreNegocio => v | _ => nombreNegocio c end;
     bankName := match f with F_bankName => v | _ => bankName c end;
     bankCode := match f with F_bankCode => v | _ => bankCode c end;
     cedula :=
       match f with F_cedula => Str.filter Str.is_digit v | _ => cedula c end;
     telefono := match f with F_telefono => v | _ => telefono c end;
     themeColor := match f with F_themeColor => v | _ => themeColor c end;
     lastUpdate := lastUpdate c;
     googleScriptUrl :=
       match f with F_googleScriptUrl => v | _ => googleScriptUrl c end |}.

(** ** The component

    [loadTime] is the value of [Date.now()] when the module was loaded,
    the [lastUpdate] of [DEFAULT_CONFIG]. *)

Section Component.

Variable loadTime : Z.

Definition DEFAULT_CONFIG : AppConfig :=
  {| tasa := Num.of_Z 60;
     whatsapp := "584129855266";
     nombreNegocio := "Inversiones GSKY";
     bankName := "Banesco";
     bankCode := "0134";
     cedula := "14866713";
     telefono := "04129855266";
     themeColor := "#20963b";
     lastUpdate := loadTime;
     googleScriptUrl :=
       "https://script.google.com/macros/s/AKfycbwjeRpKBlmUcj5hG-n4d3VyYnQXghBNMqW_yRO1g_yuW57l97mnfhq-V3SEBZqzvAxZRw/exec" |}.

(** The values the [useState] calls start from. *)
Definition initial_state : State :=
  {| config := DEFAULT_CONFIG;
     amountUSD := "";
     amountBs := "";
     reference := "";
     selectedFile := None;
     previewUrl := None;
     isUploading := false;
     showSettings := false;
     editConfig := DEFAULT_CONFIG;
     tasaInput := "";
     isSaving := false;
     saveSuccess := false;
     toast := {| message := ""; type := info; show := false |};
     errors := {| amount_error := false; reference_error := false |};
     rootStyle := ∅ |}.

(** The [onValue] callback on [config]. *)
Definition onConfigSnapshot (data : option ConfigData) : Act.M unit :=
  match data with
  | Some d =>
      let mergedConfig := merge DEFAULT_CONFIG d in
      Act.modify (set_config mergedConfig);;
      updateTheme
        (if Str.is_empty (themeColor mergedConfig)
         then themeColor DEFAULT_CONFIG else themeColor mergedConfig)
  | None => Act.ret tt
  end.

(** The effect with dependency [config.tasa]. *)
Definition tasaEffect : Act.M unit :=
  s <- Act.get;;
  if negb (Str.is_empty (amountUSD s))
     && negb (Num.isNaN (JS.parseFloat (amountUSD s)))
  then
    let calculated := Num.mul (JS.parseFloat (amountUSD s)) (tasa (config s)) in
    Act.modify (set_amountBs (Intl.fmt_2_2 calculated))
  else Act.ret tt.

Definition handleAmountChange (value : string) : Act.M unit :=
  s <- Act.get;;
  Act.modify (set_amountUSD value);;
  Act.modify (fun p =>
    set_errors {| amount_error := false;
                  reference_error := reference_error (errors p) |} p);;
  if negb (Str.is_empty value) && negb (Num.isNaN (JS.parseFloat value))
  then
    let calculated := Num.mul (JS.parseFloat value) (tasa (config s)) in
    Act.modify (set_amountBs (Intl.fmt_2_2 calculated))
  else Act.modify (set_amountBs "").

Definition handleReferenceChange (input : string) : Act.M unit :=
  let value := Str.take 4 (Str.filter Str.is_digit input) in
  Act.modify (set_reference value);;
  Act.modify (fun p =>
    set_errors {| amount_error := amount_error (errors p);
                  reference_error := false |} p).

(** [files] is [e.target.files] (empty when absent), [blobUrl] what
    [URL.createObjectURL] returns. *)
Definition handleFileSelect (files : list File) (blobUrl : string)
  : Act.M unit :=
  match files with
  | file :: _ =>
      if max_file_size <? file_size file
      then showToast "La imagen es muy grande (Max 5MB)" error
      else
        Act.modify (set_selectedFile (Some file));;
        Act.emit (CreateObjectURL file);;
        Act.modify (set_previewUrl (Some blobUrl))
  | [] => Act.ret tt
  end.

(** A string or nothing, as a condition. *)
Definition truthy_str (v : option string) : bool :=
  match v with
  | Some u => negb (Str.is_empty u)
  | None => false
  end.

Definition clearFile : Act.M unit :=
  s <- Act.get;;
  Act.modify (set_selectedFile None);;
  Act.when (truthy_str (previewUrl s))
    (Act.emit (RevokeObjectURL (default "" (previewUrl s))));;
  Act.modify (set_previewUrl None).

(** [uploadImageToDrive(file)]: the link, or [None] for [null]. *)
Definition uploadImageToDrive (w : World) (cfg : AppConfig) (file : File)
  : Act.M (option string) :=
  if Str.is_empty (googleScriptUrl cfg)
  then showToast "Error: Falta URL de Script" error;; Act.ret None
  else
    match read_file w with
    | None => Act.emit (ConsoleError "Upload Error:");; Act.ret None
    | Some base64Content =>
        let payload :=
          {| u_filename :=
               "pago_" +:+ Str.of_Z (now_upload w) +:+ "_" +:+ file_name file;
             u_mimeType := file_type file;
             u_file := base64Content |} in
        Act.emit (Fetch (googleScriptUrl cfg) payload);;
        match upload_reply w with
        | None => Act.emit (ConsoleError "Upload Error:");; Act.ret None
        | Some data =>
            if String.eqb (result data) "success" then Act.ret (url data)
            else Act.ret None
        end
    end.

Definition newline : string := String (ascii_of_N 10) EmptyString.

(** The text of the notification. *)
Definition mensaje (cfg : AppConfig) (w : World) (usd : Num.number)
  (bs ref imageUrl : string) : string :=
  let tasaFmt := Intl.fmt_min2 (tasa cfg) in
  let usdFmt := Intl.fmt_min2 usd in
  "PAGO MOVIL - " +:+ nombreNegocio cfg +:+ newline
  +:+ "📅 " +:+ fecha w +:+ " " +:+ hora w +:+ newline +:+ newline
  +:+ "💵 " +:+ usdFmt +:+ " USD (Tasa: " +:+ tasaFmt +:+ ")" +:+ newline
  +:+ "✅ " +:+ bs +:+ " Bs" +:+ newline +:+ newline
  +:+ "🔢 Ref: " +:+ ref
  +:+ (if Str.is_empty imageUrl then ""
       else newline +:+ newline +:+ "📷 FOTO: " +:+ imageUrl).

(** Steps 2 and 3 of [handleNotifyPayment], once the image link is known. *)
Definition saveAndNotify (w : World) (s : State) (usd : Num.number)
  (imageUrl : string) : Act.M unit :=
  Act.when (db_ready w)
    (let newPayment :=
       {| p_date := iso_now w;
          p_amountUSD := usd;
          p_amountBs := amountBs s;
          p_reference := reference s;
          p_photoUrl := if Str.is_empty imageUrl then None else Some imageUrl;
          p_timestamp := now_push w |} in
     Act.emit (Push newPayment);;
     Act.when (negb (push_ok w))
       (Act.emit (ConsoleError "Error saving payment record:")));;
  Act.modify (set_isUploading false);;
  let link :=
    "https://wa.me/" +:+ whatsapp (config s) +:+ "?text="
    +:+ JS.encodeURIComponent
          (mensaje (config s) w usd (amountBs s) (reference s) imageUrl) in
  Act.emit (WindowOpen link);;
  showToast "Abriendo WhatsApp..." success.

(** [!amountUSD || isNaN(usd) || usd <= 0] *)
Definition amount_rejected (amountUSD : string) : bool :=
  let usd := JS.parseFloat amountUSD in
  Str.is_empty amountUSD || Num.isNaN usd || Num.leb usd Num.zero.

(** [reference.length !== 4] *)
Definition reference_rejected (reference : string) : bool :=
  negb (String.length reference =? 4)%nat.

Definition handleNotifyPayment (w : World) : Act.M unit :=
  s <- Act.get;;
  let usd := JS.parseFloat (amountUSD s) in
  let amountBad := amount_rejected (amountUSD s) in
  let referenceBad := reference_rejected (reference s) in
  Act.when (amountBad && amount_input_mounted w) (Act.emit (Focus AmountInput));;
  Act.when (referenceBad && negb amountBad && reference_input_mounted w)
    (Act.emit (Focus ReferenceInput));;
  Act.modify (set_errors {| amount_error := amountBad;
                            reference_error := referenceBad |});;
  if amountBad || referenceBad
  then showToast "Por favor completa todos los campos" error
  else
    Act.modify (set_isUploading true);;
    match selectedFile s with
    | Some file =>
        uploadedLink <- uploadImageToDrive w (config s) file;;
        if truthy_str uploadedLink
        then saveAndNotify w s usd (default "" uploadedLink)
        else
          showToast "Error subiendo imagen. Verifica tu conexión." error;;
          Act.modify (set_isUploading false)
    | None => saveAndNotify w s usd ""
    end.

(** [enterSettings]; [tasaText] is [config.tasa.toString()]. *)
Definition enterSettings (tasaText : string) : Act.M unit :=
  s <- Act.get;;
  Act.modify (set_editConfig (config s));;
  Act.modify (set_tasaInput tasaText);;
  Act.modify (set_showSettings true).

(** The [onChange] of the rate field. *)
Definition handleTasaInput (v : string) : Act.M unit :=
  Act.when (tasa_pattern v) (Act.modify (set_tasaInput v)).

Definition handleEditField (f : ConfigField) (v : string) : Act.M unit :=
  Act.modify (fun p => set_editConfig (edit_field f v (editConfig p)) p).

(** [parseFloat(tasaInput) || 0] *)
Definition finalTasa (input : string) : Num.number :=
  Num.or_else (JS.parseFloat input) Num.zero.

Definition saveSettings (w : World) : Act.M unit :=
  s <- Act.get;;
  if negb (db_ready w) then Act.ret tt
  else
    Act.modify (set_isSaving true);;
    Act.modify (set_saveSuccess false);;
    let newConfig :=
      with_tasa (editConfig s) (finalTasa (tasaInput s)) (now_save w) in
    Act.emit (SetConfig newConfig);;
    (if set_ok w
     then updateTheme (themeColor newConfig);; Act.modify (set_saveSuccess true)
     else showToast "Error al guardar en Firebase" error);;
    Act.modify (set_isSaving false).

(** The timer [saveSettings] starts after a successful write. *)
Definition saveSettingsTimer : Act.M unit :=
  Act.modify (set_showSettings false);;
  Act.modify (set_saveSuccess false);;
  showToast "Configuración actualizada" success.

(** ** Events and runs *)

Variant Event :=
  | AmountChange (value : string)
  | ReferenceChange (value : string)
  | FileSelect (files : list File) (blobUrl : string)
  | ClearFile
  | ConfigSnapshot (data : option ConfigData)
  | NotifyPayment (w : World)
  | EnterSettings (tasaText : string)
  | TasaInputChange (value : string)
  | EditField (f : ConfigField) (value : string)
  | SaveSettings (w : World)
  | SaveSettingsTimer.

Definition dispatch (ev : Event) : Act.M unit :=
  match ev with
  | AmountChange v => handleAmountChange v
  | ReferenceChange v => handleReferenceChange v
  | FileSelect files u => handleFileSelect files u
  | ClearFile => clearFile
  | ConfigSnapshot d => onConfigSnapshot d
  | NotifyPayment w => handleNotifyPayment w
  | EnterSettings t => enterSettings t
  | TasaInputChange v => handleTasaInput v
  | EditField f v => handleEditField f v
  | SaveSettings w => saveSettings w
  | SaveSettingsTimer => saveSettingsTimer
  end.

(** The cleanup of the effect with dependency [previewUrl]. *)
Definition previewCleanup (old : option string) : Act.M unit :=
  Act.when (truthy_str old) (Act.emit (RevokeObjectURL (default "" old))).

(** One event: the handler runs to its end on the state of the current
    render, then the effects whose dependency changed run on the state of
    the next render. *)
Definition step (ev : Event) : Act.M unit :=
  s <- Act.get;;
  dispatch ev;;
  s' <- Act.get;;
  Act.when (negb (Num.same_value (tasa (config s)) (tasa (config s'))))
    tasaEffect;;
  Act.when (negb (bool_decide (previewUrl s = previewUrl s')))
    (previewCleanup (previewUrl s)).

Fixpoint run (evs : list Event) : Act.M unit :=
  match evs with
  | [] => Act.ret tt
  | ev :: rest => step ev;; run rest
  end.

(** The state of the form after the events [evs], from the first render.
    Events are taken in any order, which covers every order the page
    allows. *)
Definition state_after (evs : list Event) : State :=
  Act.state_of (run evs initial_state).

End Component.

(** ** What the claims speak about *)

(** *** The calculator *)

(** The Bolivar text the form must show for the dollar text [usd] at the
    rate [rate]: empty when [usd] is empty or not a number, else the
    product with two decimals. *)
Definition derived_bs (usd : string) (rate : Num.number) : string :=
  if Str.is_empty usd || Num.isNaN (JS.parseFloat usd) then ""
  else Intl.fmt_2_2 (Num.mul (JS.parseFloat usd) rate).

Definition bs_in_sync (s : State) : Prop :=
  amountBs s = derived_bs (amountUSD s) (tasa (config s)).

(** A number that is neither NaN nor infinite. *)
Definition finite (x : Num.number) : Prop :=
  match x with
  | S754_zero _ | S754_finite _ _ _ => True
  | _ => False
  end.

(** *** Validation *)

(** At most four characters, all of them decimal digits. *)
Definition reference_ok (r : string) : Prop :=
  Str.forallb Str.is_digit r = true /\ (String.length r <= 4)%nat.

(** The dollar text parses as a positive number. *)
Definition parses_positive (usd : string) : Prop :=
  Num.ltb Num.zero (JS.parseFloat usd) = true.

(** Exactly four decimal digits. *)
Definition four_digits (r : string) : Prop :=
  String.length r = 4%nat /\ Str.forallb Str.is_digit r = true.

(** What may follow the digits without being read as part of the number:
    nothing, or a character that is no digit, no decimal point and no
    exponent mark. *)
Definition plain_tail (t : string) : Prop :=
  match t with
  | EmptyString => True
  | String c _ =>
      Str.is_digit c = false /\ c <> "."%char /\ JS.is_exp_mark c = false
  end.

(** *** Numeric literals and the number field *)

(** A numeric literal as [parseFloat] reads it: an optional sign
    ([Some true] is the minus), the digits before the point, the point
    with the digits after it, and an exponent made of its mark, an
    optional sign and digits. *)
Record Literal := {
  l_sign : option bool;
  l_int : string;
  l_frac : option string;
  l_exp : option (ascii * option bool * string)
}.

Definition sign_text (sg : option bool) : string :=
  match sg with
  | None => ""
  | Some true => "-"
  | Some false => "+"
  end.

Definition frac_text (f : option string) : string :=
  match f with
  | Some d => String "." d
  | None => ""
  end.

Definition exp_text (e : option (ascii * option bool * string)) : string :=
  match e with
  | Some (c, sg, ds) => String c (sign_text sg +:+ ds)
  | None => ""
  end.

Definition literal_text (l : Literal) : string :=
  sign_text (l_sign l) +:+ l_int l +:+ frac_text (l_frac l)
    +:+ exp_text (l_exp l).

Definition frac_digits (l : Literal) : string :=
  match l_frac l with
  | Some d => d
  | None => ""
  end.

Definition exp_value (l : Literal) : Z :=
  match l_exp l with
  | Some (_, Some true, ds) => - JS.digits_val ds
  | Some (_, _, ds) => JS.digits_val ds
  | None => 0
  end.

Definition is_minus (sg : option bool) : bool :=
  match sg with
  | Some true => true
  | _ => false
  end.

(** The number the literal denotes, rounded to binary64. *)
Definition literal_value (l : Literal) : Num.number :=
  Num.of_decimal (is_minus (l_sign l))
    (JS.digits_val (l_int l +:+ frac_digits l))
    (exp_value l - Z.of_nat (String.length (frac_digits l))).

Definition well_formed (l : Literal) : Prop :=
  Str.forallb Str.is_digit (l_int l) = true
  /\ Str.forallb Str.is_digit (frac_digits l) = true
  /\ (Str.is_empty (l_int l) && Str.is_empty (frac_digits l)) = false
  /\ match l_exp l with
     | Some (c, _, ds) =>
         JS.is_exp_mark c = true /\ Str.is_empty ds = false
         /\ Str.forallb Str.is_digit ds = true
     | None => True
     end.

Definition digit_head (t : string) : bool :=
  match t with
  | String c _ => Str.is_digit c
  | EmptyString => false
  end.

Definition point_head (t : string) : bool :=
  match t with
  | String "." _ => true
  | _ => false
  end.

(** [t] starts with an exponent: a mark, an optional sign and a digit. *)
Definition exponent_head (t : string) : bool :=
  match t with
  | String c r =>
      JS.is_exp_mark c
      && (digit_head r
          || match r with
             | String "-" u => digit_head u
             | String "+" u => digit_head u
             | _ => false
             end)
  | EmptyString => false
  end.

(** The text after the literal does not go on with it: no digit; after
    a literal without exponent no exponent either; and after digits
    alone no point. *)
Definition stops (l : Literal) (tail : string) : Prop :=
  digit_head tail = false
  /\ (l_exp l = None -> exponent_head tail = false)
  /\ (l_exp l = None -> l_frac l = None -> point_head tail = false).

(** The valid floating-point numbers of HTML, read from the left: an
    optional [-]; digits, or a point followed by digits, or both; an
    optional exponent of [e] or [E], an optional sign and digits; and
    nothing else. *)
Definition read_float (v : string) : option Literal :=
  let '(sg, r0) :=
    match v with
    | String "-" r => (Some true, r)
    | _ => (None, v)
    end in
  let '(ip, r1) := Str.span Str.is_digit r0 in
  let '(fr, r2) :=
    match r1 with
    | String "." t => let '(fp, r) := Str.span Str.is_digit t in (Some fp, r)
    | _ => (None, r1)
    end in
  let '(ex, r3) :=
    match r2 with
    | String c t =>
        if JS.is_exp_mark c then
          let '(esg, t') :=
            match t with
            | String "-" u => (Some true, u)
            | String "+" u => (Some false, u)
            | _ => (None, t)
            end in
          let '(ed, r) := Str.span Str.is_digit t' in
          (Some (c, esg, ed), r)
        else (None, r2)
    | EmptyString => (None, r2)
    end in
  if Str.is_empty r3
     && negb (match fr with Some fp => Str.is_empty fp | None => false end)
     && negb (Str.is_empty ip
              && match fr with Some _ => false | None => true end)
     && negb (match ex with Some (_, _, ed) => Str.is_empty ed | None => false end)
  then Some {| l_sign := sg; l_int := ip; l_frac := fr; l_exp := ex |}
  else None.

Definition valid_floating_point (v : string) : bool :=
  match read_float v with
  | Some _ => true
  | None => false
  end.

(** The value sanitization of [<input type="number">]: what the field
    hands to [onChange] is a valid floating-point number or empty. *)
Definition number_value (typed : string) : string :=
  if valid_floating_point typed then typed else "".

(** The head of a literal without its sign: a digit or the point. *)
Definition body_head (t : string) : bool :=
  digit_head t || point_head t.

(** *** Effects of a submission, by kind *)

Definition is_fetch (e : Effect) : bool :=
  match e with Fetch _ _ => true | _ => false end.

Definition is_push (e : Effect) : bool :=
  match e with Push _ => true | _ => false end.

Definition is_window_open (e : Effect) : bool :=
  match e with WindowOpen _ => true | _ => false end.

Definition is_error_notice (e : Effect) : bool :=
  match e with Notice error _ => true | _ => false end.

Definition is_set_config (e : Effect) : bool :=
  match e with SetConfig _ => true | _ => false end.

(** No upload request, no write to the transaction store, no link. *)
Definition nothing_sent (es : list Effect) : Prop :=
  List.existsb is_fetch es = false
  /\ List.existsb is_push es = false
  /\ List.existsb is_window_open es = false.

(** The endpoint answered something else than success, or the request
    failed. *)
Definition upload_failed (w : World) : Prop :=
  upload_reply w = None
  \/ exists d, upload_reply w = Some d /\ result d <> "success".

(** There is no image and [link] is empty, or the image went up and the
    endpoint answered success with the link [link]. *)
Definition image_settled (w : World) (s : State) (link : string) : Prop :=
  match selectedFile s with
  | None => link = ""
  | Some _ =>
      Str.is_empty (googleScriptUrl (config s)) = false
      /\ (exists content, read_file w = Some content)
      /\ upload_reply w = Some {| result := "success"; url := Some link |}
      /\ Str.is_empty link = false
  end.

(** The link the submission opens. *)
Definition notification_link (w : World) (s : State) (imageUrl : string)
  : string :=
  "https://wa.me/" +:+ whatsapp (config s) +:+ "?text="
  +:+ JS.encodeURIComponent
        (mensaje (config s) w (JS.parseFloat (amountUSD s)) (amountBs s)
           (reference s) imageUrl).

(** The record the submission writes. *)
Definition payment_record (w : World) (s : State) (imageUrl : string)
  : Payment :=
  {| p_date := iso_now w;
     p_amountUSD := JS.parseFloat (amountUSD s);
     p_amountBs := amountBs s;
     p_reference := reference s;
     p_photoUrl := if Str.is_empty imageUrl then None else Some imageUrl;
     p_timestamp := now_push w |}.

(** [t] occurs in [s], decided. *)
Fixpoint containsb (t s : string) : bool :=
  String.prefix t s
  || match s with
     | EmptyString => false
     | String _ r => containsb t r
     end.

(** *** Colours *)

(** The adjustment of one 8-bit channel. *)
Definition clamp (n : Z) : Z := Z.min 255 (Z.max 0 n).

(** The lower-case hexadecimal digit of a value below 16. *)
Definition hex_digit (n : Z) : ascii :=
  if n <? 10 then ascii_of_N (Z.to_N (48 + n)) else ascii_of_N (Z.to_N (87 + n)).

(** Two hexadecimal digits for a value below 256. *)
Definition hex2 (n : Z) : string :=
  String (hex_digit (n / 16)) (String (hex_digit (n mod 16)) EmptyString).

(** The value of a channel written with the digits [c1 c2]. *)
Definition channel (c1 c2 : ascii) : Z :=
  16 * default 0 (JS.hex_val c1) + default 0 (JS.hex_val c2).

(** The six digits of a colour. *)
Definition hex6 (c1 c2 c3 c4 c5 c6 : ascii) : string :=
  String c1 (String c2 (String c3 (String c4 (String c5 (String c6
    EmptyString))))).

(** The characters [parseInt(_, 16)] reads as digits. *)
Definition hex_chars : list ascii :=
  list_ascii_of_string "0123456789abcdefABCDEF".

(** [parseInt] reads the two digits as their channel and [.] matches
    both: checked over all pairs of [hex_chars]. *)
Definition pair_parses (c1 c2 : ascii) : bool :=
  match JS.parseInt16 (String c1 (String c2 EmptyString)) with
  | Some v => (v =? channel c1 c2) && dot (N_of_ascii c1) && dot (N_of_ascii c2)
  | None => false
  end.

(** The value [k] is printed by the callback as [hex2 k] and read back:
    checked over all values below 256. *)
Definition byte_prints (k : nat) : bool :=
  let n := Z.of_nat k in
  String.eqb (Str.last_n 2 ("0" +:+ JS.toString16 n)) (hex2 n)
  && match JS.parseInt16 (hex2 n) with
     | Some v => v =? n
     | None => false
     end.

(** *** The saved rate *)

(** Not a number, or a number with the sign bit clear. *)
Definition nan_or_unsigned (x : Num.number) : Prop :=
  match x with
  | S754_nan => True
  | S754_zero s | S754_infinity s | S754_finite s _ _ => s = false
  end.

(** A zero, a finite number or an infinity with the sign [s]. *)
Definition signed_as (s : bool) (x : Num.number) : Prop :=
  match x with
  | S754_nan => False
  | S754_zero t | S754_infinity t | S754_finite t _ _ => t = s
  end.

(** The configuration [saveSettings] writes. *)
Definition saved_config (w : World) (s : State) : AppConfig :=
  with_tasa (editConfig s) (finalTasa (tasaInput s)) (now_save w).

(** *** Concrete inputs *)

(** A world on the evening of 1 November 2026 in Caracas, in which the
    file is read, the endpoint answers [reply] and the write to the
    transaction store goes as [pushed] says. *)
Definition world_with (reply : option UploadReply) (pushed : bool) : World :=
  {| db_ready := true;
     amount_input_mounted := true;
     reference_input_mounted := true;
     read_file := Some "iVBORw0KGgo=";
     upload_reply := reply;
     push_ok := pushed;
     set_ok := true;
     now_upload := 1793570000000;
     now_push := 1793570000500;
     now_save := 1793570001000;
     iso_now := "2026-11-01T21:13:20.500Z";
     fecha := "1/11/2026";
     hora := "05:13 p. m." |}.

(** Everything outside answers well. *)
Definition calm_world : World :=
  world_with
    (Some {| result := "success";
             url := Some "https://drive.google.com/uc?id=1" |})
    true.

(** The endpoint answers an error. *)
Definition world_upload_error : World :=
  world_with (Some {| result := "error"; url := None |}) true.

(** The database refuses the write. *)
Definition world_push_fails : World :=
  world_with
    (Some {| result := "success";
             url := Some "https://drive.google.com/uc?id=1" |})
    false.

(** A receipt of 200 KB. *)
Definition receipt : File :=
  {| file_name := "recibo.png"; file_type := "image/png"; file_size := 204800 |}.

(** A picture one byte over the limit. *)
Definition big_file : File :=
  {| file_name := "recibo.png"; file_type := "image/png";
     file_size := 5 * 1024 * 1024 + 1 |}.

(** A configuration that only changes the rate. *)
Definition only_tasa (t : Num.number) : ConfigData :=
  {| d_tasa := Some t;
     d_whatsapp := None;
     d_nombreNegocio := None;
     d_bankName := None;
     d_bankCode := None;
     d_cedula := None;
     d_telefono := None;
     d_themeColor := None;
     d_lastUpdate := None;
     d_googleScriptUrl := None |}.

(** ** The rest of [App.tsx] *)

(** *** Display helpers *)

(** [formatPhone(phone)], on the code units of the phone: [length] and
    [substring] count these.  45 is the hyphen. *)
Definition formatPhone (phone : list N) : list N :=
  match phone with
  | [] => []
  | _ =>
      if (length phone =? 11)%nat
      then firstn 4 phone ++ [45%N] ++ skipn 4 phone
      else phone
  end.

(** The phone of the configuration as the form shows it. *)
Definition shown_phone (cfg : AppConfig) : string :=
  Utf16.text (formatPhone (Utf16.units (telefono cfg))).

(** The code units of a text of ASCII: its bytes. *)
Definition codes (s : string) : list N :=
  map N_of_ascii (list_ascii_of_string s).

Definition ascii_text (s : string) : bool :=
  Str.forallb (fun c => (N_of_ascii c <? 128)%N) s.

(** [s.split(sep)] for a separator of one character. *)
Fixpoint split_on (sep : ascii) (s : string) : list string :=
  match s with
  | EmptyString => [EmptyString]
  | String c r =>
      if Ascii.eqb c sep then EmptyString :: split_on sep r
      else
        match split_on sep r with
        | seg :: rest => String c seg :: rest
        | [] => [String c EmptyString]
        end
  end.

(** What [fileToBase64] resolves with for the data URL [encoded] that the
    reader produced: [encoded.split(',')[1]], [None] for [undefined]. *)
Definition base64_of_data_url (encoded : string) : option string :=
  split_on "," encoded !! 1%nat.

Definition no_comma (s : string) : Prop :=
  Str.forallb (fun c => negb (Ascii.eqb c ",")) s = true.

(** The condition under which the form shows the warning about an old
    rate: [config.lastUpdate && (Date.now() - config.lastUpdate > 86400000)]. *)
Definition stale_warning (now : Z) (cfg : AppConfig) : bool :=
  negb (lastUpdate cfg =? 0) && (86400000 <? now - lastUpdate cfg).

(** *** The history of payments *)

(** An entry of the history: the key of the record and the record. *)
Record Transaction := { t_id : string; t_payment : Payment }.

Definition t_timestamp (t : Transaction) : Z := p_timestamp (t_payment t).

(** [{ id: key, ...data[key] }], for the records this form pushes. *)
Definition transaction_of (entry : string * Payment) : Transaction :=
  {| t_id := fst entry; t_payment := snd entry |}.

(** Where [x] goes in a list already ordered by
    [(a, b) => b.timestamp - a.timestamp], before its equals. *)
Fixpoint insert_recent (x : Transaction) (l : list Transaction)
  : list Transaction :=
  match l with
  | [] => [x]
  | y :: r =>
      if t_timestamp x <? t_timestamp y then y :: insert_recent x r
      else x :: l
  end.

(** [list.sort((a, b) => b.timestamp - a.timestamp)]: the stable sort,
    most recent first. *)
Definition sort_recent (l : list Transaction) : list Transaction :=
  fold_right insert_recent [] l.

(** The list [fetchHistory] stores for the snapshot [data] of [payments],
    given as its entries in the order of [Object.keys]; [None] is an
    empty store. *)
Definition history_list (data : option (list (string * Payment)))
  : list Transaction :=
  match data with
  | Some entries => sort_recent (map transaction_of entries)
  | None => []
  end.

(** Most recent first. *)
Definition recent_first (a b : Transaction) : Prop :=
  t_timestamp b <= t_timestamp a.

(** The entries with the timestamp [t], in order. *)
Definition at_time (t : Z) (l : list Transaction) : list Transaction :=
  List.filter (fun x => t_timestamp x =? t) l.

(** The events that are not an edit of the two fields nor a submission. *)
Definition leaves_flags (ev : Event) : Prop :=
  match ev with
  | AmountChange _ | ReferenceChange _ | NotifyPayment _ => False
  | _ => True
  end.

(** The URLs handed out for the files that the picker accepted. *)
Fixpoint accepted_urls (evs : list Event) : list string :=
  match evs with
  | [] => []
  | FileSelect (file :: _) u :: rest =>
      if max_file_size <? file_size file then accepted_urls rest
      else u :: accepted_urls rest
  | _ :: rest => accepted_urls rest
  end.

(** What the cleanup of the preview effect does when the state goes from
    [s] to [s1]. *)
Definition cleanup_effects (s s1 : State) : list Effect :=
  if negb (bool_decide (previewUrl s = previewUrl s1)) && truthy_str (previewUrl s)
  then [RevokeObjectURL (default "" (previewUrl s))]
  else [].

(** The request body for [file]. *)
Definition upload_payload (w : World) (file : File) (content : string)
  : UploadPayload :=
  {| u_filename :=
       "pago_" +:+ Str.of_Z (now_upload w) +:+ "_" +:+ file_name file;
     u_mimeType := file_type file;
     u_file := content |}.

(** A configuration that only changes the upload URL. *)
Definition only_script_url (u : string) : ConfigData :=
  {| d_tasa := None;
     d_whatsapp := None;
     d_nombreNegocio := None;
     d_bankName := None;
     d_bankCode := None;
     d_cedula := None;
     d_telefono := None;
     d_themeColor := None;
     d_lastUpdate := None;
     d_googleScriptUrl := Some u |}.

(** The endpoint says success and sends no link. *)
Definition world_no_link : World :=
  world_with (Some {| result := "success"; url := None |}) true.

(** A valid form with a receipt attached. *)
Definition form_with_receipt : list Event :=
  [AmountChange "10"; ReferenceChange "1234"; FileSelect [receipt] "blob:1"].

(** The write of the configuration is refused. *)
Definition world_set_fails : World :=
  {| db_ready := true;
     amount_input_mounted := true;
     reference_input_mounted := true;
     read_file := Some "iVBORw0KGgo=";
     upload_reply := None;
     push_ok := true;
     set_ok := false;
     now_upload := 1793570000000;
     now_push := 1793570000500;
     now_save := 1793570001000;
     iso_now := "2026-11-01T21:13:20.500Z";
     fecha := "1/11/2026";
     hora := "05:13 p. m." |}.

(** A character that may stand in a query parameter as it is, or the
    percent sign of an escape. *)
Definition url_safe (c : ascii) : bool :=
  JS.unreserved c || Ascii.eqb c "%".

(** Every text that opening the settings put in the rate field is a
    plain decimal. *)
Definition settings_texts_plain (evs : list Event) : Prop :=
  forall t, In (EnterSettings t) evs -> tasa_pattern t = true.

(** The digits [hex2] writes are hexadecimal digits and spell the value. *)
Definition nibble_ok (k : nat) : bool :=
  match JS.hex_val (hex_digit (Z.of_nat k)) with
  | Some v => v =? Z.of_nat k
  | None => false
  end.

(** *** Signing in *)

(** TrimString(s, end): cut where only white space follows. *)
Fixpoint trim_end (s : string) : string :=
  if Str.is_empty (JS.trim_start s) then EmptyString
  else
    match s with
    | EmptyString => EmptyString
    | String c r => String c (trim_end r)
    end.

(** [s.trim()] *)
Definition trim (s : string) : string := trim_end (JS.trim_start s).

(** The state hooks of the login dialog and of the menu. *)
Record LoginForm := {
  loginUser : string;
  loginPass : string;
  loginError : bool;
  isLoggingIn : bool;
  showLoginModal : bool;
  isMenuOpen : bool
}.

(** What the authentication service answers, and the text of
    [config.tasa.toString()] that [enterSettings] reads. *)
Record AuthWorld := {
  auth_ready : bool;            (* [auth] is not null *)
  sign_in_ok : bool;            (* signInWithEmailAndPassword resolved *)
  tasa_text : string
}.

(** The effects of signing in: the call to the service, or an effect of
    the page. *)
Variant AuthEffect :=
  | SignIn (email password : string)
  | Page (e : Effect).

Definition openLogin (l : LoginForm) : LoginForm :=
  {| loginUser := ""; loginPass := ""; loginError := false;
     isLoggingIn := isLoggingIn l; showLoginModal := true;
     isMenuOpen := false |}.

(** The dialog when [handleLogin] ends: not logging in any more. *)
Definition login_done (l : LoginForm) (failed modal : bool) : LoginForm :=
  {| loginUser := loginUser l; loginPass := loginPass l; loginError := failed;
     isLoggingIn := false; showLoginModal := modal;
     isMenuOpen := isMenuOpen l |}.

Definition handleLogin (a : AuthWorld) (l : LoginForm) (s : State)
  : LoginForm * State * list AuthEffect :=
  let cleanEmail := trim (loginUser l) in
  let cleanPass := loginPass l in
  if Str.is_empty cleanEmail || Str.is_empty cleanPass then
    let '(_, s1, es) := showToast "Completa los campos" error s in
    (login_done l false (showLoginModal l), s1, map Page es)
  else if negb (auth_ready a) then
    let '(_, s1, es) := showToast "Firebase Auth no disponible" error s in
    (login_done l false (showLoginModal l), s1, map Page es)
  else if sign_in_ok a then
    let '(_, s1, es) :=
      (enterSettings (tasa_text a);; showToast "Sesión iniciada" success)%act s in
    (login_done l false false, s1, SignIn cleanEmail cleanPass :: map Page es)
  else
    let '(_, s1, es) :=
      (Act.emit (ConsoleError "Login error:");;
       showToast "Credenciales incorrectas" error)%act s in
    (login_done l true (showLoginModal l), s1,
     SignIn cleanEmail cleanPass :: map Page es).

Definition is_sign_in (e : AuthEffect) : bool :=
  match e with SignIn _ _ => true | _ => false end.

(** *** Start-up: [firebase.ts] and the first effect of [App] *)

Variant InitStep := InitializeApp | GetDatabase | GetAuth.

(** The three exports of [firebase.ts]; [db] and [auth] as present or
    null. *)
Record Firebase := { db : bool; auth : bool; initError : option string }.

(** The module body: [failure] is the step that threw and the [message]
    of what it threw, [None] when nothing threw. *)
Definition initFirebase (failure : option (InitStep * string)) : Firebase :=
  match failure with
  | None => {| db := true; auth := true; initError := None |}
  | Some (InitializeApp, msg) | Some (GetDatabase, msg) =>
      {| db := false; auth := false; initError := Some msg |}
  | Some (GetAuth, msg) =>
      {| db := true; auth := false; initError := Some msg |}
  end.

(** What the first effect of [App] decides: the error to show instead of
    the form, whether the loader stays until its timer, and whether the
    component subscribes to the configuration. *)
Record Mount := { configError : option string; isLoading : bool; subscribed : bool }.

Definition mountEffect (fb : Firebase) : Mount :=
  if truthy_str (initError fb) then
    {| configError := initError fb; isLoading := false; subscribed := false |}
  else if negb (db fb) then
    {| configError := Some "No se pudo conectar a la base de datos.";
       isLoading := false; subscribed := false |}
  else {| configError := None; isLoading := true; subscribed := true |}.

(** *** The cedula on show *)

(** [parseInt(s)] with no radix: white space, a sign, then base 16 after
    [0x] or [0X] and base 10 otherwise; the digits read give the nearest
    binary64 number, NaN when there is none.  (Past twenty decimal digits
    JavaScript lets an engine round the digits first; the model rounds
    the integer read, whatever its length.) *)
Definition parseInt (s : string) : Num.number :=
  let t := JS.trim_start s in
  let '(neg, t1) :=
    match t with
    | String "-" r => (true, r)
    | String "+" r => (false, r)
    | _ => (false, t)
    end in
  let '(hex, t2) :=
    match t1 with
    | String "0" (String "x" r) => (true, r)
    | String "0" (String "X" r) => (true, r)
    | _ => (false, t1)
    end in
  let '(ds, _) := Str.span (if hex then JS.is_hex else Str.is_digit) t2 in
  if Str.is_empty ds then Num.NaN
  else
    Num.of_decimal neg
      (if hex then JS.hex_digits_val ds else JS.digits_val ds) 0.

(** [x.toLocaleString('es-VE')]: no fraction digit required, three at
    most. *)
Definition fmt_default : Num.number -> string := Intl.toLocaleString_esVE 0 3.

Definition formatCedula (ced : string) : string :=
  if Str.is_empty ced then ""
  else "V-" +:+ fmt_default (parseInt ced).

(** A text that starts, after no white space, with a character of ASCII
    that is neither a sign nor a digit. *)
Definition starts_without_number (s : string) : Prop :=
  match s with
  | EmptyString => False
  | String c _ =>
      (N_of_ascii c < 128)%N /\ JS.ws1 (N_of_ascii c) = false
      /\ Str.is_digit c = false /\ c <> "-"%char /\ c <> "+"%char
  end.

(** The digits of [s] read after those that gave [acc]. *)
Fixpoint digits_onto (acc : Z) (s : string) : Z :=
  match s with
  | EmptyString => acc
  | String c r => digits_onto (10 * acc + Str.digit_val c) r
  end.

(** * Proofs *)

(** ** Strings *)

Lemma forallb_filter p s : Str.forallb p (Str.filter p s) = true.
Proof.
  induction s as [|c r IH]; [reflexivity|].
  cbn. destruct (p c) eqn:E; cbn; [rewrite E|]; exact IH.
Qed.

Lemma forallb_take p n s :
  Str.forallb p s = true -> Str.forallb p (Str.take n s) = true.
Proof.
  revert s. induction n as [|k IH]; intros [|c r]; cbn; try reflexivity.
  intros [-> H]%andb_prop. cbn. apply IH, H.
Qed.

Lemma length_take n s : (String.length (Str.take n s) <= n)%nat.
Proof.
  revert s. induction n as [|k IH]; intros [|c r]; cbn; try lia.
  specialize (IH r). lia.
Qed.

(** ** Numbers *)

Lemma same_value_refl x : Num.same_value x x = true.
Proof.
  destruct x as [[]|[]| |[] m e]; cbn; try reflexivity;
    rewrite Pos.eqb_refl, Z.eqb_refl; reflexivity.
Qed.

Lemma same_value_eq x y : Num.same_value x y = true -> x = y.
Proof.
  destruct x as [a|a| |a m e], y as [b|b| |b n f]; cbn; try discriminate;
    try reflexivity.
  - intros ->%Bool.eqb_prop. reflexivity.
  - intros ->%Bool.eqb_prop. reflexivity.
  - intros [[->%Bool.eqb_prop ->%Pos.eqb_eq]%andb_prop ->%Z.eqb_eq]%andb_prop.
    reflexivity.
Qed.

(** ** The es-VE format with two decimals *)

Lemma append_nil (b : string) : "" +:+ b = b.
Proof. reflexivity. Qed.

Lemma append_cons c (a b : string) : String c a +:+ b = String c (a +:+ b).
Proof. reflexivity. Qed.

Lemma append_assoc (a b c : string) : (a +:+ b) +:+ c = a +:+ (b +:+ c).
Proof.
  induction a as [|x a IH]; [reflexivity|].
  rewrite !append_cons, IH. reflexivity.
Qed.

Lemma append_empty (a : string) : a +:+ "" = a.
Proof.
  induction a as [|x a IH]; [reflexivity|].
  rewrite append_cons, IH. reflexivity.
Qed.

Lemma length_append (a b : string) :
  String.length (a +:+ b) = (String.length a + String.length b)%nat.
Proof.
  induction a as [|x a IH]; [reflexivity|].
  rewrite append_cons. cbn [String.length]. rewrite IH. reflexivity.
Qed.

Lemma forallb_append p (a b : string) :
  Str.forallb p (a +:+ b) = Str.forallb p a && Str.forallb p b.
Proof.
  induction a as [|x a IH]; [reflexivity|].
  rewrite append_cons. cbn [Str.forallb]. rewrite IH, andb_assoc. reflexivity.
Qed.

Lemma forallb_drop p n s :
  Str.forallb p s = true -> Str.forallb p (Str.drop n s) = true.
Proof.
  revert s. induction n as [|k IH]; intros [|c r]; cbn; try reflexivity; auto.
  intros [_ H]%andb_prop. apply IH, H.
Qed.

Lemma length_drop n s :
  String.length (Str.drop n s) = (String.length s - n)%nat.
Proof.
  revert s. induction n as [|k IH]; intros [|c r]; cbn; try reflexivity.
  apply IH.
Qed.

Lemma take_append_exact a b :
  Str.take (String.length a) (a +:+ b) = a.
Proof.
  induction a as [|c a IH]; [destruct b; reflexivity|].
  rewrite append_cons. cbn [String.length Str.take]. rewrite IH. reflexivity.
Qed.

Lemma drop_append_exact a b :
  Str.drop (String.length a) (a +:+ b) = b.
Proof.
  induction a as [|c a IH]; [destruct b; reflexivity|].
  rewrite append_cons. cbn [String.length Str.drop]. exact IH.
Qed.

Lemma take_drop n s : Str.take n s +:+ Str.drop n s = s.
Proof.
  revert s. induction n as [|k IH]; intros [|c r]; try reflexivity.
  cbn [Str.take Str.drop]. rewrite append_cons, IH. reflexivity.
Qed.

Lemma length_take_le n s :
  (n <= String.length s)%nat -> String.length (Str.take n s) = n.
Proof.
  revert s. induction n as [|k IH]; intros [|c r] H; cbn in *; try lia.
  rewrite IH; lia.
Qed.

Lemma prefix_append t post : String.prefix t (t +:+ post) = true.
Proof.
  induction t as [|c t IH]; [destruct post; reflexivity|].
  rewrite append_cons. cbn [String.prefix].
  destruct (ascii_dec c c) as [_|N]; [exact IH | contradiction].
Qed.

Lemma contains_containsb s t : Str.contains s t -> containsb t s = true.
Proof.
  intros (pre & post & ->). induction pre as [|c pre IH].
  - rewrite append_nil. destruct (t +:+ post) eqn:E; cbn [containsb];
      rewrite <- E, prefix_append; reflexivity.
  - rewrite append_cons. cbn [containsb]. rewrite IH. apply orb_true_r.
Qed.

Lemma rev_onto_twice s a b :
  Intl.rev_onto (Intl.rev_onto s a) b = Intl.rev_onto a (s +:+ b).
Proof.
  revert a. induction s as [|c s IH]; intros a; [reflexivity|].
  cbn [Intl.rev_onto]. rewrite IH, append_cons. reflexivity.
Qed.

Lemma rev_rev s : Intl.rev (Intl.rev s) = s.
Proof.
  unfold Intl.rev. rewrite rev_onto_twice. cbn [Intl.rev_onto].
  apply append_empty.
Qed.

Lemma rev_onto_append s a : Intl.rev_onto s a = Intl.rev_onto s "" +:+ a.
Proof.
  revert a. induction s as [|c s IH]; intros a; cbn [Intl.rev_onto].
  - reflexivity.
  - rewrite IH, (IH (String c "")), append_assoc, append_cons, append_nil.
    reflexivity.
Qed.

Lemma digits_of_uint d :
  Str.forallb Str.is_digit (DecimalString.NilEmpty.string_of_uint d) = true.
Proof. induction d; cbn; auto. Qed.

Lemma digits_of_Z n : 0 <= n -> Str.forallb Str.is_digit (Str.of_Z n) = true.
Proof.
  intros H. unfold Str.of_Z. destruct n as [|p|p]; [reflexivity| |lia].
  cbn [Z.to_int DecimalString.NilZero.string_of_int].
  unfold DecimalString.NilZero.string_of_uint.
  destruct (Pos.to_uint p) eqn:E; try reflexivity;
    rewrite <- E; apply digits_of_uint.
Qed.

Lemma digits_of_zeros n : Str.forallb Str.is_digit (Intl.zeros n) = true.
Proof. induction n as [|k IH]; [reflexivity | exact IH]. Qed.

Lemma length_zeros n : String.length (Intl.zeros n) = n.
Proof. induction n as [|k IH]; cbn; [reflexivity | rewrite IH; reflexivity]. Qed.

Lemma rev_onto_app a b acc :
  Intl.rev_onto (a +:+ b) acc = Intl.rev_onto b (Intl.rev_onto a acc).
Proof.
  revert acc. induction a as [|c a IH]; intros acc; [reflexivity|].
  rewrite append_cons. cbn [Intl.rev_onto]. apply IH.
Qed.

Lemma rev_app a b : Intl.rev (a +:+ b) = Intl.rev b +:+ Intl.rev a.
Proof. unfold Intl.rev. rewrite rev_onto_app. apply rev_onto_append. Qed.

(** Grouping, said without the reversals: up to three digits stand as
    they are, and three more digits on the right add a full stop before
    them. *)
Lemma group_short s : (String.length s <= 3)%nat -> Intl.group s = s.
Proof.
  destruct s as [|a [|b [|c [|d s]]]]; cbn [String.length]; intros L;
    try reflexivity; lia.
Qed.

Lemma group_step a x y z :
  a <> "" ->
  Intl.group (a +:+ String x (String y (String z "")))
  = Intl.group a +:+ "." +:+ String x (String y (String z "")).
Proof.
  intros N. unfold Intl.group. rewrite rev_app.
  change (Intl.rev (String x (String y (String z ""))))
    with (String z (String y (String x ""))).
  rewrite !append_cons, append_nil. cbn [Intl.group_rev].
  assert (E : Intl.group_rev 0 (Intl.rev a) = String "." (Intl.group_rev 3 (Intl.rev a))).
  { destruct (Intl.rev a) as [|c t] eqn:R; [|reflexivity].
    exfalso. apply N. rewrite <- (rev_rev a), R. reflexivity. }
  rewrite E.
  change (String z (String y (String x (String "." (Intl.group_rev 3 (Intl.rev a))))))
    with (String z (String y (String x (String "." ""))) +:+ Intl.group_rev 3 (Intl.rev a)).
  rewrite rev_app. reflexivity.
Qed.

Lemma ratio_pos m e : 0 < fst (Num.ratio m e) /\ 0 < snd (Num.ratio m e).
Proof.
  unfold Num.ratio. destruct (0 <=? e) eqn:E; cbn [fst snd].
  - apply Z.leb_le in E. pose proof (Z.pow_pos_nonneg 2 e). lia.
  - apply Z.leb_gt in E. pose proof (Z.pow_pos_nonneg 2 (- e)). lia.
Qed.

Lemma scaled_floor_nonneg num den a :
  0 <= num -> 0 < den -> 0 <= Num.scaled_floor num den a.
Proof.
  intros N D. unfold Num.scaled_floor. destruct (0 <=? a) eqn:E.
  - apply Z.leb_le in E. pose proof (Z.pow_pos_nonneg 10 a).
    apply Z.div_pos; nia.
  - apply Z.leb_gt in E. pose proof (Z.pow_pos_nonneg 10 (- a)).
    apply Z.div_pos; nia.
Qed.

Lemma shortest_from_nonneg fuel x num den n :
  0 <= num -> 0 < den ->
  forall k, 0 <= fst (Num.shortest_from fuel x num den n k).
Proof.
  intros N D. induction fuel as [|f IH]; intros k; cbn [Num.shortest_from];
    pose proof (scaled_floor_nonneg num den (k - n) N D).
  - destruct (Num.nearer_up _ _ _ _); cbn [fst]; lia.
  - destruct (Num.reads_back _ _ _), (Num.reads_back _ _ _);
      try destruct (Num.nearer_up _ _ _ _); cbn [fst]; try lia. apply IH.
Qed.

(** The digits of the shortest decimal are not negative. *)
Lemma shortest_nonneg m e : 0 <= fst (Num.shortest m e).
Proof.
  unfold Num.shortest. destruct (ratio_pos m e) as [N D].
  destruct (Num.ratio m e) as [num den]. cbn [fst snd] in *.
  apply shortest_from_nonneg; lia.
Qed.

Lemma round_half_expand_nonneg d q f :
  0 <= d -> 0 <= Intl.round_half_expand d q f.
Proof.
  intros H. unfold Intl.round_half_expand. cbv zeta.
  destruct (0 <=? q + Z.of_nat f) eqn:E.
  - apply Z.leb_le in E. pose proof (Z.pow_nonneg 10 (q + Z.of_nat f)). nia.
  - apply Z.leb_gt in E.
    pose proof (Z.pow_pos_nonneg 10 (- (q + Z.of_nat f))).
    apply Z.div_pos; lia.
Qed.

(** With two decimals, the text is made of the digits of the scaled
    integer, padded to three: the last two after a comma, the others
    grouped before it. *)
Lemma format_scaled_two_decimals n :
  0 <= n ->
  exists whole frac,
    Intl.format_scaled n 2 2 = Intl.group whole +:+ "," +:+ frac
    /\ String.length frac = 2%nat
    /\ Str.forallb Str.is_digit frac = true
    /\ whole +:+ frac = Intl.pad_left 3 (Str.of_Z n).
Proof.
  intros H. unfold Intl.format_scaled, Intl.raw_fixed.
  set (ds := Intl.pad_left 3 (Str.of_Z n)).
  assert (L : (3 <= String.length ds)%nat).
  { subst ds. unfold Intl.pad_left. rewrite length_append, length_zeros. lia. }
  assert (D : Str.forallb Str.is_digit ds = true).
  { subst ds. unfold Intl.pad_left.
    rewrite forallb_append, digits_of_zeros, (digits_of_Z n H). reflexivity. }
  cbn [Nat.sub Intl.strip_zeros]. rewrite rev_rev.
  pose proof (take_drop (String.length ds - 2) ds) as T.
  set (frac := Str.drop (String.length ds - 2) ds) in *.
  assert (Lf : String.length frac = 2%nat)
    by (subst frac; rewrite length_drop; lia).
  destruct frac as [|c frac'] eqn:E; [discriminate Lf|].
  cbn [Str.is_empty].
  exists (Str.take (String.length ds - 2) ds), (String c frac').
  split; [reflexivity|]. split; [exact Lf|]. split; [|exact T].
  rewrite <- E. apply forallb_drop, D.
Qed.

(** The scaled integer the formatter prints for a finite number: its
    shortest decimal rounded to [f] places. *)
Lemma fmt_2_2_two_decimals x :
  finite x ->
  exists whole frac,
    Intl.fmt_2_2 x = whole +:+ "," +:+ frac
    /\ String.length frac = 2%nat
    /\ Str.forallb Str.is_digit frac = true.
Proof.
  unfold Intl.fmt_2_2, Intl.toLocaleString_esVE.
  destruct x as [s|s| |s m e]; try contradiction; intros _.
  - destruct (format_scaled_two_decimals 0) as (w & f & -> & L & D & _); [lia|].
    exists (Intl.minus s +:+ Intl.group w), f. rewrite append_assoc. auto.
  - pose proof (shortest_nonneg m e) as P.
    destruct (Num.shortest m e) as [d q]. cbn [fst] in P.
    destruct (format_scaled_two_decimals (Intl.round_half_expand d q 2))
      as (w & f & -> & L & D & _); [apply round_half_expand_nonneg, P|].
    exists (Intl.minus s +:+ Intl.group w), f. rewrite append_assoc. auto.
Qed.

(** ** Runs *)

(** Unfold one handler call down to the setters. *)
Ltac handler :=
  unfold step, dispatch, handleAmountChange, handleReferenceChange,
    handleFileSelect, clearFile, onConfigSnapshot, handleNotifyPayment,
    saveAndNotify, uploadImageToDrive, enterSettings, handleTasaInput,
    handleEditField, saveSettings, saveSettingsTimer, tasaEffect,
    previewCleanup, updateTheme, showToast,
    Act.state_of, Act.effects_of, Act.value_of,
    Act.bind, Act.get, Act.modify, Act.emit, Act.when, Act.ret.

(** Reduce projections of setters, and nothing else. *)
Ltac fields :=
  cbn [fst snd
       config amountUSD amountBs reference selectedFile previewUrl isUploading
       showSettings editConfig tasaInput isSaving saveSuccess toast errors
       rootStyle
       set_config set_amountUSD set_amountBs set_reference set_selectedFile
       set_previewUrl set_isUploading set_showSettings set_editConfig
       set_tasaInput set_isSaving set_saveSuccess set_toast set_errors
       set_rootStyle
       amount_error reference_error].

(** Split on the innermost conditions of the handler under the goal. *)
Ltac branches :=
  repeat (match goal with
          | |- context [if ?b then _ else _] =>
              lazymatch b with
              | context [if _ then _ else _] => fail
              | context [match _ with _ => _ end] => fail
              | _ => destruct b eqn:?
              end
          | |- context [match ?x with _ => _ end] =>
              lazymatch x with
              | context [if _ then _ else _] => fail
              | context [match _ with _ => _ end] => fail
              | _ => destruct x eqn:?
              end
          end; fields).

Lemma run_cons loadTime ev rest s :
  Act.state_of (run loadTime (ev :: rest) s)
  = Act.state_of (run loadTime rest (Act.state_of (step loadTime ev s))).
Proof.
  cbn [run]. unfold Act.bind, Act.state_of.
  destruct (step loadTime ev s) as [[[] s1] e1]. cbn [fst snd].
  destruct (run loadTime rest s1) as [[[] s2] e2]. reflexivity.
Qed.

Lemma run_app loadTime evs ev s :
  Act.state_of (run loadTime (evs ++ [ev]) s)
  = Act.state_of (step loadTime ev (Act.state_of (run loadTime evs s))).
Proof.
  revert s. induction evs as [|e evs IH]; intros s.
  - cbn [app]. rewrite run_cons. reflexivity.
  - cbn [app]. rewrite !run_cons. apply IH.
Qed.

(** An invariant of the first render that every event keeps holds after
    every run. *)
Lemma run_invariant loadTime (Inv : State -> Prop) :
  Inv (initial_state loadTime) ->
  (forall ev s, Inv s -> Inv (Act.state_of (step loadTime ev s))) ->
  forall evs, Inv (state_after loadTime evs).
Proof.
  intros H0 Hstep evs. unfold state_after.
  induction evs as [|ev evs IH] using rev_ind; [exact H0|].
  rewrite run_app. apply Hstep, IH.
Qed.

(** ** The reference stays four digits at most (C5) *)

Lemma step_reference loadTime ev s :
  reference (Act.state_of (step loadTime ev s)) = reference s
  \/ exists input,
       reference (Act.state_of (step loadTime ev s))
       = Str.take 4 (Str.filter Str.is_digit input).
Proof.
  destruct ev; handler; fields; branches; eauto.
Qed.

Lemma take_filter_ok input :
  reference_ok (Str.take 4 (Str.filter Str.is_digit input)).
Proof.
  split; [apply forallb_take, forallb_filter | apply length_take].
Qed.

Lemma step_reference_ok loadTime ev s :
  reference_ok (reference s) ->
  reference_ok (reference (Act.state_of (step loadTime ev s))).
Proof.
  intros H. destruct (step_reference loadTime ev s) as [->|[input ->]];
    [exact H | apply take_filter_ok].
Qed.

Lemma reference_ok_after loadTime evs :
  reference_ok (reference (state_after loadTime evs)).
Proof.
  apply (run_invariant loadTime (fun s => reference_ok (reference s))).
  - split; [reflexivity | cbn; lia].
  - intros ev s. apply step_reference_ok.
Qed.

(** C5.  After any sequence of events, and so after any sequence of edits
    of the reference field, the stored reference holds decimal digits
    only and at most four of them; every single edit stores the digits of
    the typed text, cut after the fourth. *)
Theorem reference_digits_max4 loadTime (evs : list Event) (input : string) :
  reference_ok (reference (state_after loadTime evs))
  /\ reference (state_after loadTime (evs ++ [ReferenceChange input]))
     = Str.take 4 (Str.filter Str.is_digit input).
Proof.
  split; [apply reference_ok_after|].
  unfold state_after. rewrite run_app.
  generalize (Act.state_of (run loadTime evs (initial_state loadTime))).
  intros s. handler. fields. rewrite same_value_refl. cbn [negb].
  rewrite bool_decide_eq_true_2 by reflexivity. reflexivity.
Qed.

(** ** The Bolivar amount follows the dollar amount and the rate (C1) *)

Lemma tasaEffect_state s :
  Act.state_of (tasaEffect s)
  = if negb (Str.is_empty (amountUSD s))
       && negb (Num.isNaN (JS.parseFloat (amountUSD s)))
    then set_amountBs
           (Intl.fmt_2_2 (Num.mul (JS.parseFloat (amountUSD s)) (tasa (config s)))) s
    else s.
Proof. handler. fields. branches; reflexivity. Qed.

(** The state after one event: the handler, then the rate effect when the
    rate is another one; the cleanup of the preview changes no state. *)
Lemma step_state loadTime ev s :
  Act.state_of (step loadTime ev s)
  = let s1 := Act.state_of (dispatch loadTime ev s) in
    if Num.same_value (tasa (config s)) (tasa (config s1)) then s1
    else Act.state_of (tasaEffect s1).
Proof.
  unfold step, Act.state_of, Act.bind, Act.get, Act.when, previewCleanup,
    Act.emit, Act.ret.
  destruct (dispatch loadTime ev s) as [[[] s1] e1]. fields.
  destruct (Num.same_value (tasa (config s)) (tasa (config s1)));
    cbn [negb]; fields.
  - destruct (bool_decide (previewUrl s = previewUrl s1)); cbn [negb]; fields;
      [reflexivity|]. destruct (truthy_str (previewUrl s)); reflexivity.
  - destruct (tasaEffect s1) as [[[] s2] e2]. fields.
    destruct (bool_decide (previewUrl s = previewUrl s1)); cbn [negb]; fields;
      [reflexivity|]. destruct (truthy_str (previewUrl s)); reflexivity.
Qed.

(** Only a change of the dollar field and a new configuration touch the
    calculator. *)
Lemma dispatch_calculator loadTime ev s :
  let s1 := Act.state_of (dispatch loadTime ev s) in
  match ev with
  | AmountChange v =>
      config s1 = config s /\ amountUSD s1 = v
      /\ amountBs s1 = derived_bs v (tasa (config s))
  | ConfigSnapshot (Some d) =>
      config s1 = merge (DEFAULT_CONFIG loadTime) d
      /\ amountUSD s1 = amountUSD s /\ amountBs s1 = amountBs s
  | _ =>
      config s1 = config s /\ amountUSD s1 = amountUSD s
      /\ amountBs s1 = amountBs s
  end.
Proof.
  destruct ev as [value| | | |[d|]| | | | | |]; handler; fields;
    try (branches; auto; fail).
  unfold derived_bs.
  destruct (Str.is_empty value), (Num.isNaN (JS.parseFloat value)); auto.
Qed.

Lemma step_sync loadTime ev s :
  bs_in_sync s -> bs_in_sync (Act.state_of (step loadTime ev s)).
Proof.
  unfold bs_in_sync. intros H. rewrite step_state.
  pose proof (dispatch_calculator loadTime ev s) as D. cbv zeta in *.
  set (s1 := Act.state_of (dispatch loadTime ev s)) in *.
  assert (Hsame : Num.same_value (tasa (config s)) (tasa (config s1)) = true ->
                  amountUSD s1 = amountUSD s -> amountBs s1 = amountBs s ->
                  amountBs s1 = derived_bs (amountUSD s1) (tasa (config s1))).
  { intros E%same_value_eq U B. rewrite U, B, <- E. exact H. }
  assert (Hdiff : amountUSD s1 = amountUSD s -> amountBs s1 = amountBs s ->
                  bs_in_sync (Act.state_of (tasaEffect s1))).
  { intros U B. unfold bs_in_sync. rewrite tasaEffect_state.
    unfold derived_bs in *. rewrite <- U, <- B in H.
    destruct (Str.is_empty (amountUSD s1)) eqn:E1,
      (Num.isNaN (JS.parseFloat (amountUSD s1))) eqn:E2;
      cbn [negb andb orb] in *; fields; rewrite ?E1, ?E2;
      cbn [negb andb orb]; auto. }
  destruct ev as [value| | | |[d|]| | | | | |];
    destruct D as (C & U & B);
    try (destruct (Num.same_value (tasa (config s)) (tasa (config s1))) eqn:E;
         [apply Hsame; auto | apply Hdiff; auto]; fail).
  (* a change of the dollar field: the rate is the one of the render *)
  rewrite C, same_value_refl, U, B, C. reflexivity.
Qed.

Lemma bs_in_sync_after loadTime evs : bs_in_sync (state_after loadTime evs).
Proof.
  apply run_invariant; [reflexivity | apply step_sync].
Qed.

Lemma step_amount_change loadTime value s :
  let s' := Act.state_of (step loadTime (AmountChange value) s) in
  amountUSD s' = value /\ config s' = config s
  /\ amountBs s' = derived_bs value (tasa (config s)).
Proof.
  cbv zeta. rewrite step_state.
  destruct (dispatch_calculator loadTime (AmountChange value) s) as (C & U & B).
  cbv zeta in *. rewrite C, same_value_refl. auto.
Qed.

Lemma step_config_snapshot loadTime d s :
  let s' := Act.state_of (step loadTime (ConfigSnapshot (Some d)) s) in
  amountUSD s' = amountUSD s /\ config s' = merge (DEFAULT_CONFIG loadTime) d.
Proof.
  cbv zeta. rewrite step_state.
  destruct (dispatch_calculator loadTime (ConfigSnapshot (Some d)) s)
    as (C & U & B).
  cbv zeta in *. destruct (Num.same_value _ _); [auto|].
  rewrite tasaEffect_state. branches; auto.
Qed.

(** What the es-VE format with two decimals prints, by the kind of the
    number. *)
Lemma fmt_2_2_cases x :
  match x with
  | S754_nan => Intl.fmt_2_2 x = "NaN"
  | S754_infinity sg => Intl.fmt_2_2 x = Intl.minus sg +:+ Intl.infinity_sign
  | S754_zero sg => Intl.fmt_2_2 x = Intl.minus sg +:+ "0,00"
  | S754_finite sg m e =>
      let d := fst (Num.shortest m e) in
      let q := snd (Num.shortest m e) in
      exists whole frac,
        Intl.fmt_2_2 x = Intl.minus sg +:+ Intl.group whole +:+ "," +:+ frac
        /\ String.length frac = 2%nat
        /\ Str.forallb Str.is_digit frac = true
        /\ whole +:+ frac
           = Intl.pad_left 3 (Str.of_Z (Intl.round_half_expand d q 2))
  end.
Proof.
  destruct x as [sg|sg| |sg m e]; try reflexivity.
  cbv zeta. unfold Intl.fmt_2_2, Intl.toLocaleString_esVE.
  pose proof (shortest_nonneg m e) as P.
  destruct (Num.shortest m e) as [d q]. cbn [fst snd] in *.
  destruct (format_scaled_two_decimals (Intl.round_half_expand d q 2))
    as (w & f & -> & L & D & E); [apply round_half_expand_nonneg, P|].
  exists w, f. auto.
Qed.

(** C1, as the code has it.  After any sequence of events the Bolivar
    field is the text derived from the dollar field and the rate of the
    current configuration: empty when the dollar field is empty or not a
    number, else their binary64 product in the es-VE format with two
    decimals.  For a finite product that text is: a hyphen if negative,
    then the digits of the product, taken from its shortest decimal and
    rounded to hundredths half away from zero, of which the last two
    stand after a comma and the others before it, grouped in threes by
    full stops.  A product that overflows is shown as the infinity sign
    and a product that is no number as NaN, both without decimals.  The
    invariant holds in particular right after a change of the dollar
    field, which is computed with the rate in force, and right after a
    configuration arrives, whose rate then is the one in force. *)
Theorem bolivar_amount_in_sync loadTime (evs : list Event) :
  let s := state_after loadTime evs in
  let product := Num.mul (JS.parseFloat (amountUSD s)) (tasa (config s)) in
  amountBs s = derived_bs (amountUSD s) (tasa (config s))
  /\ ((Str.is_empty (amountUSD s) || Num.isNaN (JS.parseFloat (amountUSD s)))
      = true -> amountBs s = "")
  /\ ((Str.is_empty (amountUSD s) || Num.isNaN (JS.parseFloat (amountUSD s)))
      = false ->
      amountBs s = Intl.toLocaleString_esVE 2 2 product
      /\ (finite product ->
          exists whole frac,
            amountBs s = whole +:+ "," +:+ frac
            /\ String.length frac = 2%nat
            /\ Str.forallb Str.is_digit frac = true)
      /\ (forall sg m e,
            product = S754_finite sg m e ->
            let d := fst (Num.shortest m e) in
            let q := snd (Num.shortest m e) in
            exists whole frac,
              amountBs s
              = Intl.minus sg +:+ Intl.group whole +:+ "," +:+ frac
              /\ String.length frac = 2%nat
              /\ Str.forallb Str.is_digit frac = true
              /\ whole +:+ frac
                 = Intl.pad_left 3 (Str.of_Z (Intl.round_half_expand d q 2)))
      /\ (forall sg, product = S754_zero sg ->
                     amountBs s = Intl.minus sg +:+ "0,00")
      /\ (forall sg, product = S754_infinity sg ->
                     amountBs s = Intl.minus sg +:+ Intl.infinity_sign)
      /\ (product = S754_nan -> amountBs s = "NaN"))
  /\ ((forall digits, (String.length digits <= 3)%nat ->
                      Intl.group digits = digits)
      /\ (forall digits x y z,
            digits <> "" ->
            Intl.group (digits +:+ String x (String y (String z "")))
            = Intl.group digits +:+ "." +:+ String x (String y (String z ""))))
  /\ (forall value,
        let s' := state_after loadTime (evs ++ [AmountChange value]) in
        amountUSD s' = value /\ tasa (config s') = tasa (config s)
        /\ amountBs s' = derived_bs value (tasa (config s)))
  /\ (forall d,
        let s' := state_after loadTime (evs ++ [ConfigSnapshot (Some d)]) in
        amountUSD s' = amountUSD s
        /\ tasa (config s') = default (Num.of_Z 60) (d_tasa d)
        /\ amountBs s' = derived_bs (amountUSD s) (tasa (config s'))).
Proof.
  cbv zeta. pose proof (bs_in_sync_after loadTime evs) as B.
  unfold bs_in_sync, derived_bs in B.
  split; [exact B|]. split; [|split; [|split; [|split]]].
  - intros E. rewrite E in B. exact B.
  - intros E. rewrite E in B. split; [exact B|].
    pose proof (fmt_2_2_cases
                  (Num.mul (JS.parseFloat (amountUSD (state_after loadTime evs)))
                           (tasa (config (state_after loadTime evs))))) as C.
    rewrite <- B in C.
    split; [intros F; rewrite B; apply fmt_2_2_two_decimals, F|].
    split; [intros sg m e P; rewrite P in C; exact C|].
    split; [intros sg P; rewrite P in C; exact C|].
    split; [intros sg P; rewrite P in C; exact C|].
    intros P; rewrite P in C; exact C.
  - split; [exact group_short | exact group_step].
  - intros value. unfold state_after. rewrite run_app.
    destruct (step_amount_change loadTime value
                (Act.state_of (run loadTime evs (initial_state loadTime))))
      as (U & C & A).
    rewrite U, C, A. auto.
  - intros d.
    pose proof (bs_in_sync_after loadTime (evs ++ [ConfigSnapshot (Some d)])) as I.
    unfold bs_in_sync, state_after in *. rewrite run_app in *.
    destruct (step_config_snapshot loadTime d
                (Act.state_of (run loadTime evs (initial_state loadTime))))
      as (U & C).
    rewrite U in *. rewrite C in *. auto.
Qed.

Lemma bolivar_amount_in_sync_witness :
  let at_rate usd rate :=
    state_after 0 [AmountChange usd; ReferenceChange "1234";
                   ConfigSnapshot (Some (only_tasa (JS.parseFloat rate)))] in
  amountBs (at_rate "10.5" "36.42") = "382,41"
  /\ amountBs (at_rate "1.75" "36.42") = "63,74"
  /\ amountBs (at_rate "0.125" "1") = "0,13"
  /\ amountBs (at_rate "1234567.891" "1") = "1.234.567,89"
  /\ amountBs (at_rate "-1234.5" "2") = "-2.469,00"
  /\ amountBs (at_rate "10.5" "36.42")
     = derived_bs (amountUSD (at_rate "10.5" "36.42"))
                  (tasa (config (at_rate "10.5" "36.42"))).
Proof.
  cbv zeta. do 5 (split; [vm_compute; reflexivity|]).
  exact (proj1 (bolivar_amount_in_sync 0 _)).
Defined.

(** The claim as the specification has it fails where the product
    overflows: for the amount 1e308, which the number field accepts, at
    the rate 60 of the defaults the Bolivar field shows the infinity
    sign, with no decimals at all. *)
Lemma bolivar_overflow_without_decimals :
  let s := state_after 0 [AmountChange (number_value "1e308")] in
  number_value "1e308" = "1e308"
  /\ amountUSD s = "1e308"
  /\ Num.isNaN (JS.parseFloat (amountUSD s)) = false
  /\ amountBs s = Intl.infinity_sign
  /\ ~ Str.contains (amountBs s) ","
  /\ ~ exists whole frac,
         amountBs s = whole +:+ "," +:+ frac /\ String.length frac = 2%nat.
Proof.
  cbv zeta. split; [vm_compute; reflexivity|].
  split; [vm_compute; reflexivity|].
  split; [vm_compute; reflexivity|]. split; [vm_compute; reflexivity|].
  assert (N : ~ Str.contains
                  (amountBs (state_after 0
                               [AmountChange (number_value "1e308")])) ",").
  { intros H%contains_containsb. vm_compute in H. discriminate. }
  split; [exact N|].
  intros (whole & frac & E & _). apply N. exists whole, frac. exact E.
Qed.

(** ** Oversized files are refused (C7) *)

(** C7.  When the first file of a selection is larger than 5 MB
    (5 * 1024 * 1024 bytes) the only effect is the error notice, and the
    state differs from the one before in the toast alone: the selected
    file and its preview URL, or their absence, are as they were; the
    same holds after the effects that follow the handler. *)
Theorem oversized_file_rejected loadTime (s : State) (file : File)
  (others : list File) (blobUrl : string) :
  5 * 1024 * 1024 < file_size file ->
  let r := step loadTime (FileSelect (file :: others) blobUrl) s in
  Act.effects_of r = [Notice error "La imagen es muy grande (Max 5MB)"]
  /\ Act.state_of r
     = set_toast {| message := "La imagen es muy grande (Max 5MB)";
                    type := error; show := true |} s
  /\ selectedFile (Act.state_of r) = selectedFile s
  /\ previewUrl (Act.state_of r) = previewUrl s.
Proof.
  intros Hbig. cbv zeta.
  assert (E : (max_file_size <? file_size file) = true)
    by (apply Z.ltb_lt; exact Hbig).
  handler. fields. rewrite E. fields.
  rewrite same_value_refl. cbn [negb]. fields.
  rewrite bool_decide_eq_true_2 by reflexivity. cbn [negb]. fields.
  repeat split; reflexivity.
Qed.

Lemma oversized_file_rejected_witness :
  5 * 1024 * 1024 < file_size big_file
  /\ selectedFile
       (Act.state_of (step 0 (FileSelect [big_file] "blob:1") (initial_state 0)))
     = None.
Proof.
  assert (H : 5 * 1024 * 1024 < file_size big_file) by (cbn; lia).
  split; [exact H|].
  exact (proj1 (proj2 (proj2
           (oversized_file_rejected 0 (initial_state 0) big_file [] "blob:1" H)))).
Defined.

(** ** Validation (C2) *)

Lemma parseFloat_empty : JS.parseFloat "" = Num.NaN.
Proof. reflexivity. Qed.

(** The check of the handler rejects exactly the texts that do not parse
    as a positive number. *)
Lemma amount_rejected_spec usd :
  amount_rejected usd = false <-> parses_positive usd.
Proof.
  unfold amount_rejected, parses_positive, Num.ltb, Num.leb, Num.zero.
  destruct usd as [|c r].
  - rewrite parseFloat_empty. cbn. split; discriminate.
  - cbn [Str.is_empty orb].
    destruct (JS.parseFloat (String c r)) as [[]|[]| |[] m e]; cbn;
      split; congruence.
Qed.

Lemma amount_rejected_true usd :
  amount_rejected usd = true <-> ~ parses_positive usd.
Proof.
  rewrite <- amount_rejected_spec. destruct (amount_rejected usd); split;
    congruence.
Qed.

(** On a reference made of digits, the length check of the handler is the
    four-digit rule. *)
Lemma reference_rejected_spec r :
  Str.forallb Str.is_digit r = true ->
  reference_rejected r = false <-> four_digits r.
Proof.
  intros D. unfold reference_rejected, four_digits.
  rewrite negb_false_iff, Nat.eqb_eq. tauto.
Qed.

Lemma reference_rejected_true r :
  Str.forallb Str.is_digit r = true ->
  reference_rejected r = true <-> ~ four_digits r.
Proof.
  intros D. rewrite <- (reference_rejected_spec r D).
  destruct (reference_rejected r); split; congruence.
Qed.

(** The handler on a rejected form. *)
Lemma notify_rejected w s :
  (amount_rejected (amountUSD s) || reference_rejected (reference s)) = true ->
  handleNotifyPayment w s
  = (tt,
     set_toast {| message := "Por favor completa todos los campos";
                  type := error; show := true |}
       (set_errors {| amount_error := amount_rejected (amountUSD s);
                      reference_error := reference_rejected (reference s) |} s),
     (if amount_rejected (amountUSD s) && amount_input_mounted w
      then [Focus AmountInput] else [])
     ++ (if reference_rejected (reference s)
            && negb (amount_rejected (amountUSD s))
            && reference_input_mounted w
         then [Focus ReferenceInput] else [])
     ++ [Notice error "Por favor completa todos los campos"]).
Proof.
  intros H. handler. fields. rewrite H.
  destruct (amount_rejected (amountUSD s) && amount_input_mounted w);
    destruct (reference_rejected (reference s)
              && negb (amount_rejected (amountUSD s))
              && reference_input_mounted w);
    reflexivity.
Qed.

(** C2.  On a form that is open (both inputs mounted), whenever the
    dollar text does not parse as a positive number or the reference is
    not exactly four digits, the submission stops after validation: each
    field's error flag is raised exactly when that field is invalid, the
    focus goes to the first invalid field (amount before reference), an
    error notice is shown, and no upload request, no write to the
    transaction store and no link is issued. *)
Theorem invalid_submission_rejected loadTime (evs : list Event) (w : World) :
  let s := state_after loadTime evs in
  amount_input_mounted w = true ->
  reference_input_mounted w = true ->
  ~ (parses_positive (amountUSD s) /\ four_digits (reference s)) ->
  let r := handleNotifyPayment w s in
  (amount_error (errors (Act.state_of r)) = true
   <-> ~ parses_positive (amountUSD s))
  /\ (reference_error (errors (Act.state_of r)) = true
      <-> ~ four_digits (reference s))
  /\ Act.effects_of r
     = [Focus (if amount_error (errors (Act.state_of r))
               then AmountInput else ReferenceInput);
        Notice error "Por favor completa todos los campos"]
  /\ nothing_sent (Act.effects_of r).
Proof.
  cbv zeta. intros Ma Mr Hbad.
  destruct (reference_ok_after loadTime evs) as [D _].
  set (s := state_after loadTime evs) in *.
  pose proof (amount_rejected_true (amountUSD s)) as A.
  pose proof (reference_rejected_true (reference s) D) as R.
  assert (H : (amount_rejected (amountUSD s)
               || reference_rejected (reference s)) = true).
  { destruct (amount_rejected (amountUSD s)) eqn:Ea; [reflexivity|].
    destruct (reference_rejected (reference s)) eqn:Er; [reflexivity|].
    exfalso. apply Hbad. split.
    - apply amount_rejected_spec, Ea.
    - apply (reference_rejected_spec _ D), Er. }
  rewrite (notify_rejected w s H). unfold Act.state_of, Act.effects_of.
  fields. rewrite Ma, Mr, !andb_true_r.
  split; [exact A|]. split; [exact R|].
  destruct (amount_rejected (amountUSD s)) eqn:Ea; cbn [negb andb app].
  - rewrite andb_false_r. split; [reflexivity | repeat split].
  - cbn [orb] in H. rewrite H. split; [reflexivity | repeat split].
Qed.

Lemma invalid_submission_rejected_witness :
  let s := state_after 0 [AmountChange "0"; ReferenceChange "12"] in
  ~ (parses_positive (amountUSD s) /\ four_digits (reference s))
  /\ Act.effects_of (handleNotifyPayment calm_world s)
     = [Focus AmountInput; Notice error "Por favor completa todos los campos"].
Proof.
  cbv zeta.
  assert (H : ~ (parses_positive
                   (amountUSD (state_after 0 [AmountChange "0"; ReferenceChange "12"]))
                 /\ four_digits
                      (reference (state_after 0 [AmountChange "0"; ReferenceChange "12"]))))
    by (intros [_ [L _]]; vm_compute in L; discriminate).
  split; [exact H|].
  destruct (invalid_submission_rejected 0
              [AmountChange "0"; ReferenceChange "12"] calm_world
              eq_refl eq_refl H) as (_ & _ & E & _).
  rewrite E. reflexivity.
Defined.

(** ** A failed upload aborts the submission (C3) *)

Lemma upload_none w cfg file s :
  upload_failed w ->
  let r := uploadImageToDrive w cfg file s in
  Act.value_of r = None
  /\ List.existsb is_push (Act.effects_of r) = false
  /\ List.existsb is_window_open (Act.effects_of r) = false.
Proof.
  intros F. handler. fields.
  destruct (Str.is_empty (googleScriptUrl cfg)); fields; [auto|].
  destruct (read_file w); fields; [|auto].
  destruct F as [->|(d & -> & N)]; fields; [auto|].
  apply String.eqb_neq in N. rewrite N. fields. auto.
Qed.

(** C3.  With an image attached, when the endpoint answers a result
    other than success or the request fails, the submission writes no
    transaction record and opens no link, and an error notice is shown;
    when the form had passed validation that notice is the one about the
    upload, it comes last, and the form leaves the uploading state. *)
Theorem upload_failure_aborts (s : State) (w : World) (file : File) :
  selectedFile s = Some file ->
  upload_failed w ->
  let r := handleNotifyPayment w s in
  List.existsb is_push (Act.effects_of r) = false
  /\ List.existsb is_window_open (Act.effects_of r) = false
  /\ List.existsb is_error_notice (Act.effects_of r) = true
  /\ (amount_rejected (amountUSD s) = false ->
      reference_rejected (reference s) = false ->
      isUploading (Act.state_of r) = false
      /\ exists before,
           Act.effects_of r
           = before
             ++ [Notice error "Error subiendo imagen. Verifica tu conexión."]).
Proof.
  cbv zeta. intros Hfile F.
  destruct (amount_rejected (amountUSD s)
            || reference_rejected (reference s)) eqn:V.
  - rewrite (notify_rejected w s V). unfold Act.effects_of, Act.state_of.
    fields.
    destruct (amount_rejected (amountUSD s)), (reference_rejected (reference s));
      try discriminate;
      destruct (amount_input_mounted w), (reference_input_mounted w);
      cbn; repeat split; discriminate.
  - apply orb_false_elim in V as [Va Vr].
    pose proof (upload_none w (config s) file
                  (set_isUploading true
                     (set_errors {| amount_error := false;
                                    reference_error := false |} s)) F) as U.
    cbv zeta in U. revert U.
    unfold handleNotifyPayment, Act.bind, Act.get, Act.when, Act.modify,
      Act.ret, Act.state_of, Act.effects_of, Act.value_of.
    rewrite Va, Vr, Hfile. cbn [andb orb negb]. fields.
    destruct (uploadImageToDrive w (config s) file _) as [[v s1] e1].
    fields. intros (-> & P & O). cbn [truthy_str].
    unfold showToast, Act.bind, Act.modify, Act.emit. fields.
    rewrite !app_nil_l, !app_nil_r.
    rewrite !existsb_app, P, O. cbn.
    repeat split; try reflexivity.
    + apply orb_true_r.
    + eauto.
Qed.

Lemma upload_failure_aborts_witness :
  let s := state_after 0 [AmountChange "10"; ReferenceChange "1234";
                          FileSelect [receipt] "blob:1"] in
  selectedFile s = Some receipt
  /\ upload_failed world_upload_error
  /\ List.existsb is_push
       (Act.effects_of (handleNotifyPayment world_upload_error s)) = false.
Proof.
  cbv zeta.
  assert (F : upload_failed world_upload_error).
  { right. eexists. split; [reflexivity|]. cbn. discriminate. }
  split; [reflexivity|]. split; [exact F|].
  exact (proj1 (upload_failure_aborts
                  (state_after 0 [AmountChange "10"; ReferenceChange "1234";
                                  FileSelect [receipt] "blob:1"])
                  world_upload_error receipt eq_refl F)).
Defined.

(** ** A failed write does not stop the notification (C4) *)

(** The effects of a submission that passed validation and, with an image,
    the upload. *)
Lemma notify_accepted w s link :
  amount_rejected (amountUSD s) = false ->
  reference_rejected (reference s) = false ->
  image_settled w s link ->
  exists before,
    List.existsb is_error_notice before = false
    /\ List.existsb is_push before = false
    /\ List.existsb is_window_open before = false
    /\ Act.effects_of (handleNotifyPayment w s)
       = before
         ++ (if db_ready w
             then Push (payment_record w s link)
                  :: (if push_ok w then []
                      else [ConsoleError "Error saving payment record:"])
             else [])
         ++ [WindowOpen (notification_link w s link);
             Notice success "Abriendo WhatsApp..."].
Proof.
  intros Va Vr I. unfold image_settled in I.
  unfold notification_link, payment_record.
  handler. fields. rewrite Va, Vr. cbn [andb orb negb]. fields.
  destruct (selectedFile s) as [file|].
  - destruct I as (G & [content Rd] & Up & L).
    rewrite G, Rd, Up. fields. cbn [result url String.eqb Ascii.eqb Bool.eqb].
    fields. cbn [truthy_str]. rewrite L. cbn [negb from_option id]. fields.
    rewrite L.
    eexists [Fetch _ _].
    destruct (db_ready w), (push_ok w); cbn [negb]; fields;
      repeat split; reflexivity.
  - subst link. fields. exists [].
    destruct (db_ready w), (push_ok w); cbn [negb]; fields;
      repeat split; reflexivity.
Qed.

(** Whatever happens next, the error flags are those of the validation. *)
Lemma notify_errors w s :
  errors (Act.state_of (handleNotifyPayment w s))
  = {| amount_error := amount_rejected (amountUSD s);
       reference_error := reference_rejected (reference s) |}.
Proof.
  handler. fields. branches; reflexivity.
Qed.

(** C4.  When the form is valid and the image, if any, went up, a write
    to the transaction store that fails is logged and nothing more: the
    write is attempted, the error goes to the console, and then the link
    with the notification text is opened and the confirmation notice
    shown; no error notice is raised. *)
Theorem persistence_failure_does_not_abort (s : State) (w : World)
  (link : string) :
  parses_positive (amountUSD s) ->
  four_digits (reference s) ->
  image_settled w s link ->
  db_ready w = true ->
  push_ok w = false ->
  exists before,
    List.existsb is_error_notice before = false
    /\ List.existsb is_window_open before = false
    /\ Act.effects_of (handleNotifyPayment w s)
       = before
         ++ [Push (payment_record w s link);
             ConsoleError "Error saving payment record:";
             WindowOpen (notification_link w s link);
             Notice success "Abriendo WhatsApp..."].
Proof.
  intros Hp [Hl Hd] I Db Pf.
  destruct (notify_accepted w s link) as (before & N & _ & O & E).
  - apply amount_rejected_spec, Hp.
  - apply (reference_rejected_spec _ Hd). split; assumption.
  - exact I.
  - exists before. rewrite E, Db, Pf. auto.
Qed.

Lemma persistence_failure_does_not_abort_witness :
  let s := state_after 0 [AmountChange "10"; ReferenceChange "1234"] in
  parses_positive (amountUSD s)
  /\ four_digits (reference s)
  /\ image_settled world_push_fails s ""
  /\ exists before,
       Act.effects_of (handleNotifyPayment world_push_fails s)
       = before
         ++ [Push (payment_record world_push_fails s "");
             ConsoleError "Error saving payment record:";
             WindowOpen (notification_link world_push_fails s "");
             Notice success "Abriendo WhatsApp..."].
Proof.
  cbv zeta.
  assert (P : parses_positive
                (amountUSD (state_after 0 [AmountChange "10"; ReferenceChange "1234"])))
    by (vm_compute; reflexivity).
  assert (R : four_digits
                (reference (state_after 0 [AmountChange "10"; ReferenceChange "1234"])))
    by (split; vm_compute; reflexivity).
  assert (I : image_settled world_push_fails
                (state_after 0 [AmountChange "10"; ReferenceChange "1234"]) "")
    by reflexivity.
  split; [exact P|]. split; [exact R|]. split; [exact I|].
  destruct (persistence_failure_does_not_abort _ world_push_fails "" P R I
              eq_refl eq_refl) as (before & _ & _ & E).
  exists before. exact E.
Defined.

(** ** Occurrences in a text *)

Lemma contains_here t rest : Str.contains (t +:+ rest) t.
Proof. exists "", rest. reflexivity. Qed.

Lemma contains_end t : Str.contains t t.
Proof. exists "", "". rewrite append_nil, append_empty. reflexivity. Qed.

Lemma contains_later a b t : Str.contains b t -> Str.contains (a +:+ b) t.
Proof.
  intros (pre & post & ->). exists (a +:+ pre), post.
  rewrite append_assoc. reflexivity.
Qed.

Lemma encodeURIComponent_app a b :
  JS.encodeURIComponent (a +:+ b)
  = JS.encodeURIComponent a +:+ JS.encodeURIComponent b.
Proof.
  induction a as [|c a IH]; [reflexivity|].
  rewrite append_cons. cbn [JS.encodeURIComponent].
  destruct (JS.unreserved c); rewrite IH; reflexivity.
Qed.

(** Find [t] among the pieces of a right-nested concatenation. *)
Ltac occurs :=
  first [ apply contains_here
        | apply contains_end
        | apply contains_later; occurs ].

(** ** The notification of a ten dollar payment (C6) *)

Lemma parseFloat_10 : JS.parseFloat "10" = Num.of_Z 10.
Proof. vm_compute. reflexivity. Qed.

Lemma fmt_min2_10 : Intl.fmt_min2 (Num.of_Z 10) = "10,00".
Proof. vm_compute. reflexivity. Qed.

(** With the dollar text "10" and the reference "1234" the form is valid. *)
Lemma ten_1234_accepted :
  amount_rejected "10" = false /\ reference_rejected "1234" = false.
Proof. split; vm_compute; reflexivity. Qed.

(** C6, as the code has it.  A submission with amount "10", reference
    "1234" and no photo passes validation, raises no error notice and
    opens the link [https://wa.me/<contact>?text=<text>], where the
    text is the URL-encoded message and contains the amount in the es-VE
    format, "10,00" with its comma encoded as "10%2C00", the exchange rate
    in the same format, and "1234". *)
Theorem ten_dollar_notification loadTime (evs : list Event) (w : World) :
  let s := state_after loadTime evs in
  amountUSD s = "10" ->
  reference s = "1234" ->
  selectedFile s = None ->
  let r := handleNotifyPayment w s in
  let text :=
    JS.encodeURIComponent
      (mensaje (config s) w (Num.of_Z 10)
         (Intl.fmt_2_2 (Num.mul (Num.of_Z 10) (tasa (config s)))) "1234" "") in
  errors (Act.state_of r) = {| amount_error := false; reference_error := false |}
  /\ List.existsb is_error_notice (Act.effects_of r) = false
  /\ In (WindowOpen ("https://wa.me/" +:+ whatsapp (config s) +:+ "?text=" +:+ text))
        (Act.effects_of r)
  /\ Str.contains text "10%2C00"
  /\ Str.contains text (JS.encodeURIComponent (Intl.fmt_min2 (tasa (config s))))
  /\ Str.contains text "1234".
Proof.
  cbv zeta. intros Ha Hr Hf.
  pose proof (bs_in_sync_after loadTime evs) as B. unfold bs_in_sync in B.
  set (s := state_after loadTime evs) in *.
  rewrite Ha in B. unfold derived_bs in B. rewrite parseFloat_10 in B.
  cbn [Str.is_empty orb] in B.
  change (Num.isNaN (Num.of_Z 10)) with false in B. cbv iota in B.
  destruct ten_1234_accepted as [Va Vr].
  split; [|split; [|split]].
  - rewrite notify_errors, Ha, Hr, Va, Vr. reflexivity.
  - destruct (notify_accepted w s "") as (before & N & _ & _ & E).
    + rewrite Ha. exact Va.
    + rewrite Hr. exact Vr.
    + unfold image_settled. rewrite Hf. reflexivity.
    + rewrite E, !existsb_app, N.
      destruct (db_ready w), (push_ok w); reflexivity.
  - destruct (notify_accepted w s "") as (before & _ & _ & _ & E).
    + rewrite Ha. exact Va.
    + rewrite Hr. exact Vr.
    + unfold image_settled. rewrite Hf. reflexivity.
    + rewrite E. unfold notification_link.
      rewrite Ha, Hr, B, parseFloat_10.
      apply in_or_app. right. apply in_or_app. right. left. reflexivity.
  - unfold mensaje. rewrite fmt_min2_10.
    cbn [Str.is_empty]. rewrite !encodeURIComponent_app.
    change (JS.encodeURIComponent "10,00") with "10%2C00".
    change (JS.encodeURIComponent "1234") with "1234".
    repeat split; occurs.
Qed.

Lemma ten_dollar_notification_witness :
  let s := state_after 0 [AmountChange "10"; ReferenceChange "1234"] in
  let s' := state_after 0
              [ConfigSnapshot (Some (only_tasa (JS.parseFloat "36.4255")));
               AmountChange "10"; ReferenceChange "1234"] in
  amountUSD s = "10" /\ reference s = "1234" /\ selectedFile s = None
  /\ Str.contains
       (JS.encodeURIComponent
          (mensaje (config s) calm_world (Num.of_Z 10)
             (Intl.fmt_2_2 (Num.mul (Num.of_Z 10) (tasa (config s))))
             "1234" ""))
       "10%2C00"
  /\ Str.contains
       (JS.encodeURIComponent
          (mensaje (config s') calm_world (Num.of_Z 10)
             (Intl.fmt_2_2 (Num.mul (Num.of_Z 10) (tasa (config s'))))
             "1234" ""))
       "36%2C426".
Proof.
  cbv zeta. split; [reflexivity|]. split; [reflexivity|].
  split; [reflexivity|]. split.
  - exact (proj1 (proj2 (proj2 (proj2
             (ten_dollar_notification 0
                [AmountChange "10"; ReferenceChange "1234"] calm_world
                eq_refl eq_refl eq_refl))))).
  - exact (proj1 (proj2 (proj2 (proj2 (proj2
             (ten_dollar_notification 0
                [ConfigSnapshot (Some (only_tasa (JS.parseFloat "36.4255")));
                 AmountChange "10"; ReferenceChange "1234"] calm_world
                eq_refl eq_refl eq_refl)))))).
Defined.

(** The link that the form opens for "10" and "1234" at the default rate:
    the amount reads "10,00", and "10.00" occurs nowhere in it. *)
Lemma ten_dollar_link_without_10_00 :
  let s := state_after 0 [AmountChange "10"; ReferenceChange "1234"] in
  let link :=
    "https://wa.me/584129855266?text=PAGO%20MOVIL%20-%20Inversiones%20GSKY%0A%F0%9F%93%85%201%2F11%2F2026%2005%3A13%20p.%20m.%0A%0A%F0%9F%92%B5%2010%2C00%20USD%20(Tasa%3A%2060%2C00)%0A%E2%9C%85%20600%2C00%20Bs%0A%0A%F0%9F%94%A2%20Ref%3A%201234" in
  amountUSD s = "10" /\ reference s = "1234" /\ selectedFile s = None
  /\ Act.effects_of (handleNotifyPayment calm_world s)
     = [Push (payment_record calm_world s ""); WindowOpen link;
        Notice success "Abriendo WhatsApp..."]
  /\ ~ Str.contains link "10.00".
Proof.
  cbv zeta. repeat split; try (vm_compute; reflexivity).
  intros H%contains_containsb. vm_compute in H. discriminate.
Qed.

(** ** Text after the number is ignored (C10) *)

Ltac ascii_cases c := destruct c as [[] [] [] [] [] [] [] []].

Lemma span_digits_app ds t :
  Str.forallb Str.is_digit ds = true ->
  plain_tail t ->
  Str.span Str.is_digit (ds +:+ t) = (ds, t).
Proof.
  intros D T. induction ds as [|c ds IH].
  - rewrite append_nil. destruct t as [|c t]; [reflexivity|].
    destruct T as (N & _ & _). cbn [Str.span]. rewrite N. reflexivity.
  - rewrite append_cons. cbn [Str.forallb] in D.
    apply andb_prop in D as [Dc D]. cbn [Str.span]. rewrite Dc, (IH D).
    reflexivity.
Qed.

Lemma parseFloat_digit_head c r :
  Str.is_digit c = true ->
  JS.parseFloat (String c r) = JS.parse_unsigned false (String c r).
Proof.
  intros D. unfold JS.parseFloat.
  ascii_cases c; try discriminate D; destruct r as [|c2 [|c3 r]]; reflexivity.
Qed.

Lemma prefix_Infinity_digit c r :
  Str.is_digit c = true -> String.prefix "Infinity" (String c r) = false.
Proof.
  intros D. ascii_cases c; try discriminate D; reflexivity.
Qed.

Lemma no_fraction t :
  plain_tail t ->
  match t with
  | String "." u => Str.span Str.is_digit u
  | _ => (EmptyString, t)
  end = (EmptyString, t).
Proof.
  destruct t as [|c u]; [reflexivity|]. intros (_ & N & _).
  ascii_cases c; try reflexivity. contradiction.
Qed.

Lemma no_exponent t : plain_tail t -> JS.exponent_part t = 0.
Proof.
  destruct t as [|c u]; [reflexivity|]. intros (_ & _ & E).
  cbn [JS.exponent_part]. rewrite E. reflexivity.
Qed.

(** Digits followed by a plain tail parse to the number of the digits. *)
Lemma parseFloat_digits_tail ds t :
  ds <> "" ->
  Str.forallb Str.is_digit ds = true ->
  plain_tail t ->
  JS.parseFloat (ds +:+ t) = Num.of_decimal false (JS.digits_val ds) 0.
Proof.
  intros N D T. destruct ds as [|c ds]; [contradiction|].
  pose proof D as D'. cbn [Str.forallb] in D'. apply andb_prop in D' as [Dc _].
  rewrite append_cons, (parseFloat_digit_head _ _ Dc).
  unfold JS.parse_unsigned. rewrite (prefix_Infinity_digit _ _ Dc).
  rewrite <- append_cons, (span_digits_app _ _ D T), (no_fraction _ T).
  rewrite (no_exponent _ T), append_empty. reflexivity.
Qed.

Lemma parseFloat_10abc : JS.parseFloat "10abc" = Num.of_Z 10.
Proof. vm_compute. reflexivity. Qed.

Lemma span_stop ds t :
  Str.forallb Str.is_digit ds = true -> digit_head t = false ->
  Str.span Str.is_digit (ds +:+ t) = (ds, t).
Proof.
  intros D T. induction ds as [|c ds IH].
  - rewrite append_nil. destruct t as [|c t]; [reflexivity|].
    cbn [digit_head] in T. cbn [Str.span]. rewrite T. reflexivity.
  - rewrite append_cons. cbn [Str.forallb] in D.
    apply andb_prop in D as [Dc D]. cbn [Str.span]. rewrite Dc, (IH D).
    reflexivity.
Qed.

Lemma span_spec s :
  s = fst (Str.span Str.is_digit s) +:+ snd (Str.span Str.is_digit s)
  /\ Str.forallb Str.is_digit (fst (Str.span Str.is_digit s)) = true
  /\ digit_head (snd (Str.span Str.is_digit s)) = false.
Proof.
  induction s as [|c s (E & D & H)]; [repeat split|].
  cbn [Str.span]. destruct (Str.is_digit c) eqn:C.
  - destruct (Str.span Str.is_digit s) as [a b]. cbn [fst snd] in *.
    rewrite append_cons, <- E. cbn [Str.forallb]. rewrite C, D. auto.
  - cbn [fst snd digit_head Str.forallb]. rewrite append_nil. auto.
Qed.

Lemma mark_no_digit c :
  JS.is_exp_mark c = true ->
  Str.is_digit c = false /\ c <> "."%char /\ c <> "-"%char /\ c <> "+"%char.
Proof.
  intros M. ascii_cases c; try discriminate M; repeat split; discriminate.
Qed.

Lemma exponent_part_none t : exponent_head t = false -> JS.exponent_part t = 0.
Proof.
  destruct t as [|c r]; [reflexivity|]. cbn [exponent_head JS.exponent_part].
  destruct (JS.is_exp_mark c); [|reflexivity]. cbn [andb]. intros H.
  apply orb_false_elim in H as [H1 H2].
  assert (Z : forall u, digit_head u = false ->
                let '(ed, _) := Str.span Str.is_digit u in
                Str.is_empty ed = true).
  { intros [|d u] Hu; [reflexivity|]. cbn [digit_head] in Hu.
    cbn [Str.span]. rewrite Hu. reflexivity. }
  destruct r as [|d u]; [reflexivity|].
  ascii_cases d;
    first [ specialize (Z _ H2) | specialize (Z _ H1) ];
    destruct (Str.span Str.is_digit _) as [ed rest]; rewrite Z; reflexivity.
Qed.

Lemma parseFloat_body t :
  body_head t = true ->
  JS.parseFloat t = JS.parse_unsigned false t
  /\ JS.parseFloat (String "-" t) = JS.parse_unsigned true t
  /\ JS.parseFloat (String "+" t) = JS.parse_unsigned false t
  /\ String.prefix "Infinity" t = false.
Proof.
  destruct t as [|c r]; [discriminate|]. unfold body_head.
  cbn [digit_head point_head]. intros H. unfold JS.parseFloat.
  ascii_cases c; try discriminate H;
    (split; [|split; [|split]]);
    try reflexivity;
    destruct r as [|c2 [|c3 r]]; reflexivity.
Qed.

Section Literals.

Variables (l : Literal) (tail : string).
Hypothesis WF : well_formed l.
Hypothesis ST : stops l tail.

Let rest2 := exp_text (l_exp l) +:+ tail.
Let rest1 := frac_text (l_frac l) +:+ rest2.
Let body := l_int l +:+ rest1.

Lemma rest2_no_digit : digit_head rest2 = false.
Proof.
  subst rest2. destruct WF as (_ & _ & _ & WE), ST as (T & _ & _).
  destruct (l_exp l) as [[[c sg] ds]|]; [|exact T].
  destruct WE as (M & _ & _). apply mark_no_digit in M as (D & _).
  exact D.
Qed.

Lemma rest1_no_digit : digit_head rest1 = false.
Proof.
  subst rest1. destruct (l_frac l); [reflexivity|]. apply rest2_no_digit.
Qed.

Lemma exponent_rest2 : JS.exponent_part rest2 = exp_value l.
Proof.
  subst rest2. unfold exp_value.
  destruct WF as (_ & _ & _ & WE), ST as (T & TE & _).
  destruct (l_exp l) as [[[c sg] ds]|].
  - destruct WE as (M & N & D). cbn [exp_text]. rewrite append_cons.
    cbn [JS.exponent_part]. rewrite M.
    assert (S : Str.span Str.is_digit (ds +:+ tail) = (ds, tail))
      by (apply span_stop; assumption).
    rewrite append_assoc. destruct sg as [[|]|]; cbn [sign_text].
    + rewrite append_cons, append_nil. cbv beta iota. rewrite S, N.
      reflexivity.
    + rewrite append_cons, append_nil. cbv beta iota. rewrite S, N.
      reflexivity.
    + rewrite append_nil.
      destruct ds as [|d ds]; [discriminate N|].
      cbn [Str.forallb] in D. apply andb_prop in D as [Dd _].
      rewrite append_cons in *.
      ascii_cases d; try discriminate Dd; cbv beta iota; rewrite S;
        reflexivity.
  - rewrite append_nil. apply exponent_part_none, TE. reflexivity.
Qed.

Lemma body_has_head : body_head body = true.
Proof.
  subst body rest1. destruct WF as (Di & Df & NE & _). unfold body_head.
  destruct (l_int l) as [|c ip].
  - rewrite append_nil. unfold frac_digits in *.
    destruct (l_frac l) as [f|]; [|discriminate NE]. reflexivity.
  - rewrite append_cons. cbn [digit_head Str.forallb] in *.
    apply andb_prop in Di as [-> _]. reflexivity.
Qed.

Lemma parse_body neg :
  JS.parse_unsigned neg body
  = Num.of_decimal neg (JS.digits_val (l_int l +:+ frac_digits l))
      (exp_value l - Z.of_nat (String.length (frac_digits l))).
Proof.
  pose proof body_has_head as H.
  destruct (parseFloat_body body H) as (_ & _ & _ & I).
  unfold JS.parse_unsigned. rewrite I. subst body.
  destruct WF as (Di & Df & NE & _).
  rewrite (span_stop _ _ Di rest1_no_digit).
  subst rest1. unfold frac_digits in *.
  destruct (l_frac l) as [f|] eqn:Fr; cbn [frac_text] in *.
  - rewrite append_cons. cbv beta iota.
    rewrite (span_stop _ _ Df rest2_no_digit), NE, exponent_rest2.
    reflexivity.
  - rewrite append_nil.
    assert (P : match rest2 with
                | String "." t => Str.span Str.is_digit t
                | _ => (EmptyString, rest2)
                end = (EmptyString, rest2)).
    { pose proof rest2_no_digit as R. subst rest2.
      destruct WF as (_ & _ & _ & WE), ST as (_ & _ & TP).
      destruct (l_exp l) as [[[c sg] ds]|].
      - destruct WE as (M & _). apply mark_no_digit in M as (_ & N & _).
        cbn [exp_text]. rewrite append_cons.
        ascii_cases c; try reflexivity. contradiction N. reflexivity.
      - rewrite append_nil. specialize (TP eq_refl Fr).
        destruct tail as [|c t]; [reflexivity|].
        ascii_cases c; try reflexivity. discriminate TP. }
    rewrite P, NE, exponent_rest2. reflexivity.
Qed.

(** [parseFloat] reads the literal and nothing after it. *)
Lemma parseFloat_literal :
  JS.parseFloat (literal_text l +:+ tail) = literal_value l.
Proof.
  assert (E : literal_text l +:+ tail = sign_text (l_sign l) +:+ body).
  { unfold literal_text. subst body rest1 rest2.
    rewrite !append_assoc. reflexivity. }
  rewrite E. unfold literal_value.
  destruct (parseFloat_body body body_has_head) as (P0 & Pm & Pp & _).
  destruct (l_sign l) as [[|]|]; cbn [sign_text is_minus].
  - rewrite append_cons, append_nil, Pm. apply parse_body.
  - rewrite append_cons, append_nil, Pp. apply parse_body.
  - rewrite append_nil, P0. apply parse_body.
Qed.

End Literals.

Lemma stops_nothing l : stops l "".
Proof. repeat split. Qed.

(** What the number field accepts is a literal, whole. *)
Lemma read_float_literal v l :
  read_float v = Some l ->
  well_formed l /\ v = literal_text l /\ l_sign l <> Some false.
Proof.
  unfold read_float.
  set (sr := match v with String "-" r => (Some true, r) | _ => (None, v) end).
  assert (Sg : v = sign_text (fst sr) +:+ snd sr /\ fst sr <> Some false).
  { subst sr. destruct v as [|c r]; [split; [reflexivity | discriminate]|].
    ascii_cases c; split; (reflexivity || discriminate). }
  destruct sr as [sg r0]. cbn [fst snd] in Sg. destruct Sg as [Ev Ns].
  destruct (span_spec r0) as (E0 & D0 & H0).
  destruct (Str.span Str.is_digit r0) as [ip r1]. cbn [fst snd] in *.
  set (fr2 := match r1 with
              | String "." t =>
                  let '(fp, r) := Str.span Str.is_digit t in (Some fp, r)
              | _ => (None, r1)
              end).
  assert (F : r1 = frac_text (fst fr2) +:+ snd fr2
              /\ Str.forallb Str.is_digit
                   (match fst fr2 with Some d => d | None => "" end) = true
              /\ digit_head (snd fr2) = false
              /\ (fst fr2 = None -> point_head (snd fr2) = false)).
  { subst fr2. destruct r1 as [|c t]; [repeat split|].
    assert (G : c <> "."%char ->
                String c t = frac_text None +:+ String c t
                /\ Str.forallb Str.is_digit "" = true
                /\ digit_head (String c t) = false
                /\ (@None string = None -> point_head (String c t) = false)).
    { intros N. repeat split; [exact H0|]. intros _.
      cbn [point_head]. ascii_cases c; try reflexivity. contradiction N.
      reflexivity. }
    ascii_cases c; try (apply G; discriminate).
    destruct (span_spec t) as (Et & Dt & Ht).
    destruct (Str.span Str.is_digit t) as [fp r]. cbn [fst snd] in *.
    cbn [frac_text]. rewrite append_cons, <- Et.
    repeat split; try assumption. discriminate. }
  destruct fr2 as [fr r2]. cbn [fst snd] in F.
  destruct F as (E1 & D1 & H1 & P1).
  set (ex3 := match r2 with
              | String c t =>
                  if JS.is_exp_mark c
                  then
                    let '(esg, t') :=
                      match t with
                      | String "-" u => (Some true, u)
                      | String "+" u => (Some false, u)
                      | _ => (None, t)
                      end in
                    let '(ed, r) := Str.span Str.is_digit t' in
                    (Some (c, esg, ed), r)
                  else (None, r2)
              | EmptyString => (None, r2)
              end).
  assert (X : r2 = exp_text (fst ex3) +:+ snd ex3
              /\ match fst ex3 with
                 | Some (c, _, ds) =>
                     JS.is_exp_mark c = true
                     /\ Str.forallb Str.is_digit ds = true
                 | None => True
                 end).
  { subst ex3. destruct r2 as [|c t]; [repeat split|].
    destruct (JS.is_exp_mark c) eqn:M; [|repeat split].
    set (st := match t with
               | String "-" u => (Some true, u)
               | String "+" u => (Some false, u)
               | _ => (None, t)
               end).
    assert (T : t = sign_text (fst st) +:+ snd st).
    { subst st. destruct t as [|d u]; [reflexivity|].
      ascii_cases d; reflexivity. }
    destruct st as [esg t']. cbn [fst snd] in T.
    destruct (span_spec t') as (Et & Dt & Ht).
    destruct (Str.span Str.is_digit t') as [ed r]. cbn [fst snd] in *.
    cbn [exp_text]. rewrite append_cons, append_assoc, <- Et, <- T.
    repeat split; assumption. }
  destruct ex3 as [ex r3]. cbn [fst snd] in X. destruct X as (E2 & W2).
  destruct (Str.is_empty r3) eqn:R3; [|discriminate].
  destruct r3; [|discriminate R3]. rewrite append_empty in E2.
  cbn [andb].
  destruct (negb match fr with Some fp => Str.is_empty fp | None => false end)
    eqn:C1; [|discriminate].
  destruct (negb (Str.is_empty ip
                  && match fr with Some _ => false | None => true end))
    eqn:C2; [|discriminate].
  destruct (negb match ex with Some (_, _, ed) => Str.is_empty ed | None => false end)
    eqn:C3; [|discriminate].
  cbn [andb]. intros [= <-].
  apply negb_true_iff in C1, C2, C3.
  split; [|split; [|exact Ns]].
  - unfold well_formed, frac_digits. cbn [l_int l_frac l_exp].
    split; [exact D0|]. split; [exact D1|]. split.
    + destruct fr as [fp|].
      * rewrite C1. apply andb_false_r.
      * rewrite andb_true_r in C2. rewrite C2. reflexivity.
    + destruct ex as [[[c esg] ed]|]; [|exact I].
      destruct W2 as (M & D). auto.
  - unfold literal_text. cbn [l_sign l_int l_frac l_exp].
    rewrite Ev, E0, E1, E2. reflexivity.
Qed.

Lemma literal_nonempty l tail :
  well_formed l -> Str.is_empty (literal_text l +:+ tail) = false.
Proof.
  intros (_ & _ & NE & _). unfold literal_text, frac_digits in *.
  destruct (l_sign l) as [[|]|]; try reflexivity. cbn [sign_text].
  rewrite append_nil. destruct (l_int l); [|reflexivity].
  destruct (l_frac l); [reflexivity | discriminate NE].
Qed.




(** ** Shades of the theme colour (C8) *)

(** On a text of ASCII the code units are the bytes. *)
Lemma units_ascii s : ascii_text s = true -> Utf16.units s = codes s.
Proof.
  unfold ascii_text, codes. induction s as [|c r IH]; [reflexivity|].
  cbn [Str.forallb]. intros [Hc Hr]%andb_prop.
  cbn [Utf16.units list_ascii_of_string map].
  assert (L : (N_of_ascii c <? 192)%N = true)
    by (apply N.ltb_lt in Hc; apply N.ltb_lt; lia).
  rewrite L, (IH Hr). reflexivity.
Qed.

Lemma text_codes s : ascii_text s = true -> Utf16.text (codes s) = s.
Proof.
  unfold ascii_text, codes. induction s as [|c r IH]; [reflexivity|].
  cbn [Str.forallb]. intros [Hc Hr]%andb_prop.
  cbn [list_ascii_of_string map Utf16.text].
  assert (H : Utf16.is_high (N_of_ascii c) = false).
  { unfold Utf16.is_high. apply N.ltb_lt in Hc.
    replace (55296 <=? N_of_ascii c)%N with false
      by (symmetry; apply N.leb_gt; lia).
    reflexivity. }
  assert (U : Utf16.unit_text (N_of_ascii c) = String c "")
    by (unfold Utf16.unit_text; rewrite Hc, ascii_N_embedding; reflexivity).
  specialize (IH Hr).
  destruct (map N_of_ascii (list_ascii_of_string r)) as [|v t] eqn:E.
  - rewrite U. cbn [Utf16.text] in IH. rewrite <- IH. reflexivity.
  - rewrite H. cbn [andb]. rewrite U, IH. reflexivity.
Qed.

Lemma codes_take n s : codes (Str.take n s) = firstn n (codes s).
Proof.
  unfold codes. revert s. induction n as [|n IH]; intros [|c r];
    try reflexivity.
  cbn [Str.take list_ascii_of_string map firstn]. rewrite IH. reflexivity.
Qed.

Lemma codes_drop n s : codes (Str.drop n s) = skipn n (codes s).
Proof.
  unfold codes. revert s. induction n as [|n IH]; intros [|c r];
    try reflexivity.
  cbn [Str.drop list_ascii_of_string map skipn]. apply IH.
Qed.

(** Cutting a text of ASCII by code units is cutting its bytes. *)
Lemma slice_ascii a b s :
  ascii_text s = true ->
  Utf16.text (Utf16.slice a b (Utf16.units s)) = Str.slice a b s.
Proof.
  intros A. rewrite (units_ascii s A). unfold Utf16.slice, Str.slice.
  rewrite <- codes_drop, <- codes_take. apply text_codes.
  unfold ascii_text. apply forallb_take, forallb_drop, A.
Qed.

Lemma hex_ascii c :
  JS.is_hex c = true ->
  (N_of_ascii c <? 128)%N = true /\ dot (N_of_ascii c) = true.
Proof.
  intros H. ascii_cases c; try discriminate H; split; reflexivity.
Qed.

Lemma is_hex_chars c : JS.is_hex c = true -> In c hex_chars.
Proof.
  intros H. ascii_cases c; try discriminate H; cbn; tauto.
Qed.

Lemma pairs_parse :
  List.forallb (fun c1 => List.forallb (pair_parses c1) hex_chars) hex_chars
  = true.
Proof. vm_compute. reflexivity. Qed.

(** Two hexadecimal digits are read as the channel they write, and [.]
    matches both. *)
Lemma parseInt16_pair c1 c2 :
  JS.is_hex c1 = true -> JS.is_hex c2 = true ->
  JS.parseInt16 (String c1 (String c2 EmptyString)) = Some (channel c1 c2)
  /\ dot (N_of_ascii c1) = true /\ dot (N_of_ascii c2) = true.
Proof.
  intros H1%is_hex_chars H2%is_hex_chars.
  pose proof pairs_parse as P. rewrite List.forallb_forall in P.
  specialize (P c1 H1). rewrite List.forallb_forall in P.
  specialize (P c2 H2). unfold pair_parses in P.
  destruct (JS.parseInt16 _) as [v|]; [|discriminate].
  apply andb_prop in P as [[->%Z.eqb_eq D1]%andb_prop D2]. auto.
Qed.

Lemma channel_range c1 c2 :
  JS.is_hex c1 = true -> JS.is_hex c2 = true -> 0 <= channel c1 c2 <= 255.
Proof.
  intros H1%is_hex_chars H2%is_hex_chars.
  assert (R : forall c, In c hex_chars -> 0 <= default 0 (JS.hex_val c) <= 15).
  { assert (B : List.forallb
                  (fun c => (0 <=? default 0 (JS.hex_val c))
                            && (default 0 (JS.hex_val c) <=? 15))
                  hex_chars = true) by (vm_compute; reflexivity).
    rewrite List.forallb_forall in B. intros c Hc.
    specialize (B c Hc). apply andb_prop in B as [L U].
    apply Z.leb_le in L, U. lia. }
  unfold channel. pose proof (R c1 H1). pose proof (R c2 H2). lia.
Qed.

Lemma bytes_print : List.forallb byte_prints (seq 0 256) = true.
Proof. vm_compute. reflexivity. Qed.

(** A value of a channel is printed as its two digits, and these are read
    back as the value. *)
Lemma print_byte n :
  0 <= n <= 255 ->
  Str.last_n 2 ("0" +:+ JS.toString16 n) = hex2 n
  /\ JS.parseInt16 (hex2 n) = Some n.
Proof.
  intros R. pose proof bytes_print as P. rewrite List.forallb_forall in P.
  specialize (P (Z.to_nat n)).
  assert (I : In (Z.to_nat n) (seq 0 256)) by (apply in_seq; lia).
  specialize (P I). unfold byte_prints in P.
  rewrite Z2Nat.id in P by lia.
  apply andb_prop in P as [E V]. apply String.eqb_eq in E.
  destruct (JS.parseInt16 (hex2 n)) as [v|]; [|discriminate].
  apply Z.eqb_eq in V. subst v. auto.
Qed.

Lemma clamp_range n : 0 <= clamp n <= 255.
Proof. unfold clamp. lia. Qed.

(** The callback of [adjustColor] on two hexadecimal digits. *)
Lemma shade_pair amount c1 c2 :
  JS.is_hex c1 = true -> JS.is_hex c2 = true ->
  shade amount (String c1 (String c2 EmptyString))
  = hex2 (clamp (channel c1 c2 + amount)).
Proof.
  intros H1 H2. unfold shade.
  destruct (parseInt16_pair c1 c2 H1 H2) as (-> & _ & _).
  apply print_byte, clamp_range.
Qed.

Lemma replace_pairs_hex6 f c1 c2 c3 c4 c5 c6 :
  JS.is_hex c1 = true -> JS.is_hex c2 = true -> JS.is_hex c3 = true ->
  JS.is_hex c4 = true -> JS.is_hex c5 = true -> JS.is_hex c6 = true ->
  replace_pairs f (Utf16.units (hex6 c1 c2 c3 c4 c5 c6))
  = f (String c1 (String c2 EmptyString))
    +:+ f (String c3 (String c4 EmptyString))
    +:+ f (String c5 (String c6 EmptyString)).
Proof.
  intros [A1 D1]%hex_ascii [A2 D2]%hex_ascii [A3 D3]%hex_ascii
         [A4 D4]%hex_ascii [A5 D5]%hex_ascii [A6 D6]%hex_ascii.
  assert (T : forall a b,
             (N_of_ascii a <? 128)%N = true -> (N_of_ascii b <? 128)%N = true ->
             Utf16.text [N_of_ascii a; N_of_ascii b] = String a (String b "")).
  { intros a b Ha Hb. apply (text_codes (String a (String b ""))).
    unfold ascii_text. cbn [Str.forallb]. rewrite Ha, Hb. reflexivity. }
  rewrite units_ascii
    by (unfold ascii_text, hex6; cbn [Str.forallb];
        rewrite A1, A2, A3, A4, A5, A6; reflexivity).
  unfold hex6, codes. cbn [list_ascii_of_string map replace_pairs].
  rewrite D1, D2, D3, D4, D5, D6. cbn [andb].
  rewrite !T by assumption. rewrite append_empty. reflexivity.
Qed.

Lemma themeProperties_lookup colorHex style :
  themeProperties colorHex style !! "--color-primary" = Some colorHex
  /\ themeProperties colorHex style !! "--color-primary-dark"
     = Some (adjustColor colorHex (-20))
  /\ themeProperties colorHex style !! "--color-primary-darker"
     = Some (adjustColor colorHex (-40))
  /\ themeProperties colorHex style !! "--shadow-color"
     = Some (hexToRgba colorHex "0.2").
Proof.
  unfold themeProperties. cbv zeta.
  repeat split; rewrite !lookup_insert; repeat case_decide;
    congruence.
Qed.

Lemma themeProperties_idempotent colorHex style :
  themeProperties colorHex (themeProperties colorHex style)
  = themeProperties colorHex style.
Proof.
  apply map_eq. intros k. unfold themeProperties. cbv zeta.
  rewrite !lookup_insert. repeat case_decide; congruence.
Qed.

(** C8.  For a colour of six hexadecimal digits, with or without the
    leading [#], and an integer amount, [adjustColor] returns [#] and,
    for each of the three channels, the two lower-case digits of the
    channel value plus the amount, clamped to [0, 255]; read back, each
    channel of the result is that clamped sum.  The theme computed from
    the colour sets the two darker shades to [adjustColor] at -20 and -40
    and the shadow to [hexToRgba] at 0.2 whatever the style was before, so
    computing it again gives the same style. *)
Theorem adjustColor_channelwise (c1 c2 c3 c4 c5 c6 : ascii) (amount : Z) :
  JS.is_hex c1 = true -> JS.is_hex c2 = true -> JS.is_hex c3 = true ->
  JS.is_hex c4 = true -> JS.is_hex c5 = true -> JS.is_hex c6 = true ->
  let rgb := hex6 c1 c2 c3 c4 c5 c6 in
  let r := clamp (channel c1 c2 + amount) in
  let g := clamp (channel c3 c4 + amount) in
  let b := clamp (channel c5 c6 + amount) in
  adjustColor (String "#" rgb) amount = "#" +:+ hex2 r +:+ hex2 g +:+ hex2 b
  /\ adjustColor rgb amount = "#" +:+ hex2 r +:+ hex2 g +:+ hex2 b
  /\ (0 <= r <= 255 /\ 0 <= g <= 255 /\ 0 <= b <= 255)
  /\ (JS.parseInt16 (hex2 r) = Some r /\ JS.parseInt16 (hex2 g) = Some g
      /\ JS.parseInt16 (hex2 b) = Some b)
  /\ forall style : gmap string string,
       let themed := themeProperties (String "#" rgb) style in
       themed !! "--color-primary-dark" = Some (adjustColor (String "#" rgb) (-20))
       /\ themed !! "--color-primary-darker"
          = Some (adjustColor (String "#" rgb) (-40))
       /\ themed !! "--shadow-color" = Some (hexToRgba (String "#" rgb) "0.2")
       /\ themeProperties (String "#" rgb) themed = themed.
Proof.
  intros H1 H2 H3 H4 H5 H6. cbv zeta.
  assert (E : replace_pairs (shade amount)
                (Utf16.units (hex6 c1 c2 c3 c4 c5 c6))
              = hex2 (clamp (channel c1 c2 + amount))
                +:+ hex2 (clamp (channel c3 c4 + amount))
                +:+ hex2 (clamp (channel c5 c6 + amount))).
  { rewrite replace_pairs_hex6 by assumption.
    rewrite !shade_pair by assumption. reflexivity. }
  assert (S : strip_hash (hex6 c1 c2 c3 c4 c5 c6) = hex6 c1 c2 c3 c4 c5 c6).
  { unfold hex6, strip_hash. ascii_cases c1; try discriminate H1; reflexivity. }
  split; [|split; [|split; [|split]]].
  - unfold adjustColor. cbn [strip_hash]. rewrite E. reflexivity.
  - unfold adjustColor. rewrite S, E. reflexivity.
  - repeat split; apply clamp_range.
  - repeat split; apply print_byte, clamp_range.
  - intros style.
    destruct (themeProperties_lookup
                (String "#" (hex6 c1 c2 c3 c4 c5 c6)) style) as (_ & A & B & C).
    repeat split; try assumption. apply themeProperties_idempotent.
Qed.

Lemma adjustColor_channelwise_witness :
  JS.is_hex "2" = true /\ JS.is_hex "0" = true /\ JS.is_hex "9" = true
  /\ JS.is_hex "6" = true /\ JS.is_hex "3" = true /\ JS.is_hex "b" = true
  /\ adjustColor "#20963b" (-20) = "#0c8227"
  /\ adjustColor "#20963b" (-40) = "#006e13".
Proof.
  do 6 (split; [reflexivity|]).
  split.
  - etransitivity;
      [exact (proj1 (adjustColor_channelwise "2" "0" "9" "6" "3" "b" (-20)
                       eq_refl eq_refl eq_refl eq_refl eq_refl eq_refl))|].
    vm_compute. reflexivity.
  - etransitivity;
      [exact (proj1 (adjustColor_channelwise "2" "0" "9" "6" "3" "b" (-40)
                       eq_refl eq_refl eq_refl eq_refl eq_refl eq_refl))|].
    vm_compute. reflexivity.
Defined.

(** ** The rate an admin saves (C9) *)

Lemma shr_1_nonneg mrs : 0 <= shr_m mrs -> 0 <= shr_m (shr_1 mrs).
Proof.
  destruct mrs as [m r s]. cbn [shr_m].
  destruct m as [|[p|p|]|[p|p|]]; cbn; lia.
Qed.

Lemma iter_pos_shr_1_nonneg p mrs :
  0 <= shr_m mrs -> 0 <= shr_m (SpecFloat.iter_pos shr_1 p mrs).
Proof.
  revert mrs. induction p as [p IH|p IH|]; intros mrs H; cbn [SpecFloat.iter_pos].
  - apply IH, IH, shr_1_nonneg, H.
  - apply IH, IH, H.
  - apply shr_1_nonneg, H.
Qed.

Lemma shr_fexp_nonneg m e l :
  0 <= m -> 0 <= shr_m (fst (shr_fexp Num.prec Num.emax m e l)).
Proof.
  intros H. unfold shr_fexp, shr.
  assert (H0 : 0 <= shr_m (shr_record_of_loc m l))
    by (destruct l as [|[]]; exact H).
  destruct (_ - e) as [|p|p]; cbn [fst]; [exact H0| |exact H0].
  apply iter_pos_shr_1_nonneg, H0.
Qed.

Lemma round_nearest_even_nonneg m l : 0 <= m -> 0 <= round_nearest_even m l.
Proof.
  intros H. unfold round_nearest_even.
  destruct l as [|[]]; try destruct (Z.even m); lia.
Qed.

(** Rounding a non-negative mantissa keeps the sign it is given. *)
Lemma binary_round_aux_signed s m e l :
  0 <= m -> signed_as s (binary_round_aux Num.prec Num.emax s m e l).
Proof.
  intros H. unfold binary_round_aux.
  pose proof (shr_fexp_nonneg m e l H) as H1.
  destruct (shr_fexp Num.prec Num.emax m e l) as [mrs' e'].
  cbn [fst] in H1.
  pose proof (shr_fexp_nonneg _ e' loc_Exact
                (round_nearest_even_nonneg _ (loc_of_shr_record mrs') H1)) as H2.
  destruct (shr_fexp Num.prec Num.emax _ e' loc_Exact) as [mrs'' e''].
  cbn [fst] in H2.
  destruct (shr_m mrs'') as [|p|p]; [reflexivity| |lia].
  destruct (e'' <=? Num.emax - Num.prec); reflexivity.
Qed.

Lemma of_decimal_signed s m e : signed_as s (Num.of_decimal s m e).
Proof.
  unfold Num.of_decimal. destruct m as [|p|p]; try reflexivity.
  destruct (0 <=? e) eqn:E.
  - unfold binary_round. destruct (shl_align _ _ _) as [mz ez].
    apply binary_round_aux_signed. lia.
  - apply Z.leb_gt in E. unfold SFdiv_core_binary.
    set (m' := match _ - _ - _ with Z0 => _ | Zpos _ => _ | Zneg _ => _ end).
    assert (Hm : 0 <= m').
    { subst m'. destruct (_ - _ - _); try lia. apply Z.shiftl_nonneg. lia. }
    assert (Hd : 0 < 10 ^ (- e)) by (apply Z.pow_pos_nonneg; lia).
    pose proof (Z.div_pos m' (10 ^ (- e)) Hm Hd) as Hq. unfold Z.div in Hq.
    destruct (Z.div_eucl m' (10 ^ (- e))) as [q r]. cbn [fst] in Hq.
    apply binary_round_aux_signed, Hq.
Qed.

Lemma parse_unsigned_sign s t :
  JS.parse_unsigned s t = Num.NaN \/ signed_as s (JS.parse_unsigned s t).
Proof.
  unfold JS.parse_unsigned.
  destruct (String.prefix "Infinity" t); [right; reflexivity|].
  destruct (Str.span Str.is_digit t) as [ip r1].
  destruct (match r1 with
            | String "." u => Str.span Str.is_digit u
            | _ => (EmptyString, r1)
            end) as [fp r2].
  destruct (Str.is_empty ip && Str.is_empty fp); [left; reflexivity|].
  right. apply of_decimal_signed.
Qed.

(** What the filter of the rate field lets through starts with a digit or
    with the decimal point. *)
Lemma tasa_pattern_head c r :
  tasa_pattern (String c r) = true -> Str.is_digit c = true \/ c = "."%char.
Proof.
  intros H.
  ascii_cases c;
    first [ left; reflexivity | right; reflexivity
          | exfalso; vm_compute in H; discriminate H ].
Qed.

Lemma parseFloat_point_head r :
  JS.parseFloat (String "." r) = JS.parse_unsigned false (String "." r).
Proof. destruct r as [|c2 [|c3 r]]; reflexivity. Qed.

(** The rate field never holds a negative number. *)
Lemma parseFloat_tasa_pattern v :
  tasa_pattern v = true -> nan_or_unsigned (JS.parseFloat v).
Proof.
  intros H. destruct v as [|c r]; [exact I|].
  assert (E : JS.parseFloat (String c r)
              = JS.parse_unsigned false (String c r)).
  { destruct (tasa_pattern_head c r H) as [D| ->].
    - apply parseFloat_digit_head, D.
    - apply parseFloat_point_head. }
  rewrite E.
  destruct (parse_unsigned_sign false (String c r)) as [->|S]; [exact I|].
  destruct (JS.parse_unsigned false (String c r)); try exact S. exact I.
Qed.

(** [x || 0] for a number that is not negative. *)
Lemma or_else_zero x :
  nan_or_unsigned x ->
  (Num.truthy x = true /\ Num.or_else x Num.zero = x
   /\ Num.ltb Num.zero x = true)
  \/ (Num.truthy x = false /\ Num.or_else x Num.zero = Num.zero).
Proof.
  destruct x as [s|s| |s m e]; cbn [nan_or_unsigned]; intros H; subst;
    first [ right; split; reflexivity | left; repeat split; reflexivity ].
Qed.

Lemma saveSettings_effects w s :
  db_ready w = true ->
  Act.effects_of (saveSettings w s)
  = SetConfig (saved_config w s)
    :: (if set_ok w then []
        else [Notice error "Error al guardar en Firebase"]).
Proof.
  intros Db. handler. fields. rewrite Db. cbn [negb]. fields.
  destruct (set_ok w); reflexivity.
Qed.

(** C9, as the code has it.  A save writes one configuration.  For every
    content that the rate field's filter admits (digits with at most one
    decimal point), its exchange rate is the number parsed from the field
    when that is a number other than zero, and then it is positive; it
    is 0 otherwise, that is for an empty field, a lone point or a zero. *)
Theorem saved_rate_positive_or_zero (s : State) (w : World) :
  db_ready w = true ->
  tasa_pattern (tasaInput s) = true ->
  let written := List.filter is_set_config (Act.effects_of (saveSettings w s)) in
  let rate := JS.parseFloat (tasaInput s) in
  written = [SetConfig (saved_config w s)]
  /\ ((Num.truthy rate = true
       /\ tasa (saved_config w s) = rate
       /\ Num.ltb Num.zero (tasa (saved_config w s)) = true)
      \/ (Num.truthy rate = false /\ tasa (saved_config w s) = Num.zero)).
Proof.
  intros Db P. cbv zeta. split.
  - rewrite (saveSettings_effects w s Db). destruct (set_ok w); reflexivity.
  - unfold saved_config, with_tasa. cbn [tasa]. unfold finalTasa.
    destruct (or_else_zero _ (parseFloat_tasa_pattern _ P))
      as [(T & E & L)|(T & E)].
    + left. rewrite E. auto.
    + right. auto.
Qed.

Lemma saved_rate_positive_or_zero_witness :
  let s := state_after 0 [EnterSettings "60"; TasaInputChange "36.5"] in
  tasa_pattern (tasaInput s) = true
  /\ List.filter is_set_config (Act.effects_of (saveSettings calm_world s))
     = [SetConfig (saved_config calm_world s)].
Proof.
  cbv zeta. split; [reflexivity|].
  exact (proj1 (saved_rate_positive_or_zero
                  (state_after 0 [EnterSettings "60"; TasaInputChange "36.5"])
                  calm_world eq_refl eq_refl)).
Defined.

(** An admin who empties the rate field and saves writes the rate 0,
    which is not positive. *)
Lemma empty_rate_saves_zero :
  let s := state_after 0 [EnterSettings "60"; TasaInputChange ""] in
  tasaInput s = ""
  /\ Act.effects_of (saveSettings calm_world s)
     = [SetConfig (saved_config calm_world s)]
  /\ tasa (saved_config calm_world s) = S754_zero false
  /\ Num.ltb Num.zero (tasa (saved_config calm_world s)) = false.
Proof.
  cbv zeta. repeat split; vm_compute; reflexivity.
Qed.

(** * More properties of the component *)

(** ** Display helpers *)

Lemma codes_app a b : codes (a +:+ b) = codes a ++ codes b.
Proof.
  unfold codes. induction a as [|c a IH]; [reflexivity|].
  rewrite append_cons. cbn [list_ascii_of_string map app]. rewrite IH.
  reflexivity.
Qed.

Lemma length_codes s : length (codes s) = String.length s.
Proof.
  unfold codes. induction s as [|c r IH]; [reflexivity|].
  cbn [list_ascii_of_string map length String.length]. rewrite IH.
  reflexivity.
Qed.

(** X1.  A phone of eleven UTF-16 code units is shown with one hyphen
    after the fourth: twelve units, and taking the hyphen out gives the
    phone back.  Any other phone is shown as it is.  For a phone of
    eleven ASCII characters, as the configuration holds it, the text
    shown is its first four characters, a hyphen and the other seven. *)
Theorem formatPhone_hyphen (phone : list N) :
  (length phone = 11%nat ->
   formatPhone phone = firstn 4 phone ++ [45%N] ++ skipn 4 phone
   /\ length (formatPhone phone) = 12%nat
   /\ firstn 4 (formatPhone phone) ++ skipn 5 (formatPhone phone) = phone)
  /\ (length phone <> 11%nat -> formatPhone phone = phone)
  /\ (forall cfg,
        ascii_text (telefono cfg) = true ->
        String.length (telefono cfg) = 11%nat ->
        shown_phone cfg
        = Str.take 4 (telefono cfg) +:+ "-" +:+ Str.drop 4 (telefono cfg)).
Proof.
  assert (F : forall l : list N,
             length l = 11%nat ->
             formatPhone l = firstn 4 l ++ [45%N] ++ skipn 4 l).
  { intros l L. unfold formatPhone. destruct l as [|u l]; [discriminate L|].
    rewrite L. reflexivity. }
  split; [|split].
  - intros L. rewrite (F phone L).
    do 11 (destruct phone as [|? phone]; [discriminate L|]).
    destruct phone; [|discriminate L]. repeat split; reflexivity.
  - intros N. unfold formatPhone. destruct phone as [|u l]; [reflexivity|].
    apply Nat.eqb_neq in N. rewrite N. reflexivity.
  - intros cfg A L. unfold shown_phone.
    rewrite (units_ascii _ A), F by (rewrite length_codes; exact L).
    rewrite <- codes_take, <- codes_drop.
    change [45%N] with (codes "-"). rewrite <- !codes_app.
    apply text_codes. unfold ascii_text in *.
    rewrite !forallb_append, forallb_take, forallb_drop by exact A.
    reflexivity.
Qed.

Lemma formatPhone_hyphen_witness :
  length (Utf16.units "0412–985526") = 11%nat
  /\ formatPhone (Utf16.units "0412–985526") = Utf16.units "0412-–985526"
  /\ formatPhone (codes "04129855266") = codes "0412-9855266".
Proof.
  split; [reflexivity|]. split.
  - etransitivity;
      [exact (proj1 (proj1 (formatPhone_hyphen (Utf16.units "0412–985526"))
                       eq_refl))|].
    vm_compute. reflexivity.
  - etransitivity;
      [exact (proj1 (proj1 (formatPhone_hyphen (codes "04129855266"))
                       eq_refl))|].
    reflexivity.
Defined.

Lemma split_on_no_sep s :
  no_comma s -> split_on "," s = [s].
Proof.
  unfold no_comma. induction s as [|c r IH]; [reflexivity|].
  cbn [Str.forallb split_on]. intros [Hc Hr]%andb_prop.
  apply negb_true_iff in Hc. rewrite Hc, (IH Hr). reflexivity.
Qed.

Lemma split_on_append a b :
  no_comma a ->
  split_on "," (a +:+ "," +:+ b) = a :: split_on "," b.
Proof.
  unfold no_comma. induction a as [|c r IH].
  - intros _. rewrite append_nil, append_cons, append_nil. reflexivity.
  - cbn [Str.forallb]. intros [Hc Hr]%andb_prop.
    apply negb_true_iff in Hc. rewrite append_cons. cbn [split_on].
    rewrite Hc, (IH Hr). reflexivity.
Qed.

(** X2.  From a data URL the reader keeps what stands between the first
    comma and the second, if any: the whole payload when it has no comma
    (base64 text has none), only its first piece when it has one, and
    nothing at all when the URL has no comma. *)
Theorem base64_after_first_comma (header payload rest : string) :
  no_comma header ->
  no_comma payload ->
  base64_of_data_url (header +:+ "," +:+ payload) = Some payload
  /\ base64_of_data_url (header +:+ "," +:+ payload +:+ "," +:+ rest)
     = Some payload
  /\ base64_of_data_url header = None.
Proof.
  intros H P. unfold base64_of_data_url. repeat split.
  - rewrite (split_on_append _ _ H), (split_on_no_sep _ P). reflexivity.
  - rewrite (split_on_append _ _ H), (split_on_append _ _ P). reflexivity.
  - rewrite (split_on_no_sep _ H). reflexivity.
Qed.

Lemma base64_after_first_comma_witness :
  no_comma "data:image/png;base64" /\ no_comma "iVBORw0KGgo="
  /\ base64_of_data_url "data:image/png;base64,iVBORw0KGgo="
     = Some "iVBORw0KGgo=".
Proof.
  split; [reflexivity|]. split; [reflexivity|].
  exact (proj1 (base64_after_first_comma
                  "data:image/png;base64" "iVBORw0KGgo=" "" eq_refl eq_refl)).
Defined.

(** ** The history of payments *)

Lemma insert_recent_perm x l : insert_recent x l ≡ₚ x :: l.
Proof.
  induction l as [|y r IH]; [reflexivity|].
  cbn [insert_recent]. destruct (t_timestamp x <? t_timestamp y); [|reflexivity].
  rewrite IH. apply Permutation_swap.
Qed.

Lemma sort_recent_perm l : sort_recent l ≡ₚ l.
Proof.
  induction l as [|x l IH]; [reflexivity|].
  cbn [sort_recent fold_right]. fold (sort_recent l).
  rewrite insert_recent_perm, IH. reflexivity.
Qed.

Lemma insert_recent_sorted x l :
  StronglySorted recent_first l -> StronglySorted recent_first (insert_recent x l).
Proof.
  induction 1 as [|y r Hr IH Hy]; cbn [insert_recent].
  - repeat constructor.
  - destruct (t_timestamp x <? t_timestamp y) eqn:E.
    + apply Z.ltb_lt in E. constructor; [exact IH|].
      rewrite insert_recent_perm. constructor; [unfold recent_first; lia | exact Hy].
    + apply Z.ltb_ge in E. constructor; [constructor; assumption|].
      constructor; [exact E|].
      eapply Forall_impl; [exact Hy|]. unfold recent_first. intros z Hz. lia.
Qed.

Lemma sort_recent_sorted l : StronglySorted recent_first (sort_recent l).
Proof.
  induction l as [|x l IH]; [constructor|].
  cbn [sort_recent fold_right]. apply insert_recent_sorted, IH.
Qed.

Lemma insert_recent_at_time t x l :
  at_time t (insert_recent x l) = at_time t (x :: l).
Proof.
  induction l as [|y r IH]; [reflexivity|].
  cbn [insert_recent]. destruct (t_timestamp x <? t_timestamp y) eqn:E;
    [|reflexivity].
  apply Z.ltb_lt in E. unfold at_time in *. cbn [List.filter] in *.
  rewrite IH.
  destruct (t_timestamp x =? t) eqn:Ex, (t_timestamp y =? t) eqn:Ey;
    try reflexivity.
  apply Z.eqb_eq in Ex, Ey. lia.
Qed.

Lemma sort_recent_at_time t l : at_time t (sort_recent l) = at_time t l.
Proof.
  induction l as [|x l IH]; [reflexivity|].
  cbn [sort_recent fold_right]. fold (sort_recent l).
  rewrite insert_recent_at_time. unfold at_time in *. cbn [List.filter].
  rewrite IH. reflexivity.
Qed.

(** X3.  The history holds exactly the entries of the snapshot, each
    with its key as identifier, ordered by timestamp with the most
    recent first; entries with the same timestamp stay in the order of
    the snapshot.  An empty store gives an empty history. *)
Theorem history_most_recent_first (entries : list (string * Payment)) :
  let shown := history_list (Some entries) in
  history_list None = []
  /\ shown ≡ₚ map transaction_of entries
  /\ length shown = length entries
  /\ StronglySorted recent_first shown
  /\ forall t, at_time t shown = at_time t (map transaction_of entries).
Proof.
  cbv zeta. unfold history_list. split; [reflexivity|].
  split; [apply sort_recent_perm|]. split.
  - rewrite sort_recent_perm, length_map. reflexivity.
  - split; [apply sort_recent_sorted|]. intros t. apply sort_recent_at_time.
Qed.

(** X4.  A configuration written by a save at a time [t > 0] raises no
    warning about an old rate up to and including 24 hours after [t],
    and raises it from the next millisecond on; a configuration whose
    timestamp is 0 never raises it. *)
Theorem stale_warning_after_save (s : State) (w : World) (now : Z)
  (cfg : AppConfig) :
  0 < now_save w ->
  (stale_warning now (saved_config w s) = true
   <-> now_save w + 86400000 < now)
  /\ (lastUpdate cfg = 0 -> stale_warning now cfg = false).
Proof.
  intros T. unfold stale_warning. split.
  - unfold saved_config, with_tasa. cbn [lastUpdate].
    rewrite andb_true_iff, negb_true_iff, Z.eqb_neq, Z.ltb_lt. lia.
  - intros ->. reflexivity.
Qed.

Lemma stale_warning_after_save_witness :
  0 < now_save calm_world
  /\ stale_warning (now_save calm_world + 86400000)
       (saved_config calm_world (initial_state 0)) = false.
Proof.
  assert (T : 0 < now_save calm_world) by reflexivity.
  split; [exact T|].
  destruct (stale_warning_after_save (initial_state 0) calm_world
              (now_save calm_world + 86400000) (DEFAULT_CONFIG 0) T) as [E _].
  destruct (stale_warning _ _); [|reflexivity].
  exfalso. apply proj1 in E. specialize (E eq_refl). lia.
Defined.

(** ** The calculator and the reference field *)

Lemma filter_all p s : Str.forallb p s = true -> Str.filter p s = s.
Proof.
  induction s as [|c r IH]; [reflexivity|].
  cbn [Str.forallb Str.filter]. intros [-> H]%andb_prop. rewrite (IH H).
  reflexivity.
Qed.

Lemma take_all n s : (String.length s <= n)%nat -> Str.take n s = s.
Proof.
  revert s. induction n as [|k IH]; intros [|c r] H; cbn in *;
    try reflexivity; try lia.
  rewrite IH; [reflexivity | lia].
Qed.

(** X5.  Editing the reference is idempotent: a text of at most four
    digits is stored as typed, so feeding the stored reference back to
    the handler (as a controlled input does) changes nothing, after any
    history. *)
Theorem reference_edit_idempotent loadTime (evs : list Event) (input : string) :
  (reference_ok input ->
   reference (Act.state_of (handleReferenceChange input (state_after loadTime evs)))
   = input)
  /\ (let s := state_after loadTime evs in
      reference (Act.state_of (handleReferenceChange (reference s) s))
      = reference s).
Proof.
  assert (K : forall r s, reference_ok r ->
                reference (Act.state_of (handleReferenceChange r s)) = r).
  { intros r s [D L]. handler. fields.
    rewrite (filter_all _ _ D). apply take_all, L. }
  split.
  - apply K.
  - cbv zeta. apply K, reference_ok_after.
Qed.

Lemma reference_edit_idempotent_witness :
  reference_ok "0042"
  /\ reference (Act.state_of (handleReferenceChange "0042" (state_after 0 [])))
     = "0042".
Proof.
  assert (R : reference_ok "0042") by (split; [reflexivity | cbn; lia]).
  split; [exact R|].
  exact (proj1 (reference_edit_idempotent 0 [] "0042") R).
Defined.
(** The effects after the handler touch the Bolivar field only. *)
Lemma step_keeps {A} (f : State -> A) loadTime ev s :
  (forall v p, f (set_amountBs v p) = f p) ->
  f (Act.state_of (step loadTime ev s))
  = f (Act.state_of (dispatch loadTime ev s)).
Proof.
  intros F. rewrite step_state. cbv zeta.
  destruct (Num.same_value _ _); [reflexivity|].
  rewrite tasaEffect_state. destruct (_ && _); [apply F | reflexivity].
Qed.

(** X6.  An error flag raised by a rejected submission stays until its
    field is edited: an edit of the amount clears the amount flag and
    keeps the other, an edit of the reference clears the reference flag
    and keeps the other, and no event other than these and a submission
    changes the flags. *)
Theorem error_flags_follow_edits loadTime (s : State) (v : string) (ev : Event) :
  errors (Act.state_of (step loadTime (AmountChange v) s))
  = {| amount_error := false; reference_error := reference_error (errors s) |}
  /\ errors (Act.state_of (step loadTime (ReferenceChange v) s))
     = {| amount_error := amount_error (errors s); reference_error := false |}
  /\ (leaves_flags ev -> errors (Act.state_of (step loadTime ev s)) = errors s).
Proof.
  repeat split.
  - rewrite (step_keeps errors) by reflexivity. handler. fields.
    branches; reflexivity.
  - rewrite (step_keeps errors) by reflexivity. reflexivity.
  - intros L. rewrite (step_keeps errors) by reflexivity.
    destruct ev as [?|?|? ?| |[d|]|?|?|?|? ?|?|]; try contradiction;
      handler; fields; branches; reflexivity.
Qed.

Lemma error_flags_follow_edits_witness :
  let s := Act.state_of (handleNotifyPayment calm_world (initial_state 0)) in
  leaves_flags ClearFile
  /\ errors s = {| amount_error := true; reference_error := true |}
  /\ errors (Act.state_of (step 0 ClearFile s)) = errors s.
Proof.
  cbv zeta. split; [exact I|]. split; [reflexivity|].
  exact (proj2 (proj2 (error_flags_follow_edits 0 _ "" ClearFile)) I).
Defined.

(** ** The file picker and the preview *)

Lemma step_effects loadTime ev s :
  Act.effects_of (step loadTime ev s)
  = Act.effects_of (dispatch loadTime ev s)
    ++ cleanup_effects s (Act.state_of (dispatch loadTime ev s)).
Proof.
  unfold step, cleanup_effects, Act.state_of, Act.effects_of, Act.bind,
    Act.get, Act.when, previewCleanup, Act.emit, Act.ret.
  destruct (dispatch loadTime ev s) as [[[] s1] e1]. fields.
  assert (T : forall p, snd (tasaEffect p) = []).
  { intros p. unfold tasaEffect, Act.bind, Act.get, Act.modify, Act.ret.
    fields. destruct (_ && _); reflexivity. }
  destruct (Num.same_value (tasa (config s)) (tasa (config s1)));
    cbn [negb]; fields.
  - destruct (bool_decide (previewUrl s = previewUrl s1)); cbn [negb andb];
      fields; [reflexivity|].
    destruct (truthy_str (previewUrl s)); reflexivity.
  - pose proof (T s1) as T1.
    destruct (tasaEffect s1) as [[[] s2] e2]. cbn [snd] in T1. subst e2. fields.
    destruct (bool_decide (previewUrl s = previewUrl s1)); cbn [negb andb];
      fields; [reflexivity|].
    destruct (truthy_str (previewUrl s)); reflexivity.
Qed.

Lemma run_effects_cons loadTime ev rest s :
  Act.effects_of (run loadTime (ev :: rest) s)
  = Act.effects_of (step loadTime ev s)
    ++ Act.effects_of (run loadTime rest (Act.state_of (step loadTime ev s))).
Proof.
  cbn [run]. unfold Act.bind, Act.state_of, Act.effects_of.
  destruct (step loadTime ev s) as [[[] s1] e1]. cbn [fst snd].
  destruct (run loadTime rest s1) as [[[] s2] e2]. reflexivity.
Qed.

Lemma run_effects_app loadTime evs ev s :
  Act.effects_of (run loadTime (evs ++ [ev]) s)
  = Act.effects_of (run loadTime evs s)
    ++ Act.effects_of (step loadTime ev (Act.state_of (run loadTime evs s))).
Proof.
  revert s. induction evs as [|e evs IH]; intros s.
  - cbn [app]. rewrite run_effects_cons. cbn [run].
    unfold Act.ret, Act.effects_of, Act.state_of. cbn [fst snd app].
    apply app_nil_r.
  - cbn [app]. rewrite !run_effects_cons, run_cons, IH, app_assoc. reflexivity.
Qed.

Lemma accepted_urls_app evs ev :
  accepted_urls (evs ++ [ev]) = accepted_urls evs ++ accepted_urls [ev].
Proof.
  induction evs as [|e evs IH]; [reflexivity|].
  cbn [app accepted_urls].
  destruct e as [?|?|[|f ?] ?| |?|?|?|?|? ?|?|]; try exact IH.
  destruct (max_file_size <? file_size f); [exact IH|].
  cbn [app]. rewrite IH. reflexivity.
Qed.

(** A preview URL that is shown stays shown or is revoked by the step. *)
Lemma step_preview_released loadTime ev s u :
  previewUrl s = Some u -> u <> "" ->
  previewUrl (Act.state_of (step loadTime ev s)) = Some u
  \/ In (RevokeObjectURL u) (Act.effects_of (step loadTime ev s)).
Proof.
  intros P N. rewrite (step_keeps previewUrl) by reflexivity.
  rewrite step_effects. unfold cleanup_effects.
  destruct (bool_decide_reflect
              (previewUrl s = previewUrl (Act.state_of (dispatch loadTime ev s))))
    as [E|E].
  - left. rewrite <- E. exact P.
  - right. apply in_or_app. right. rewrite P. cbn [negb andb truthy_str].
    destruct u; [contradiction|]. left. reflexivity.
Qed.

Lemma step_file_accepted loadTime file others u s :
  (max_file_size <? file_size file) = false ->
  selectedFile (Act.state_of (step loadTime (FileSelect (file :: others) u) s))
  = Some file
  /\ previewUrl (Act.state_of (step loadTime (FileSelect (file :: others) u) s))
     = Some u.
Proof.
  intros A. rewrite (step_keeps selectedFile), (step_keeps previewUrl)
    by reflexivity.
  handler. fields. rewrite A. fields. auto.
Qed.

(** X7.  A first file of at most 5 * 1024 * 1024 bytes, exactly 5 MB
    included, becomes the selected file and the URL created for it the
    preview; the files after the first are ignored; the preview shown
    before, if it is another one, is revoked.  A selection without files
    changes nothing. *)
Theorem file_within_limit_accepted loadTime (s : State) (file : File)
  (others : list File) (u : string) :
  file_size file <= 5 * 1024 * 1024 ->
  let r := step loadTime (FileSelect (file :: others) u) s in
  selectedFile (Act.state_of r) = Some file
  /\ previewUrl (Act.state_of r) = Some u
  /\ Act.effects_of r
     = CreateObjectURL file
       :: (if negb (bool_decide (previewUrl s = Some u))
              && truthy_str (previewUrl s)
           then [RevokeObjectURL (default "" (previewUrl s))] else [])
  /\ Act.state_of (step loadTime (FileSelect [] u) s) = s
  /\ Act.effects_of (step loadTime (FileSelect [] u) s) = [].
Proof.
  intros Hle. cbv zeta.
  assert (A : (max_file_size <? file_size file) = false)
    by (apply Z.ltb_ge; exact Hle).
  destruct (step_file_accepted loadTime file others u s A) as [F P].
  split; [exact F|]. split; [exact P|]. split; [|split].
  - rewrite step_effects. unfold cleanup_effects.
    handler. fields. rewrite A. fields. reflexivity.
  - rewrite step_state. cbv zeta.
    change (Act.state_of (dispatch loadTime (FileSelect [] u) s)) with s.
    rewrite same_value_refl. reflexivity.
  - rewrite step_effects. unfold cleanup_effects.
    change (Act.state_of (dispatch loadTime (FileSelect [] u) s)) with s.
    rewrite bool_decide_eq_true_2 by reflexivity. reflexivity.
Qed.

Lemma file_within_limit_accepted_witness :
  let five_mb := {| file_name := "recibo.png"; file_type := "image/png";
                    file_size := 5 * 1024 * 1024 |} in
  file_size five_mb <= 5 * 1024 * 1024
  /\ selectedFile
       (Act.state_of (step 0 (FileSelect [five_mb] "blob:1") (initial_state 0)))
     = Some five_mb.
Proof.
  cbv zeta. split; [cbn; lia|].
  refine (proj1 (file_within_limit_accepted 0 (initial_state 0) _ [] "blob:1" _)).
  cbn. lia.
Defined.

(** X8.  No preview URL is left behind: after any sequence of events,
    every URL created for an accepted file is either the preview on
    show or has been revoked. *)
Theorem preview_urls_released loadTime (evs : list Event) (u : string) :
  In u (accepted_urls evs) ->
  u <> "" ->
  previewUrl (state_after loadTime evs) = Some u
  \/ In (RevokeObjectURL u)
        (Act.effects_of (run loadTime evs (initial_state loadTime))).
Proof.
  unfold state_after. induction evs as [|ev evs IH] using rev_ind;
    [contradiction|].
  rewrite accepted_urls_app, run_app, run_effects_app. intros H N.
  apply in_app_or in H as [H|H].
  - destruct (IH H N) as [P|R].
    + destruct (step_preview_released loadTime ev _ u P N) as [P'|R'].
      * left. exact P'.
      * right. apply in_or_app. right. exact R'.
    + right. apply in_or_app. left. exact R.
  - left. destruct ev as [?|?|[|f ?] ?| |?|?|?|?|? ?|?|]; try contradiction.
    cbn [accepted_urls] in H.
    destruct (max_file_size <? file_size f) eqn:A; [contradiction|].
    destruct H as [<-|[]]. apply step_file_accepted, A.
Qed.

Lemma preview_urls_released_witness :
  let evs := [FileSelect [receipt] "blob:1"; FileSelect [receipt] "blob:2"] in
  In "blob:1" (accepted_urls evs)
  /\ "blob:1" <> ""
  /\ In (RevokeObjectURL "blob:1")
        (Act.effects_of (run 0 evs (initial_state 0))).
Proof.
  cbv zeta.
  assert (H : In "blob:1" (accepted_urls [FileSelect [receipt] "blob:1";
                                          FileSelect [receipt] "blob:2"]))
    by (left; reflexivity).
  assert (N : "blob:1" <> "") by discriminate.
  split; [exact H|]. split; [exact N|].
  destruct (preview_urls_released 0 _ "blob:1" H N) as [P|R]; [|exact R].
  vm_compute in P. discriminate P.
Defined.

(** X9.  Removing the picture leaves no file and no preview and revokes
    the URL on show (once in the handler, once more in the cleanup of the
    preview effect); a valid submission after it sends nothing to the
    upload endpoint and records no photo. *)
Theorem clearFile_forgets_picture loadTime (s : State) (w : World) :
  let r := step loadTime ClearFile s in
  let s' := Act.state_of r in
  selectedFile s' = None
  /\ previewUrl s' = None
  /\ Act.effects_of r
     = (if truthy_str (previewUrl s)
        then [RevokeObjectURL (default "" (previewUrl s));
              RevokeObjectURL (default "" (previewUrl s))]
        else [])
  /\ List.existsb is_fetch (Act.effects_of (handleNotifyPayment w s')) = false
  /\ forall p, In (Push p) (Act.effects_of (handleNotifyPayment w s')) ->
               p_photoUrl p = None.
Proof.
  cbv zeta.
  assert (F : selectedFile (Act.state_of (step loadTime ClearFile s)) = None)
    by (rewrite (step_keeps selectedFile) by reflexivity;
        handler; fields; branches; reflexivity).
  split; [exact F|]. split; [|split].
  - rewrite (step_keeps previewUrl) by reflexivity.
    handler. fields. branches; reflexivity.
  - rewrite step_effects. unfold cleanup_effects. handler. fields.
    destruct (previewUrl s) as [[|c u]|]; reflexivity.
  - set (s' := Act.state_of (step loadTime ClearFile s)) in *.
    destruct (amount_rejected (amountUSD s')
              || reference_rejected (reference s')) eqn:V.
    + rewrite (notify_rejected w s' V). unfold Act.effects_of. cbn [snd].
      split.
      * destruct (_ && _), (_ && _ && _); reflexivity.
      * intros p H. exfalso.
        destruct (_ && _), (_ && _ && _); cbn in H;
          repeat (destruct H as [H|H]; [discriminate H|]); exact H.
    + apply orb_false_elim in V as [Va Vr].
      destruct (notify_accepted w s' "" Va Vr) as (before & _ & _ & _ & E).
      { unfold image_settled. rewrite F. reflexivity. }
      revert E. handler. fields. rewrite Va, Vr, F. cbn [andb orb negb]. fields.
      intros _. destruct (db_ready w), (push_ok w); cbn [negb]; fields;
        (split; [reflexivity|]); intros p H; cbn in H;
        repeat (destruct H as [H|H]; [try discriminate H|]); try contradiction;
        injection H as <-; reflexivity.
Qed.

(** ** The upload *)

Lemma valid_form_checks s :
  parses_positive (amountUSD s) -> four_digits (reference s) ->
  amount_rejected (amountUSD s) = false
  /\ reference_rejected (reference s) = false.
Proof.
  intros P [L D]. split.
  - apply amount_rejected_spec, P.
  - apply (reference_rejected_spec _ D). split; assumption.
Qed.

(** X10.  With a picture attached and no upload URL configured, a valid
    submission sends no request at all: it stops with two error notices,
    first the one about the missing URL and then the one about the
    upload, writes no record, opens no link and leaves the uploading
    state. *)
Theorem missing_script_url_aborts (s : State) (w : World) (file : File) :
  parses_positive (amountUSD s) ->
  four_digits (reference s) ->
  selectedFile s = Some file ->
  googleScriptUrl (config s) = "" ->
  let r := handleNotifyPayment w s in
  Act.effects_of r
  = [Notice error "Error: Falta URL de Script";
     Notice error "Error subiendo imagen. Verifica tu conexión."]
  /\ isUploading (Act.state_of r) = false.
Proof.
  intros P R F G. destruct (valid_form_checks s P R) as [Va Vr]. cbv zeta.
  handler. fields. rewrite Va, Vr, F, G. cbn [andb orb negb Str.is_empty].
  fields. cbn [truthy_str]. fields. split; reflexivity.
Qed.

(** X11.  An answer that says success but carries no link, or an empty
    one, counts as a failed upload: after the request the submission
    stops with the error notice, writes no record and opens no link. *)
Theorem success_without_link_aborts (s : State) (w : World) (file : File)
  (content : string) (data : UploadReply) :
  parses_positive (amountUSD s) ->
  four_digits (reference s) ->
  selectedFile s = Some file ->
  Str.is_empty (googleScriptUrl (config s)) = false ->
  read_file w = Some content ->
  upload_reply w = Some data ->
  result data = "success" ->
  url data = None \/ url data = Some "" ->
  let r := handleNotifyPayment w s in
  Act.effects_of r
  = [Fetch (googleScriptUrl (config s)) (upload_payload w file content);
     Notice error "Error subiendo imagen. Verifica tu conexión."]
  /\ isUploading (Act.state_of r) = false.
Proof.
  intros P R F G Rd Up Res U. destruct (valid_form_checks s P R) as [Va Vr].
  cbv zeta. unfold upload_payload.
  handler. fields. rewrite Va, Vr, F, G, Rd, Up, Res.
  cbn [andb orb negb String.eqb Ascii.eqb Bool.eqb]. fields.
  destruct U as [-> | ->]; cbn [truthy_str Str.is_empty negb]; fields;
    split; reflexivity.
Qed.

(** X12.  With a picture attached, an upload URL configured and the file
    read, a valid submission starts with exactly one request: to the
    configured URL, with the file name [pago_<time>_<name>], the type of
    the file and its base64 content.  When the file cannot be read no
    request is sent: the error is logged and the submission stops with
    the error notice. *)
Theorem upload_request_shape (s : State) (w : World) (file : File) :
  parses_positive (amountUSD s) ->
  four_digits (reference s) ->
  selectedFile s = Some file ->
  Str.is_empty (googleScriptUrl (config s)) = false ->
  let es := Act.effects_of (handleNotifyPayment w s) in
  (forall content,
      read_file w = Some content ->
      List.filter is_fetch es
      = [Fetch (googleScriptUrl (config s)) (upload_payload w file content)]
      /\ exists rest,
           es = Fetch (googleScriptUrl (config s)) (upload_payload w file content)
                :: rest)
  /\ (read_file w = None ->
      es = [ConsoleError "Upload Error:";
            Notice error "Error subiendo imagen. Verifica tu conexión."]).
Proof.
  intros P R F G. destruct (valid_form_checks s P R) as [Va Vr].
  cbv zeta. unfold upload_payload. split.
  - intros content Rd.
    handler. fields. rewrite Va, Vr, F, G, Rd. cbn [andb orb negb]. fields.
    destruct (upload_reply w) as [data|]; fields.
    + destruct (String.eqb (result data) "success"); fields.
      * destruct (truthy_str (url data)); fields.
        -- destruct (db_ready w), (push_ok w); cbn [negb]; fields;
             (split; [reflexivity | eexists; reflexivity]).
        -- split; [reflexivity | eexists; reflexivity].
      * cbn [truthy_str]. fields.
        split; [reflexivity | eexists; reflexivity].
    + cbn [truthy_str]. fields. split; [reflexivity | eexists; reflexivity].
  - intros Rd. handler. fields. rewrite Va, Vr, F, G, Rd.
    cbn [andb orb negb]. fields. cbn [truthy_str]. fields. reflexivity.
Qed.

Lemma missing_script_url_aborts_witness :
  let s := state_after 0 (ConfigSnapshot (Some (only_script_url ""))
                          :: form_with_receipt) in
  parses_positive (amountUSD s) /\ four_digits (reference s)
  /\ selectedFile s = Some receipt
  /\ googleScriptUrl (config s) = ""
  /\ isUploading (Act.state_of (handleNotifyPayment calm_world s)) = false.
Proof.
  cbv zeta.
  set (s := state_after 0 (ConfigSnapshot (Some (only_script_url ""))
                           :: form_with_receipt)).
  assert (P : parses_positive (amountUSD s)) by (vm_compute; reflexivity).
  assert (R : four_digits (reference s)) by (split; vm_compute; reflexivity).
  assert (F : selectedFile s = Some receipt) by (vm_compute; reflexivity).
  assert (G : googleScriptUrl (config s) = "") by (vm_compute; reflexivity).
  repeat (split; [assumption|]).
  exact (proj2 (missing_script_url_aborts s calm_world receipt P R F G)).
Defined.

Lemma success_without_link_aborts_witness :
  let s := state_after 0 form_with_receipt in
  parses_positive (amountUSD s) /\ four_digits (reference s)
  /\ selectedFile s = Some receipt
  /\ isUploading (Act.state_of (handleNotifyPayment world_no_link s)) = false.
Proof.
  cbv zeta. set (s := state_after 0 form_with_receipt).
  assert (P : parses_positive (amountUSD s)) by (vm_compute; reflexivity).
  assert (R : four_digits (reference s)) by (split; vm_compute; reflexivity).
  assert (F : selectedFile s = Some receipt) by (vm_compute; reflexivity).
  repeat (split; [assumption|]).
  exact (proj2 (success_without_link_aborts s world_no_link receipt
                  "iVBORw0KGgo=" {| result := "success"; url := None |}
                  P R F eq_refl eq_refl eq_refl eq_refl (or_introl eq_refl))).
Defined.

Lemma upload_request_shape_witness :
  let s := state_after 0 form_with_receipt in
  parses_positive (amountUSD s) /\ four_digits (reference s)
  /\ selectedFile s = Some receipt
  /\ List.filter is_fetch (Act.effects_of (handleNotifyPayment calm_world s))
     = [Fetch (googleScriptUrl (config s))
          (upload_payload calm_world receipt "iVBORw0KGgo=")].
Proof.
  cbv zeta. set (s := state_after 0 form_with_receipt).
  assert (P : parses_positive (amountUSD s)) by (vm_compute; reflexivity).
  assert (R : four_digits (reference s)) by (split; vm_compute; reflexivity).
  assert (F : selectedFile s = Some receipt) by (vm_compute; reflexivity).
  repeat (split; [assumption|]).
  exact (proj1 (proj1 (upload_request_shape s calm_world receipt P R F eq_refl)
                  "iVBORw0KGgo=" eq_refl)).
Defined.

(** ** What a submission writes and leaves *)

(** Every record a submission pushes is the record of the form, and the
    form had passed validation. *)
Lemma notify_pushes w s p :
  In (Push p) (Act.effects_of (handleNotifyPayment w s)) ->
  amount_rejected (amountUSD s) = false
  /\ reference_rejected (reference s) = false
  /\ exists link, p = payment_record w s link.
Proof.
  destruct (amount_rejected (amountUSD s)
            || reference_rejected (reference s)) eqn:V.
  - rewrite (notify_rejected w s V). unfold Act.effects_of. cbn [snd].
    intros H. exfalso.
    destruct (_ && _), (_ && _ && _); cbn in H;
      repeat (destruct H as [H|H]; [discriminate H|]); exact H.
  - apply orb_false_elim in V as [Va Vr]. unfold payment_record.
    handler. fields. rewrite Va, Vr. cbn [andb orb negb]. fields.
    intros H. split; [reflexivity|]. split; [reflexivity|].
    revert H. branches; intros H; cbn in H;
      repeat (destruct H as [H|H]; [try discriminate H|]);
      try contradiction; injection H as <-;
      cbn [truthy_str from_option id Str.is_empty negb] in *;
      try discriminate;
      try (match goal with
           | H1 : negb ?b = true, H2 : ?b = true |- _ =>
               rewrite H2 in H1; discriminate H1
           end);
      first [ eexists; reflexivity
            | exists ""; reflexivity
            | match goal with
              | H : Str.is_empty ?x = _ |- _ =>
                  exists x; rewrite H; reflexivity
              end ].
Qed.



(** X14.  Whatever the history of the form, a record that a submission
    pushes is consistent: its dollar amount is a positive number, its
    Bolivar text is that amount times the rate in force in the es-VE
    format with two decimals, its reference is exactly four digits, and
    its date and timestamp are those of the write. *)
Theorem pushed_record_consistent loadTime (evs : list Event) (w : World)
  (p : Payment) :
  let s := state_after loadTime evs in
  In (Push p) (Act.effects_of (handleNotifyPayment w s)) ->
  Num.ltb Num.zero (p_amountUSD p) = true
  /\ p_amountBs p = Intl.fmt_2_2 (Num.mul (p_amountUSD p) (tasa (config s)))
  /\ four_digits (p_reference p)
  /\ p_date p = iso_now w
  /\ p_timestamp p = now_push w.
Proof.
  cbv zeta. intros H.
  destruct (notify_pushes _ _ _ H) as (Va & Vr & link & ->).
  destruct (reference_ok_after loadTime evs) as [D _].
  pose proof (bs_in_sync_after loadTime evs) as B.
  unfold bs_in_sync, derived_bs in B.
  set (s := state_after loadTime evs) in *.
  unfold payment_record.
  cbn [p_amountUSD p_amountBs p_reference p_date p_timestamp].
  split; [apply amount_rejected_spec, Va|].
  split; [|split; [apply (reference_rejected_spec _ D), Vr | auto]].
  unfold amount_rejected in Va.
  apply orb_false_elim in Va as [Va _]. rewrite Va in B. exact B.
Qed.

Lemma pushed_record_consistent_witness :
  let s := state_after 0
             [ConfigSnapshot (Some (only_tasa (JS.parseFloat "36.42")));
              AmountChange "1.75"; ReferenceChange "1234"] in
  In (Push (payment_record calm_world s ""))
     (Act.effects_of (handleNotifyPayment calm_world s))
  /\ p_amountBs (payment_record calm_world s "") = "63,74".
Proof.
  cbv zeta.
  set (s := state_after 0
              [ConfigSnapshot (Some (only_tasa (JS.parseFloat "36.42")));
               AmountChange "1.75"; ReferenceChange "1234"]).
  assert (H : In (Push (payment_record calm_world s ""))
                 (Act.effects_of (handleNotifyPayment calm_world s)))
    by (left; vm_compute; reflexivity).
  split; [exact H|].
  etransitivity;
    [exact (proj1 (proj2 (pushed_record_consistent 0 _ calm_world _ H)))|].
  vm_compute. reflexivity.
Defined.

(** X15.  A submission does not reset the form: the configuration, the
    two amounts, the reference, the selected file and its preview are
    after it what they were before, whether it was rejected, aborted or
    sent.  Once validation has passed the form is out of the uploading
    state when the handler ends, so the button is enabled again; a
    rejected submission does not touch that state.  At most one record
    is written and at most one link opened. *)
Theorem submission_keeps_form (s : State) (w : World) :
  let r := handleNotifyPayment w s in
  let s' := Act.state_of r in
  (config s' = config s /\ amountUSD s' = amountUSD s
   /\ amountBs s' = amountBs s /\ reference s' = reference s
   /\ selectedFile s' = selectedFile s /\ previewUrl s' = previewUrl s)
  /\ isUploading s'
     = (if amount_rejected (amountUSD s) || reference_rejected (reference s)
        then isUploading s else false)
  /\ (length (List.filter is_push (Act.effects_of r)) <= 1)%nat
  /\ (length (List.filter is_window_open (Act.effects_of r)) <= 1)%nat.
Proof.
  cbv zeta.
  destruct (amount_rejected (amountUSD s)
            || reference_rejected (reference s)) eqn:V.
  - rewrite (notify_rejected w s V). unfold Act.state_of, Act.effects_of.
    fields. repeat split; try reflexivity;
      destruct (amount_rejected (amountUSD s)),
        (reference_rejected (reference s)),
        (amount_input_mounted w), (reference_input_mounted w); cbn; lia.
  - apply orb_false_elim in V as [Va Vr].
    handler. fields. rewrite Va, Vr. cbn [andb orb negb]. fields.
    branches; repeat split; try reflexivity; try assumption; cbn; lia.
Qed.

(** ** The link and the amount check *)

Lemma encodeURIComponent_safe t :
  Str.forallb url_safe (JS.encodeURIComponent t) = true.
Proof.
  induction t as [|c t IH]; [reflexivity|].
  cbn [JS.encodeURIComponent]. destruct (JS.unreserved c) eqn:U.
  - cbn [Str.forallb]. unfold url_safe at 1. rewrite U. exact IH.
  - cbn [Str.forallb]. rewrite IH, !andb_true_r.
    clear. ascii_cases c; reflexivity.
Qed.

(** X16.  The link a submission opens is [https://wa.me/], the contact
    number, [?text=] and a text in which every character is an
    unreserved one or belongs to a percent escape, so nothing in the
    message (spaces, line breaks, [&], [#]) can end or split the
    parameter.  The link to a photo is appended at the end of the text:
    the link with a photo is the link without it followed by the
    encoded blank line, label and URL. *)
Theorem notification_link_shape (w : World) (s : State) (c : ascii)
  (photo : string) :
  (forall imageUrl,
      exists text,
        notification_link w s imageUrl
        = "https://wa.me/" +:+ whatsapp (config s) +:+ "?text=" +:+ text
        /\ Str.forallb url_safe text = true)
  /\ notification_link w s (String c photo)
     = notification_link w s ""
       +:+ JS.encodeURIComponent
             (newline +:+ newline +:+ "📷 FOTO: " +:+ String c photo).
Proof.
  split.
  - intros imageUrl. eexists. split; [reflexivity|].
    apply encodeURIComponent_safe.
  - unfold notification_link, mensaje. cbn [Str.is_empty].
    rewrite !encodeURIComponent_app, !append_assoc.
    change (JS.encodeURIComponent "") with "".
    rewrite ?append_nil, ?append_empty. reflexivity.
Qed.

Lemma parseFloat_minus_head t :
  JS.parseFloat (String "-" t) = JS.parse_unsigned true t.
Proof. destruct t as [|c2 [|c3 t]]; reflexivity. Qed.

(** X17.  An amount that starts with a minus sign is never accepted,
    whatever follows: the submission is rejected with the amount flag
    raised, and nothing is uploaded, written or opened. *)
Theorem negative_amount_rejected (s : State) (w : World) (t : string) :
  amountUSD s = String "-" t ->
  let r := handleNotifyPayment w s in
  amount_rejected (amountUSD s) = true
  /\ amount_error (errors (Act.state_of r)) = true
  /\ nothing_sent (Act.effects_of r).
Proof.
  intros E. cbv zeta.
  assert (A : amount_rejected (amountUSD s) = true).
  { rewrite E. unfold amount_rejected. rewrite parseFloat_minus_head.
    cbn [Str.is_empty orb].
    destruct (parse_unsigned_sign true t) as [->|S]; [reflexivity|].
    destruct (JS.parse_unsigned true t) as [b|b| |b m e]; cbn in S;
      try contradiction; subst; reflexivity. }
  split; [exact A|]. rewrite notify_errors, A. split; [reflexivity|].
  rewrite notify_rejected by (rewrite A; reflexivity).
  unfold Act.effects_of. cbn [snd]. rewrite A. cbn [negb andb].
  rewrite andb_false_r.
  destruct (amount_input_mounted w); repeat split.
Qed.

Lemma negative_amount_rejected_witness :
  let s := state_after 0 [AmountChange "-5"; ReferenceChange "1234"] in
  amountUSD s = "-5"
  /\ amount_rejected (amountUSD s) = true.
Proof.
  cbv zeta. split; [reflexivity|].
  exact (proj1 (negative_amount_rejected
                  (state_after 0 [AmountChange "-5"; ReferenceChange "1234"])
                  calm_world "5" eq_refl)).
Defined.

(** ** The admin form *)

Lemma step_tasaInput loadTime ev s :
  tasaInput (Act.state_of (step loadTime ev s))
  = match ev with
    | EnterSettings t => t
    | TasaInputChange v => if tasa_pattern v then v else tasaInput s
    | _ => tasaInput s
    end.
Proof.
  rewrite (step_keeps tasaInput) by reflexivity.
  destruct ev as [?|?|? ?| |[d|]|?|?|?|? ?|?|]; handler; fields;
    branches; reflexivity.
Qed.

Lemma tasaInput_plain loadTime evs :
  settings_texts_plain evs ->
  tasa_pattern (tasaInput (state_after loadTime evs)) = true.
Proof.
  unfold state_after, settings_texts_plain.
  induction evs as [|ev evs IH] using rev_ind; intros H; [reflexivity|].
  rewrite run_app, step_tasaInput.
  assert (IH' : tasa_pattern
                  (tasaInput (Act.state_of (run loadTime evs (initial_state loadTime))))
                = true).
  { apply IH. intros t Ht. apply H, in_or_app. left. exact Ht. }
  destruct ev as [?|?|? ?| |?|?|t|v|? ?|?|]; try exact IH'.
  - apply H, in_or_app. right. left. reflexivity.
  - destruct (tasa_pattern v) eqn:P; [exact P | exact IH'].
Qed.

(** X18.  The rate field takes only what its filter admits: a text with
    anything but digits and one decimal point (a sign, an exponent, a
    comma) changes nothing.  So, when the texts the settings were opened
    with are plain decimals, after any history the field holds a plain
    decimal, and the rate a save writes is a number that is not
    negative. *)
Theorem rate_field_filtered loadTime (evs : list Event) (s : State)
  (v : string) (w : World) :
  (tasa_pattern v = false ->
   Act.state_of (step loadTime (TasaInputChange v) s) = s
   /\ Act.effects_of (step loadTime (TasaInputChange v) s) = [])
  /\ (settings_texts_plain evs ->
      tasa_pattern (tasaInput (state_after loadTime evs)) = true
      /\ Num.isNaN (tasa (saved_config w (state_after loadTime evs))) = false
      /\ Num.leb Num.zero (tasa (saved_config w (state_after loadTime evs)))
         = true).
Proof.
  split.
  - intros P.
    assert (D : dispatch loadTime (TasaInputChange v) s = (tt, s, []))
      by (handler; rewrite P; reflexivity).
    split.
    + rewrite step_state. cbv zeta. unfold Act.state_of at 1 2. rewrite D.
      cbn [fst snd]. rewrite same_value_refl. reflexivity.
    + rewrite step_effects. unfold cleanup_effects, Act.state_of, Act.effects_of.
      rewrite D. cbn [fst snd]. rewrite bool_decide_eq_true_2 by reflexivity.
      reflexivity.
  - intros H. pose proof (tasaInput_plain loadTime evs H) as P.
    split; [exact P|].
    unfold saved_config, with_tasa, finalTasa. cbn [tasa].
    destruct (or_else_zero _ (parseFloat_tasa_pattern _ P))
      as [(T & -> & L)|(T & ->)]; [|split; reflexivity].
    destruct (JS.parseFloat _) as [b|b| |b m e]; try discriminate T;
      cbn in L |- *; destruct b; try discriminate L; split; reflexivity.
Qed.

Lemma rate_field_filtered_witness :
  tasa_pattern "-5" = false
  /\ settings_texts_plain [EnterSettings "60"; TasaInputChange "-5"]
  /\ tasaInput (state_after 0 [EnterSettings "60"; TasaInputChange "-5"]) = "60".
Proof.
  assert (P : tasa_pattern "-5" = false) by reflexivity.
  assert (H : settings_texts_plain [EnterSettings "60"; TasaInputChange "-5"]).
  { intros t [E|[E|[]]]; [injection E as <-; reflexivity | discriminate E]. }
  split; [exact P|]. split; [exact H|].
  unfold state_after.
  change [EnterSettings "60"; TasaInputChange "-5"]
    with ([EnterSettings "60"] ++ [TasaInputChange "-5"]).
  rewrite run_app.
  rewrite (proj1 (proj1 (rate_field_filtered 0 [] _ "-5" calm_world) P)).
  reflexivity.
Defined.

(** X19.  What a save does, by outcome.  Without a database: nothing.
    When the write fails: the write was attempted, an error notice is
    shown, the theme is not touched and the success mark stays off.  When
    it succeeds: the theme is recomputed from the colour of the form and
    the success mark goes on, with no notice yet.  In each case the form
    leaves the saving state, the settings stay open, and the local
    configuration, which only a snapshot replaces, is the same as
    before. *)
Theorem saveSettings_outcomes (s : State) (w : World) :
  let r := saveSettings w s in
  let s' := Act.state_of r in
  (db_ready w = false -> r = (tt, s, []))
  /\ (db_ready w = true -> set_ok w = false ->
      Act.effects_of r
      = [SetConfig (saved_config w s);
         Notice error "Error al guardar en Firebase"]
      /\ rootStyle s' = rootStyle s
      /\ saveSuccess s' = false)
  /\ (db_ready w = true -> set_ok w = true ->
      Act.effects_of r = [SetConfig (saved_config w s)]
      /\ rootStyle s'
         = themeProperties (themeColor (editConfig s)) (rootStyle s)
      /\ saveSuccess s' = true
      /\ toast s' = toast s)
  /\ (db_ready w = true ->
      isSaving s' = false /\ showSettings s' = showSettings s
      /\ config s' = config s /\ amountBs s' = amountBs s).
Proof.
  cbv zeta. unfold saved_config. repeat split; intros;
    handler; fields;
    repeat match goal with H : _ = _ |- _ => rewrite H end;
    cbn [negb]; fields; try reflexivity;
    destruct (set_ok w); reflexivity.
Qed.

Lemma saveSettings_outcomes_witness :
  let s := state_after 0 [EnterSettings "60"; TasaInputChange "36.5";
                          EditField F_themeColor "#2563EB"] in
  (db_ready calm_world = true /\ set_ok calm_world = true
   /\ Act.effects_of (saveSettings calm_world s)
      = [SetConfig (saved_config calm_world s)]
   /\ tasa (saved_config calm_world s) = JS.parseFloat "36.5"
   /\ saveSuccess (Act.state_of (saveSettings calm_world s)) = true
   /\ rootStyle (Act.state_of (saveSettings calm_world s))
        !! "--color-primary-dark" = Some "#114fd7")
  /\ (db_ready world_set_fails = true /\ set_ok world_set_fails = false
      /\ Act.effects_of (saveSettings world_set_fails s)
         = [SetConfig (saved_config world_set_fails s);
            Notice error "Error al guardar en Firebase"]
      /\ saveSuccess (Act.state_of (saveSettings world_set_fails s)) = false
      /\ rootStyle (Act.state_of (saveSettings world_set_fails s))
         = rootStyle s).
Proof.
  cbv zeta.
  set (s := state_after 0 [EnterSettings "60"; TasaInputChange "36.5";
                           EditField F_themeColor "#2563EB"]).
  destruct (saveSettings_outcomes s calm_world) as (_ & _ & Ok & _).
  destruct (Ok eq_refl eq_refl) as (E & T & S & _).
  destruct (saveSettings_outcomes s world_set_fails) as (_ & Ko & _ & _).
  destruct (Ko eq_refl eq_refl) as (E' & T' & S').
  split.
  - split; [reflexivity|]. split; [reflexivity|]. split; [exact E|].
    split; [vm_compute; reflexivity|]. split; [exact S|].
    rewrite T. vm_compute. reflexivity.
  - split; [reflexivity|]. split; [reflexivity|]. split; [exact E'|].
    split; [exact S' | exact T'].
Defined.

(** X20.  Opening the settings copies the configuration into the form,
    so a save right after writes the configuration as it was, with the
    rate read from the field and a new timestamp; an edit in between
    changes its field of the written configuration and nothing else
    (the contact number and the cedula reduced to their digits). *)
Theorem settings_round_trip loadTime (s : State) (w : World)
  (tasaText : string) (f : ConfigField) (v : string) :
  let opened := Act.state_of (step loadTime (EnterSettings tasaText) s) in
  let edited := Act.state_of (step loadTime (EditField f v) opened) in
  saved_config w opened
  = with_tasa (config s) (finalTasa tasaText) (now_save w)
  /\ saved_config w edited
     = with_tasa (edit_field f v (config s)) (finalTasa tasaText) (now_save w)
  /\ (JS.parseFloat tasaText = tasa (config s) ->
      Num.truthy (tasa (config s)) = true ->
      saved_config w opened
      = with_tasa (config s) (tasa (config s)) (now_save w)).
Proof.
  cbv zeta.
  assert (O : editConfig (Act.state_of (step loadTime (EnterSettings tasaText) s))
              = config s
              /\ tasaInput (Act.state_of (step loadTime (EnterSettings tasaText) s))
                 = tasaText).
  { rewrite (step_keeps editConfig), (step_keeps tasaInput) by reflexivity.
    split; reflexivity. }
  destruct O as [Oe Ot]. unfold saved_config.
  set (opened := Act.state_of (step loadTime (EnterSettings tasaText) s)) in *.
  split; [|split].
  - rewrite Oe, Ot. reflexivity.
  - rewrite (step_keeps editConfig), (step_keeps tasaInput) by reflexivity.
    clearbody opened. handler. fields. rewrite Oe, Ot. reflexivity.
  - intros P T. rewrite Oe, Ot. unfold finalTasa, Num.or_else.
    rewrite P, T. reflexivity.
Qed.

Lemma settings_round_trip_witness :
  JS.parseFloat "60" = tasa (config (initial_state 0))
  /\ Num.truthy (tasa (config (initial_state 0))) = true
  /\ saved_config calm_world
       (Act.state_of (step 0 (EnterSettings "60") (initial_state 0)))
     = with_tasa (DEFAULT_CONFIG 0) (Num.of_Z 60) (now_save calm_world).
Proof.
  split; [vm_compute; reflexivity|]. split; [reflexivity|].
  refine (proj2 (proj2 (settings_round_trip 0 (initial_state 0) calm_world
                          "60" F_bankName "") ) _ eq_refl).
  vm_compute. reflexivity.
Defined.

(** X21.  A snapshot replaces the configuration as a whole: each field
    comes from the snapshot or, when the snapshot lacks it, from the
    defaults of the program and not from the configuration in force (a
    snapshot without rate sets the rate 60).  The theme follows its
    colour, the default colour standing in for an empty one.  The admin
    form under edit is not touched.  An empty snapshot changes nothing. *)
Theorem config_snapshot_replaces loadTime (s : State) (d : ConfigData) :
  let s' := Act.state_of (step loadTime (ConfigSnapshot (Some d)) s) in
  config s' = merge (DEFAULT_CONFIG loadTime) d
  /\ tasa (config s') = default (Num.of_Z 60) (d_tasa d)
  /\ rootStyle s' !! "--color-primary"
     = Some (if Str.is_empty (default "#20963b" (d_themeColor d))
             then "#20963b" else default "#20963b" (d_themeColor d))
  /\ editConfig s' = editConfig s
  /\ tasaInput s' = tasaInput s
  /\ Act.state_of (step loadTime (ConfigSnapshot None) s) = s
  /\ Act.effects_of (step loadTime (ConfigSnapshot None) s) = [].
Proof.
  cbv zeta.
  destruct (step_config_snapshot loadTime d s) as [_ C]. cbv zeta in C.
  split; [exact C|]. split; [rewrite C; reflexivity|].
  split; [|split; [|split; [|split]]].
  - rewrite (step_keeps rootStyle) by reflexivity. handler. fields.
    cbn [themeColor merge DEFAULT_CONFIG].
    apply themeProperties_lookup.
  - rewrite (step_keeps editConfig) by reflexivity. reflexivity.
  - rewrite (step_keeps tasaInput) by reflexivity. reflexivity.
  - rewrite step_state. cbv zeta.
    change (Act.state_of (dispatch loadTime (ConfigSnapshot None) s)) with s.
    rewrite same_value_refl. reflexivity.
  - rewrite step_effects. unfold cleanup_effects.
    change (Act.state_of (dispatch loadTime (ConfigSnapshot None) s)) with s.
    rewrite bool_decide_eq_true_2 by reflexivity. reflexivity.
Qed.

(** ** Colours *)

(** X22.  Computing the theme writes six properties of the root style
    and no other: every other property keeps its value, and the two
    light tones are fixed, whatever the colour. *)
Theorem theme_touches_six_properties (colorHex : string)
  (style : gmap string string) (k : string) :
  (k <> "--color-primary" -> k <> "--color-primary-dark" ->
   k <> "--color-primary-darker" -> k <> "--color-primary-light" ->
   k <> "--color-primary-lighter" -> k <> "--shadow-color" ->
   themeProperties colorHex style !! k = style !! k)
  /\ themeProperties colorHex style !! "--color-primary-light" = Some "#f3f4f6"
  /\ themeProperties colorHex style !! "--color-primary-lighter" = Some "#f9fafb".
Proof.
  unfold themeProperties. cbv zeta. repeat split.
  - intros N1 N2 N3 N4 N5 N6. rewrite !lookup_insert_ne by auto. reflexivity.
  - rewrite !lookup_insert. repeat case_decide; congruence.
  - rewrite !lookup_insert. repeat case_decide; congruence.
Qed.

Lemma theme_touches_six_properties_witness :
  themeProperties "#20963b" {[ "font-size" := "16px" ]} !! "font-size"
  = Some "16px".
Proof.
  rewrite (proj1 (theme_touches_six_properties "#20963b"
                    {[ "font-size" := "16px" ]} "font-size"))
    by discriminate.
  reflexivity.
Defined.

Lemma adjustColor_hex6 c1 c2 c3 c4 c5 c6 amount :
  JS.is_hex c1 = true -> JS.is_hex c2 = true -> JS.is_hex c3 = true ->
  JS.is_hex c4 = true -> JS.is_hex c5 = true -> JS.is_hex c6 = true ->
  adjustColor (String "#" (hex6 c1 c2 c3 c4 c5 c6)) amount
  = "#" +:+ hex2 (clamp (channel c1 c2 + amount))
        +:+ hex2 (clamp (channel c3 c4 + amount))
        +:+ hex2 (clamp (channel c5 c6 + amount)).
Proof.
  intros H1 H2 H3 H4 H5 H6.
  unfold adjustColor. cbn [strip_hash].
  rewrite replace_pairs_hex6 by assumption.
  rewrite !shade_pair by assumption. reflexivity.
Qed.

Lemma nibbles_ok : List.forallb nibble_ok (seq 0 16) = true.
Proof. vm_compute. reflexivity. Qed.

Lemma hex_digit_val k :
  0 <= k < 16 -> JS.hex_val (hex_digit k) = Some k.
Proof.
  intros R. pose proof nibbles_ok as P. rewrite List.forallb_forall in P.
  specialize (P (Z.to_nat k)).
  assert (I : In (Z.to_nat k) (seq 0 16)) by (apply in_seq; lia).
  specialize (P I). unfold nibble_ok in P. rewrite Z2Nat.id in P by lia.
  destruct (JS.hex_val (hex_digit k)) as [v|]; [|discriminate].
  apply Z.eqb_eq in P. subst. reflexivity.
Qed.

Lemma hex2_channel n :
  0 <= n <= 255 ->
  JS.is_hex (hex_digit (n / 16)) = true
  /\ JS.is_hex (hex_digit (n mod 16)) = true
  /\ channel (hex_digit (n / 16)) (hex_digit (n mod 16)) = n.
Proof.
  intros R.
  assert (R1 : 0 <= n / 16 < 16)
    by (split; [apply Z.div_pos; lia | apply Z.div_lt_upper_bound; lia]).
  assert (R2 : 0 <= n mod 16 < 16) by (apply Z.mod_pos_bound; lia).
  unfold JS.is_hex, channel.
  rewrite (hex_digit_val _ R1), (hex_digit_val _ R2). cbn [default from_option id].
  repeat split. pose proof (Z.div_mod n 16). lia.
Qed.

(** X23.  Adjusting a colour twice by amounts of the same sign is
    adjusting it once by their sum, so the darker shade of the theme
    (-40) is the dark shade (-20) darkened by 20 again; amounts of
    opposite signs do not add up in general, because of the clamping. *)
Theorem adjustColor_same_sign (c1 c2 c3 c4 c5 c6 : ascii) (a b : Z) :
  JS.is_hex c1 = true -> JS.is_hex c2 = true -> JS.is_hex c3 = true ->
  JS.is_hex c4 = true -> JS.is_hex c5 = true -> JS.is_hex c6 = true ->
  (0 <= a /\ 0 <= b) \/ (a <= 0 /\ b <= 0) ->
  let colour := String "#" (hex6 c1 c2 c3 c4 c5 c6) in
  adjustColor (adjustColor colour a) b = adjustColor colour (a + b).
Proof.
  intros H1 H2 H3 H4 H5 H6 S. cbv zeta.
  rewrite !adjustColor_hex6 by assumption.
  pose proof (channel_range c1 c2 H1 H2) as R1.
  pose proof (channel_range c3 c4 H3 H4) as R2.
  pose proof (channel_range c5 c6 H5 H6) as R3.
  destruct (hex2_channel _ (clamp_range (channel c1 c2 + a))) as (A1 & A2 & A3).
  destruct (hex2_channel _ (clamp_range (channel c3 c4 + a))) as (B1 & B2 & B3).
  destruct (hex2_channel _ (clamp_range (channel c5 c6 + a))) as (C1 & C2 & C3).
  unfold hex2 at 1 2 3. rewrite !append_cons, !append_nil.
  change (String "#" (String ?x1 (String ?x2 (String ?x3 (String ?x4
            (String ?x5 (String ?x6 "")))))))
    with (String "#" (hex6 x1 x2 x3 x4 x5 x6)).
  rewrite adjustColor_hex6 by assumption.
  rewrite A3, B3, C3.
  replace (clamp (clamp (channel c1 c2 + a) + b))
    with (clamp (channel c1 c2 + (a + b))) by (unfold clamp; lia).
  replace (clamp (clamp (channel c3 c4 + a) + b))
    with (clamp (channel c3 c4 + (a + b))) by (unfold clamp; lia).
  replace (clamp (clamp (channel c5 c6 + a) + b))
    with (clamp (channel c5 c6 + (a + b))) by (unfold clamp; lia).
  reflexivity.
Qed.

Lemma adjustColor_same_sign_witness :
  ((0 <= -20 /\ 0 <= -20) \/ (-20 <= 0 /\ -20 <= 0))
  /\ adjustColor (adjustColor "#20963b" (-20)) (-20) = adjustColor "#20963b" (-40).
Proof.
  assert (S : (0 <= -20 /\ 0 <= -20) \/ (-20 <= 0 /\ -20 <= 0))
    by (right; split; lia).
  split; [exact S|].
  exact (adjustColor_same_sign "2" "0" "9" "6" "3" "b" (-20) (-20)
           eq_refl eq_refl eq_refl eq_refl eq_refl eq_refl S).
Defined.

(** The callback returns two characters for every pair it is given. *)
Lemma length_shade amount pair : String.length (shade amount pair) = 2%nat.
Proof.
  unfold shade. destruct (JS.parseInt16 pair) as [n|]; [|reflexivity].
  cbv zeta.
  pose proof (proj1 (print_byte _ (clamp_range (n + amount)))) as E.
  unfold clamp in E. rewrite E. reflexivity.
Qed.

Lemma replace_pairs_two f a b r :
  replace_pairs f (a :: b :: r)
  = if dot a && dot b
    then f (Utf16.text [a; b]) +:+ replace_pairs f r
    else Utf16.unit_text a +:+ replace_pairs f (b :: r).
Proof. reflexivity. Qed.

Lemma length_replace_pairs f l :
  (forall pair, String.length (f pair) = 2%nat) ->
  Forall (fun u => (u < 128)%N) l ->
  String.length (replace_pairs f l) = length l.
Proof.
  intros F.
  assert (U : forall u, (u < 128)%N ->
                String.length (Utf16.unit_text u) = 1%nat).
  { intros u H. unfold Utf16.unit_text.
    apply N.ltb_lt in H. rewrite H. reflexivity. }
  assert (G : forall n l, (length l <= n)%nat ->
                Forall (fun u => (u < 128)%N) l ->
                String.length (replace_pairs f l) = length l).
  { clear l. induction n as [|n IH]; intros l L A.
    - destruct l; [reflexivity | cbn in L; lia].
    - destruct l as [|a [|b r]]; [reflexivity | |].
      + cbn [replace_pairs length]. apply U. inversion A; assumption.
      + rewrite replace_pairs_two. inversion A as [|? ? Ha A']. subst.
        inversion A' as [|? ? Hb A'']. subst.
        destruct (dot a && dot b).
        * rewrite length_append, F. cbn [length] in L |- *.
          rewrite IH by (assumption || lia). reflexivity.
        * rewrite length_append, (U a Ha). cbn [length] in L |- *.
          rewrite IH by (assumption || (cbn [length]; lia)). reflexivity. }
  apply (G (length l)). lia.
Qed.

Lemma codes_ascii s :
  ascii_text s = true -> Forall (fun u => (u < 128)%N) (codes s).
Proof.
  unfold ascii_text, codes. induction s as [|c r IH]; intros A.
  - constructor.
  - cbn [Str.forallb] in A. apply andb_prop in A as [Hc Hr].
    cbn [list_ascii_of_string map]. constructor; [|exact (IH Hr)].
    apply N.ltb_lt, Hc.
Qed.

(** A code unit written on its own is read back as that unit. *)
Lemma units_unit_text u s :
  (u < 65536)%N ->
  Utf16.units (Utf16.unit_text u +:+ s) = u :: Utf16.units s.
Proof.
  intros B. unfold Utf16.unit_text.
  assert (C : forall y, (y < 64)%N -> Utf16.cont (128 + y) = y).
  { intros y Y. unfold Utf16.cont. symmetry.
    apply (N.mod_unique _ _ 2); lia. }
  destruct (u <? 128)%N eqn:E1.
  - apply N.ltb_lt in E1. rewrite append_cons, append_nil.
    cbn [Utf16.units]. rewrite N_ascii_embedding by lia.
    replace (u <? 192)%N with true by (symmetry; apply N.ltb_lt; lia).
    reflexivity.
  - apply N.ltb_ge in E1. destruct (u <? 2048)%N eqn:E2.
    + apply N.ltb_lt in E2. rewrite !append_cons, append_nil.
      assert (D : (u / 64 < 32)%N) by (apply N.Div0.div_lt_upper_bound; lia).
      assert (M : (u mod 64 < 64)%N) by (apply N.mod_lt; lia).
      pose proof (N.div_mod u 64 ltac:(lia)) as Q.
      cbn [Utf16.units]. rewrite !N_ascii_embedding by lia.
      replace (192 + u / 64 <? 192)%N with false
        by (symmetry; apply N.ltb_ge; lia).
      replace (192 + u / 64 <? 224)%N with true
        by (symmetry; apply N.ltb_lt; lia).
      rewrite (C _ M). f_equal. lia.
    + apply N.ltb_ge in E2. rewrite !append_cons, append_nil.
      assert (D : (u / 4096 < 16)%N) by (apply N.Div0.div_lt_upper_bound; lia).
      assert (M : (u mod 64 < 64)%N) by (apply N.mod_lt; lia).
      assert (M2 : ((u / 64) mod 64 < 64)%N) by (apply N.mod_lt; lia).
      pose proof (N.div_mod u 64 ltac:(lia)) as Q.
      pose proof (N.div_mod (u / 64) 64 ltac:(lia)) as Q2.
      assert (DD : (u / 64 / 64 = u / 4096)%N)
        by (rewrite N.Div0.div_div; reflexivity).
      rewrite DD in Q2.
      cbn [Utf16.units]. rewrite !N_ascii_embedding by lia.
      replace (224 + u / 4096 <? 192)%N with false
        by (symmetry; apply N.ltb_ge; lia).
      replace (224 + u / 4096 <? 224)%N with false
        by (symmetry; apply N.ltb_ge; lia).
      replace (224 + u / 4096 <? 240)%N with true
        by (symmetry; apply N.ltb_lt; lia).
      rewrite (C _ M), (C _ M2). f_equal. lia.
Qed.

(** X24.  What [adjustColor] does beyond six hexadecimal digits.  For a
    colour of ASCII characters it returns [#] followed by as many
    characters as the colour has after its own [#]: two for every pair,
    a last odd character as it is, so a shorthand colour of three digits
    is not expanded.  The pairs are pairs of UTF-16 code units: two units
    that are no hexadecimal number come out as the two letters [aN], and
    a single unit, whatever its number of bytes, stays as it is. *)
Theorem adjustColor_keeps_length (color : string) (amount : Z) (u v : N) :
  (ascii_text color = true ->
   exists rest,
     adjustColor color amount = String "#" rest
     /\ String.length rest = String.length (strip_hash color))
  /\ ((u < 65536)%N -> (v < 65536)%N ->
      dot u = true -> dot v = true ->
      JS.parseInt16 (Utf16.text [u; v]) = None ->
      adjustColor ("#" +:+ Utf16.unit_text u +:+ Utf16.unit_text v) amount
      = "#aN")
  /\ ((u < 65536)%N ->
      adjustColor ("#" +:+ Utf16.unit_text u) amount
      = "#" +:+ Utf16.unit_text u).
Proof.
  assert (One : forall w, (w < 65536)%N ->
                  Utf16.units (Utf16.unit_text w) = [w]).
  { intros w W. rewrite <- (append_empty (Utf16.unit_text w)).
    rewrite (units_unit_text w "" W). reflexivity. }
  split; [|split].
  - intros A. unfold adjustColor. eexists. split; [reflexivity|].
    assert (A' : ascii_text (strip_hash color) = true).
    { destruct color as [|c r]; [reflexivity|].
      unfold ascii_text in *. cbn [Str.forallb] in A.
      apply andb_prop in A as [Hc Hr].
      unfold strip_hash. ascii_cases c; try exact Hr;
        cbn [Str.forallb]; rewrite Hr, Hc; reflexivity. }
    rewrite (units_ascii _ A').
    rewrite length_replace_pairs
      by (apply length_shade || apply codes_ascii, A').
    apply length_codes.
  - intros U V Du Dv N. unfold adjustColor.
    change (strip_hash ("#" +:+ Utf16.unit_text u +:+ Utf16.unit_text v))
      with (Utf16.unit_text u +:+ Utf16.unit_text v).
    rewrite (units_unit_text u _ U), (One v V).
    cbn [replace_pairs]. rewrite Du, Dv. cbn [andb].
    unfold shade. rewrite N. reflexivity.
  - intros U. unfold adjustColor.
    change (strip_hash ("#" +:+ Utf16.unit_text u)) with (Utf16.unit_text u).
    rewrite (One u U). reflexivity.
Qed.

Lemma adjustColor_keeps_length_witness :
  adjustColor "#abc" (-20) = "#97c"
  /\ adjustColor "#zz" (-20) = "#aN"
  /\ adjustColor "#é" (-20) = "#é"
  /\ adjustColor "#éé" (-20) = "#aN"
  /\ String.length (strip_hash "#abc") = 3%nat.
Proof.
  destruct (adjustColor_keeps_length "#abc" (-20) 233 233) as (A & B & C).
  destruct (A eq_refl) as (rest & E & L).
  split; [vm_compute; reflexivity|].
  split; [vm_compute; reflexivity|].
  split; [exact (C eq_refl)|].
  split; [exact (B eq_refl eq_refl eq_refl eq_refl eq_refl)|].
  reflexivity.
Defined.

(** X25.  [hexToRgba] reads back what [adjustColor] writes: for channel
    values between 0 and 255 written as two hexadecimal digits each
    after a [#], it gives [rgba(r, g, b, alpha)] with the values in
    decimal; so the shadow of an adjusted colour shows the clamped
    channels.  A text of at most one character gives NaN for the three
    channels. *)
Theorem hexToRgba_reads_channels (r g b : Z) (alpha : string) (c : ascii) :
  0 <= r <= 255 -> 0 <= g <= 255 -> 0 <= b <= 255 ->
  hexToRgba ("#" +:+ hex2 r +:+ hex2 g +:+ hex2 b) alpha
  = "rgba(" +:+ Str.of_Z r +:+ ", " +:+ Str.of_Z g +:+ ", " +:+ Str.of_Z b
      +:+ ", " +:+ alpha +:+ ")"
  /\ hexToRgba "" alpha = "rgba(NaN, NaN, NaN, " +:+ alpha +:+ ")"
  /\ hexToRgba (String c "") alpha = "rgba(NaN, NaN, NaN, " +:+ alpha +:+ ")".
Proof.
  intros Rr Rg Rb. split; [|split; [reflexivity|]].
  2: { unfold hexToRgba. cbn [Utf16.units].
       destruct (N_of_ascii c <? 192)%N; reflexivity. }
  assert (H2 : forall n, 0 <= n <= 255 -> ascii_text (hex2 n) = true).
  { assert (B : List.forallb (fun k => ascii_text (hex2 (Z.of_nat k)))
                  (seq 0 256) = true) by (vm_compute; reflexivity).
    rewrite List.forallb_forall in B. intros n R.
    specialize (B (Z.to_nat n)). rewrite Z2Nat.id in B by lia.
    apply B, in_seq. lia. }
  assert (A : ascii_text ("#" +:+ hex2 r +:+ hex2 g +:+ hex2 b) = true).
  { unfold ascii_text in *. rewrite !forallb_append, H2, H2, H2 by assumption.
    reflexivity. }
  unfold hexToRgba. cbv zeta. rewrite !(slice_ascii _ _ _ A).
  replace (Str.slice 1 3 ("#" +:+ hex2 r +:+ hex2 g +:+ hex2 b)) with (hex2 r)
    by reflexivity.
  replace (Str.slice 3 5 ("#" +:+ hex2 r +:+ hex2 g +:+ hex2 b)) with (hex2 g)
    by reflexivity.
  replace (Str.slice 5 7 ("#" +:+ hex2 r +:+ hex2 g +:+ hex2 b)) with (hex2 b)
    by reflexivity.
  rewrite (proj2 (print_byte r Rr)), (proj2 (print_byte g Rg)),
    (proj2 (print_byte b Rb)).
  reflexivity.
Qed.

Lemma hexToRgba_reads_channels_witness :
  0 <= 32 <= 255 /\ 0 <= 150 <= 255 /\ 0 <= 59 <= 255
  /\ hexToRgba "#20963b" "0.2" = "rgba(32, 150, 59, 0.2)".
Proof.
  assert (R : 0 <= 32 <= 255) by lia.
  assert (G : 0 <= 150 <= 255) by lia.
  assert (B : 0 <= 59 <= 255) by lia.
  repeat (split; [assumption|]).
  etransitivity;
    [exact (proj1 (hexToRgba_reads_channels 32 150 59 "0.2" "#" R G B))|].
  vm_compute. reflexivity.
Defined.

(** ** Signing in *)

Lemma trim_blank s : JS.trim_start s = "" -> trim s = "".
Proof. intros E. unfold trim. rewrite E. reflexivity. Qed.

Ltac login :=
  unfold handleLogin, login_done, enterSettings, showToast,
    Act.bind, Act.get, Act.modify, Act.emit, Act.ret.

(** X26.  A sign-in form whose e-mail is blank (empty or white space only)
    or whose password is empty never reaches the authentication service:
    the only effect is the notice "Completa los campos", the settings
    panel, the dialog and the error mark stay as they were, and the
    "logging in" flag is off again. *)
Theorem blank_login_not_sent (a : AuthWorld) (l : LoginForm) (s : State)
    (Hblank : JS.trim_start (loginUser l) = "" \/ loginPass l = "") :
  let '(l', s', es) := handleLogin a l s in
  es = [Page (Notice error "Completa los campos")] /\
  showSettings s' = showSettings s /\
  editConfig s' = editConfig s /\
  showLoginModal l' = showLoginModal l /\
  loginError l' = false /\
  isLoggingIn l' = false.
Proof.
  assert (E : Str.is_empty (trim (loginUser l)) || Str.is_empty (loginPass l)
              = true).
  { destruct Hblank as [H | H].
    - rewrite (trim_blank _ H). reflexivity.
    - rewrite H. apply orb_true_r. }
  login. rewrite E. fields. cbn [map]. repeat split; reflexivity.
Qed.

Lemma blank_login_not_sent_witness :
  let a := {| auth_ready := true; sign_in_ok := true; tasa_text := "36.5" |} in
  let l := {| loginUser := "   "; loginPass := "secret"; loginError := true;
              isLoggingIn := false; showLoginModal := true;
              isMenuOpen := false |} in
  let s := initial_state 0 in
  let '(l', s', es) := handleLogin a l s in
  es = [Page (Notice error "Completa los campos")] /\
  showSettings s' = showSettings s /\
  editConfig s' = editConfig s /\
  showLoginModal l' = showLoginModal l /\
  loginError l' = false /\
  isLoggingIn l' = false.
Proof.
  exact (blank_login_not_sent
           {| auth_ready := true; sign_in_ok := true; tasa_text := "36.5" |}
           {| loginUser := "   "; loginPass := "secret"; loginError := true;
              isLoggingIn := false; showLoginModal := true;
              isMenuOpen := false |}
           (initial_state 0)
           (or_introl eq_refl)).
Defined.

(** X27.  [handleLogin] opens the settings panel only after the service
    accepted the credentials.  In every outcome the "logging in" flag ends
    off; the service is asked at most once, with the trimmed e-mail and
    the password as typed, both non-empty; if the panel is open afterwards
    and was not before, the sign-in was sent and accepted, the dialog is
    closed and the edit form holds the current configuration; and the
    error mark is set exactly when a sign-in was sent and refused. *)
Theorem settings_open_only_after_sign_in (a : AuthWorld) (l : LoginForm)
    (s : State) :
  let '(l', s', es) := handleLogin a l s in
  let sent := SignIn (trim (loginUser l)) (loginPass l) in
  isLoggingIn l' = false /\
  (forall e, In e es -> is_sign_in e = true ->
     e = sent /\ trim (loginUser l) <> "" /\ loginPass l <> "" /\
     auth_ready a = true) /\
  (showSettings s' = true -> showSettings s = false ->
     In sent es /\ sign_in_ok a = true /\ showLoginModal l' = false /\
     editConfig s' = config s /\ tasaInput s' = tasa_text a) /\
  (loginError l' = true <-> In sent es /\ sign_in_ok a = false) /\
  config s' = config s.
Proof.
  login.
  cbv zeta.
  destruct (Str.is_empty (trim (loginUser l))) eqn:Eu; cbn [orb].
  2: destruct (Str.is_empty (loginPass l)) eqn:Ep.
  3: destruct (auth_ready a) eqn:Ea; cbn [negb].
  3: destruct (sign_in_ok a) eqn:Eo.
  all: fields; cbn [map app isLoggingIn loginError showLoginModal].
  all: repeat match goal with |- _ /\ _ => split end.
  all: try reflexivity.
  all: try (intros e He Hs; cbn [In] in He;
            repeat (destruct He as [He | He];
                    [subst e; cbn [is_sign_in] in Hs |]);
            try discriminate; try contradiction;
            repeat split; try reflexivity;
            intros N; rewrite N in *; cbn in *; discriminate).
  all: try (intros H1 H0; rewrite H1 in H0; discriminate).
  all: try (intros _ _; cbn [In]; repeat split; auto; fail).
  all: split;
    [ intros H; try discriminate; cbn [In]; split; auto
    | intros [Hin Ho]; try discriminate; try reflexivity; cbn [In] in Hin;
      repeat (destruct Hin as [Hin | Hin]; try discriminate);
      contradiction ].
Qed.

(** ** Start-up *)

(** X28.  Start-up decides between the form and the error screen.  The
    component subscribes to the configuration exactly when it shows no
    error, and then the database handle is present.  A failure with a
    non-empty message is shown as that message and nothing is subscribed.
    A failure with an empty message is not seen as one: thrown before the
    database handle exists it gives the fixed text about the connection,
    thrown by the authentication step it lets the form start without an
    authentication handle. *)
Theorem startup_outcomes (failure : option (InitStep * string)) :
  let fb := initFirebase failure in
  let m := mountEffect fb in
  (subscribed m = true <-> configError m = None) /\
  (subscribed m = true -> db fb = true /\ isLoading m = true) /\
  (subscribed m = false -> isLoading m = false) /\
  (failure = None -> subscribed m = true /\ auth fb = true) /\
  (forall step msg, failure = Some (step, msg) -> msg <> "" ->
     configError m = Some msg /\ subscribed m = false) /\
  (forall step, failure = Some (step, "") ->
     match step with
     | GetAuth => subscribed m = true /\ auth fb = false
     | _ => configError m = Some "No se pudo conectar a la base de datos."
     end).
Proof.
  destruct failure as [[step msg] |].
  - assert (D : msg = "" \/ exists c r, msg = String c r)
      by (destruct msg; [left; reflexivity | right; eauto]).
    destruct D as [-> | (c & r & ->)]; destruct step;
      cbn; repeat split; intros; try discriminate; try congruence;
      try (match goal with
           | H : Some _ = Some _ |- _ => inversion H; subst; clear H
           end; cbn; auto; try congruence).
  - cbn. repeat split; intros; try discriminate; try congruence.
Qed.

(** ** The cedula on show *)

Lemma digits2_shift k p :
  digits2_pos (Pos.iter xO p k) = (digits2_pos p + k)%positive.
Proof.
  induction k as [|k IH] using Pos.peano_ind.
  - cbn. lia.
  - rewrite Pos.iter_succ. cbn [digits2_pos]. rewrite IH. lia.
Qed.

Lemma digits2_size p : digits2_pos p = Pos.size p.
Proof.
  induction p as [p IH | p IH |]; cbn [digits2_pos Pos.size];
    [rewrite IH; reflexivity | rewrite IH; reflexivity | reflexivity].
Qed.

Lemma digits2_bound p : Z.pos p < 2 ^ 53 -> Z.pos (digits2_pos p) <= 53.
Proof.
  intros H. rewrite digits2_size.
  destruct (Z.le_gt_cases (Z.pos (Pos.size p)) 53) as [L | G]; [exact L|].
  exfalso.
  pose proof (Pos.size_le p) as B.
  assert (2 ^ 54 <= 2 ^ Z.pos (Pos.size p)) by (apply Z.pow_le_mono_r; lia).
  assert (E : Z.pos (2 ^ Pos.size p) = 2 ^ Z.pos (Pos.size p))
    by (rewrite Pos2Z.inj_pow; reflexivity).
  assert (Z.pos (2 ^ Pos.size p) <= Z.pos (p~0)) by exact B.
  change (2 ^ 54) with (2 * 2 ^ 53) in *. lia.
Qed.

Lemma iter_xO_val k p : Z.pos (Pos.iter xO p k) = Z.pos p * 2 ^ Z.pos k.
Proof.
  change (Pos.iter xO p k) with (shift_pos k p).
  rewrite shift_pos_correct. rewrite Z.mul_comm. reflexivity.
Qed.

Lemma shr_fexp_exact m e :
  fexp 53 1024 (Z.pos (digits2_pos m) + e) = e ->
  shr_fexp 53 1024 (Z.pos m) e loc_Exact
  = ({| shr_m := Z.pos m; shr_r := false; shr_s := false |}, e).
Proof.
  intros F. unfold shr_fexp. cbn [Zdigits2]. rewrite F, Z.sub_diag.
  reflexivity.
Qed.

Lemma binary_round_aux_exact s m e :
  fexp 53 1024 (Z.pos (digits2_pos m) + e) = e ->
  e <= 971 ->
  binary_round_aux 53 1024 s (Z.pos m) e loc_Exact = S754_finite s m e.
Proof.
  intros F L. unfold binary_round_aux.
  rewrite (shr_fexp_exact m e F).
  cbn [shr_m loc_of_shr_record round_nearest_even].
  rewrite (shr_fexp_exact m e F). cbn [shr_m].
  replace (e <=? 1024 - 53) with true by (symmetry; apply Z.leb_le; lia).
  reflexivity.
Qed.

(** An integer below 2^53 is a binary64 number: rounding keeps it. *)
Lemma binary_round_exact s p :
  Z.pos p < 2 ^ 53 ->
  exists m e,
    binary_round 53 1024 s p 0 = S754_finite s m e
    /\ e <= 0 /\ Z.pos m = Z.pos p * 2 ^ (- e).
Proof.
  intros H. pose proof (digits2_bound p H) as D.
  unfold binary_round, shl_align.
  assert (F : fexp 53 1024 (Z.pos (digits2_pos p) + 0) = Z.pos (digits2_pos p) - 53)
    by (unfold fexp, emin; lia).
  rewrite F.
  destruct (Z.pos (digits2_pos p) - 53 - 0) as [|q|q] eqn:E; try lia.
  - exists p, 0. split; [|split; [lia | cbn; lia]].
    apply binary_round_aux_exact; [rewrite F|]; lia.
  - exists (Pos.iter xO p q), (Z.pos (digits2_pos p) - 53).
    split; [|split; [lia | rewrite iter_xO_val; f_equal; f_equal; lia]].
    apply binary_round_aux_exact; [|lia].
    rewrite digits2_shift. unfold fexp, emin. lia.
Qed.

(** Two integers below 2^53 that round to the same number are equal. *)
Lemma binary_round_inj a b :
  Z.pos a < 2 ^ 53 -> Z.pos b < 2 ^ 53 ->
  Num.same_value (binary_round 53 1024 false a 0)
                 (binary_round 53 1024 false b 0) = true ->
  a = b.
Proof.
  intros A B S.
  destruct (binary_round_exact false a A) as (m & e & Ra & Le & M).
  destruct (binary_round_exact false b B) as (m' & e' & Rb & Le' & M').
  rewrite Ra, Rb in S. cbn [Num.same_value] in S.
  apply andb_prop in S as [[_ Em]%andb_prop Ee].
  apply Pos.eqb_eq in Em. apply Z.eqb_eq in Ee. subst m' e'.
  rewrite M in M'.
  assert (0 < 2 ^ (- e)) by (apply Z.pow_pos_nonneg; lia).
  assert (Z.pos a = Z.pos b) by nia. congruence.
Qed.

Section Whole.

(** The number of an integer [P] between 1 and 10^15. *)
Variables (p : positive) (den : Z).
Hypothesis Pbound : Z.pos p < 10 ^ 15.
Hypothesis Dpos : 0 < den.

Let x : Num.number := binary_round 53 1024 false p 0.

Lemma exp_up_whole fuel :
  forall n0, 1 <= n0 <= 15 -> 15 - n0 < Z.of_nat fuel ->
  let n := Num.exp_up fuel (Z.pos p * den) den n0 in
  n0 <= n <= 15 /\ Z.pos p < 10 ^ n.
Proof.
  induction fuel as [|f IH]; intros n0 R F; [lia|].
  cbn [Num.exp_up]. destruct (_ <? _) eqn:E.
  - apply Z.ltb_lt in E. split; [lia | nia].
  - apply Z.ltb_ge in E.
    assert (G : 10 ^ n0 <= Z.pos p) by nia.
    assert (n0 < 15).
    { destruct (Z.eq_dec n0 15) as [-> | Ne]; lia. }
    destruct (IH (n0 + 1) ltac:(lia) ltac:(lia)) as [I1 I2].
    split; [lia | exact I2].
Qed.

Lemma scaled_floor_whole q :
  0 <= q -> Num.scaled_floor (Z.pos p * den) den (- q) = Z.pos p / 10 ^ q.
Proof.
  intros Q. unfold Num.scaled_floor. destruct (0 <=? - q) eqn:E.
  - apply Z.leb_le in E. assert (q = 0) by lia. subst q. cbn [Z.opp Z.pow].
    rewrite Z.mul_1_r, Z.div_mul, Z.div_1_r by lia. reflexivity.
  - rewrite Z.opp_involutive, (Z.mul_comm den).
    assert (0 < 10 ^ q) by (apply Z.pow_pos_nonneg; lia).
    apply Z.div_mul_cancel_r; lia.
Qed.

Lemma reads_back_whole c q :
  0 <= c -> 0 <= q -> c * 10 ^ q < 2 ^ 53 ->
  Num.reads_back x c q = true -> c * 10 ^ q = Z.pos p.
Proof.
  intros C Q B R. unfold Num.reads_back, Num.of_decimal in R.
  assert (B53 : 10 ^ 15 < 2 ^ 53) by (vm_compute; reflexivity).
  destruct c as [|cp|cp]; [| | lia].
  { exfalso. destruct (binary_round_exact false p ltac:(lia)) as (m & e & Rx & _).
    unfold x in R. rewrite Rx in R. discriminate R. }
  replace (0 <=? q) with true in R by (symmetry; apply Z.leb_le; exact Q).
  assert (T : 0 < 10 ^ q) by (apply Z.pow_pos_nonneg; lia).
  assert (V : Z.pos (cp * Z.to_pos (10 ^ q)) = Z.pos cp * 10 ^ q)
    by (rewrite Pos2Z.inj_mul, Z2Pos.id by exact T; reflexivity).
  assert (E : (cp * Z.to_pos (10 ^ q))%positive = p).
  { apply binary_round_inj; [lia | lia | exact R]. }
  rewrite <- V, E. reflexivity.
Qed.

Lemma shortest_from_whole n fuel :
  n <= 15 -> Z.pos p < 10 ^ n ->
  forall k, 1 <= k <= n -> n - k < Z.of_nat fuel ->
  let r := Num.shortest_from fuel x (Z.pos p * den) den n k in
  0 <= snd r /\ fst r * 10 ^ snd r = Z.pos p.
Proof.
  intros N15 Pn. induction fuel as [|f IH]; intros k K F; [lia|].
  cbn [Num.shortest_from]. cbv zeta.
  replace (k - n) with (- (n - k)) by lia.
  rewrite Z.opp_involutive, scaled_floor_whole by lia.
  set (q := n - k). set (lo := Z.pos p / 10 ^ q).
  assert (Q : 0 <= q <= 14) by (subst q; lia).
  assert (T : 0 < 10 ^ q) by (apply Z.pow_pos_nonneg; lia).
  assert (T14 : 10 ^ q <= 10 ^ 14) by (apply Z.pow_le_mono_r; lia).
  assert (L0 : 0 <= lo) by (apply Z.div_pos; lia).
  assert (L1 : lo * 10 ^ q <= Z.pos p)
    by (rewrite Z.mul_comm; apply Z.mul_div_le; lia).
  assert (B53 : 10 ^ 15 + 10 ^ 14 < 2 ^ 53) by (vm_compute; reflexivity).
  assert (Blo : lo * 10 ^ q < 2 ^ 53) by lia.
  assert (Bhi : (lo + 1) * 10 ^ q < 2 ^ 53) by lia.
  destruct (Num.reads_back x lo q) eqn:Rlo;
    destruct (Num.reads_back x (lo + 1) q) eqn:Rhi.
  - destruct (Num.nearer_up _ _ _ _); cbn [fst snd];
      (split; [lia | apply reads_back_whole; (assumption || lia)]).
  - cbn [fst snd]. split; [lia | apply reads_back_whole; (assumption || lia)].
  - cbn [fst snd]. split; [lia | apply reads_back_whole; (assumption || lia)].
  - destruct (Z.eq_dec k n) as [-> | Ne].
    + exfalso. subst q lo. rewrite Z.sub_diag in Rlo. cbn [Z.pow] in Rlo.
      rewrite Z.div_1_r in Rlo. unfold Num.reads_back, Num.of_decimal in Rlo.
      change (0 <=? 0) with true in Rlo. cbv iota in Rlo.
      change (Z.to_pos (10 ^ 0)) with 1%positive in Rlo.
      rewrite Pos.mul_1_r in Rlo. unfold x, Num.prec, Num.emax in Rlo.
      rewrite same_value_refl in Rlo. discriminate Rlo.
    + apply IH; lia.
Qed.

End Whole.

(** The shortest decimal of an integer below 10^15 is the integer. *)
Lemma shortest_whole p m e :
  Z.pos p < 10 ^ 15 ->
  binary_round 53 1024 false p 0 = S754_finite false m e ->
  0 <= snd (Num.shortest m e)
  /\ fst (Num.shortest m e) * 10 ^ snd (Num.shortest m e) = Z.pos p.
Proof.
  intros B R.
  assert (B53 : Z.pos p < 2 ^ 53).
  { assert (10 ^ 15 < 2 ^ 53) by (vm_compute; reflexivity). lia. }
  destruct (binary_round_exact false p B53) as (m' & e' & R' & Le & M).
  rewrite R in R'. injection R' as <- <-.
  assert (D : exists den, 0 < den /\ Num.ratio m e = (Z.pos p * den, den)).
  { unfold Num.ratio. destruct (0 <=? e) eqn:E.
    - apply Z.leb_le in E. assert (e = 0) by lia. subst e.
      exists 1. split; [lia|]. change (2 ^ (- 0)) with 1 in M.
      change (2 ^ 0) with 1. f_equal. lia.
    - exists (2 ^ (- e)). split; [apply Z.pow_pos_nonneg; lia|].
      rewrite M. reflexivity. }
  destruct D as (den & Dp & Rt). unfold Num.shortest. rewrite Rt.
  unfold Num.decimal_exponent.
  replace (den <=? Z.pos p * den) with true by (symmetry; apply Z.leb_le; nia).
  destruct (exp_up_whole p den B Dp 400 1 ltac:(lia) ltac:(lia)) as [[N1 N15] Pn].
  set (n := Num.exp_up 400 (Z.pos p * den) den 1) in *.
  rewrite <- R.
  apply (shortest_from_whole p den B Dp n 16 N15 Pn 1); lia.
Qed.

Lemma string_of_revapp d acc :
  DecimalString.NilEmpty.string_of_uint (Decimal.revapp d acc)
  = Intl.rev_onto (DecimalString.NilEmpty.string_of_uint d)
                  (DecimalString.NilEmpty.string_of_uint acc).
Proof.
  revert acc.
  induction d as [|d IH|d IH|d IH|d IH|d IH|d IH|d IH|d IH|d IH|d IH];
    intros acc; cbn [Decimal.revapp]; [reflexivity | rewrite IH ..];
    reflexivity.
Qed.

Lemma of_Z_pos p :
  Str.of_Z (Z.pos p) = DecimalString.NilEmpty.string_of_uint (Pos.to_uint p).
Proof.
  unfold Str.of_Z. cbn [Z.to_int DecimalString.NilZero.string_of_int].
  unfold DecimalString.NilZero.string_of_uint.
  destruct (Pos.to_uint p) eqn:E; try reflexivity.
  pose proof (DecimalPos.Unsigned.of_to p) as O. rewrite E in O.
  discriminate O.
Qed.

Lemma of_Z_tenfold n : 0 < n -> Str.of_Z (10 * n) = Str.of_Z n +:+ "0".
Proof.
  intros H. destruct n as [|p|p]; try lia.
  change (10 * Z.pos p) with (Z.pos (10 * p)).
  rewrite !of_Z_pos.
  unfold Pos.to_uint, Decimal.rev.
  pose proof (DecimalPos.Unsigned.to_ldec_tenfold p) as T.
  change (10 * N.pos p)%N with (N.pos (10 * p)) in T.
  cbn [DecimalPos.Unsigned.to_lu] in T. rewrite T.
  cbn [Decimal.revapp]. rewrite !string_of_revapp.
  rewrite (rev_onto_append _ (DecimalString.NilEmpty.string_of_uint _)).
  reflexivity.
Qed.

Lemma of_Z_nonempty n : Str.of_Z n <> "".
Proof.
  unfold Str.of_Z. destruct n as [|p|p]; cbn; try discriminate.
  unfold DecimalString.NilZero.string_of_uint.
  destruct (Pos.to_uint p); discriminate.
Qed.

Lemma of_Z_thousandfold n :
  0 < n -> Str.of_Z (n * 1000) = Str.of_Z n +:+ "000".
Proof.
  intros H. replace (n * 1000) with (10 * (10 * (10 * n))) by lia.
  rewrite !of_Z_tenfold by lia. rewrite !append_assoc. reflexivity.
Qed.

(** A whole number is shown without fraction: its digits, grouped. *)
Lemma format_scaled_whole n :
  0 <= n -> Intl.format_scaled (n * 1000) 0 3 = Intl.group (Str.of_Z n).
Proof.
  intros H. destruct (Z.eq_dec n 0) as [-> | N]; [reflexivity|].
  unfold Intl.format_scaled, Intl.raw_fixed.
  rewrite of_Z_thousandfold by lia.
  pose proof (of_Z_nonempty n) as E.
  destruct (Str.of_Z n) as [|c a] eqn:Ea; [contradiction|].
  assert (L : (4 - String.length (String c a +:+ "000") = 0)%nat)
    by (rewrite length_append; cbn [String.length]; lia).
  unfold Intl.pad_left. rewrite L. cbn [Intl.zeros]. rewrite append_nil.
  replace (String.length (String c a +:+ "000") - 3)%nat
    with (String.length (String c a))
    by (rewrite length_append; cbn [String.length]; lia).
  rewrite take_append_exact, drop_append_exact. reflexivity.
Qed.

Lemma trim_start_plain c r :
  (N_of_ascii c < 128)%N -> JS.ws1 (N_of_ascii c) = false ->
  JS.trim_start (String c r) = String c r.
Proof.
  intros A W.
  ascii_cases c; try (exfalso; vm_compute in A; discriminate A);
    try discriminate W; destruct r as [|c2 [|c3 r]]; reflexivity.
Qed.

Lemma digit_plain c :
  Str.is_digit c = true ->
  (N_of_ascii c < 128)%N /\ JS.ws1 (N_of_ascii c) = false.
Proof.
  intros D. ascii_cases c; try discriminate D; split; reflexivity.
Qed.

Lemma span_digits ds :
  Str.forallb Str.is_digit ds = true -> Str.span Str.is_digit ds = (ds, "").
Proof.
  intros D. rewrite <- (append_empty ds) at 1.
  apply span_digits_app; [exact D | exact I].
Qed.

Lemma parseInt_digits c r :
  Str.forallb Str.is_digit (String c r) = true ->
  parseInt (String c r) = Num.of_decimal false (JS.digits_val (String c r)) 0.
Proof.
  intros D. pose proof (span_digits _ D) as Sp.
  assert (Dc : Str.is_digit c = true /\ Str.forallb Str.is_digit r = true)
    by (cbn [Str.forallb] in D; apply andb_true_iff in D; exact D).
  destruct Dc as [Dc Dr].
  destruct (digit_plain c Dc) as [A W].
  unfold parseInt. rewrite (trim_start_plain c r A W).
  destruct r as [|c2 r2].
  - ascii_cases c; try discriminate Dc; cbv beta iota zeta; rewrite Sp;
      reflexivity.
  - assert (D2 : Str.is_digit c2 = true)
      by (cbn [Str.forallb] in Dr; apply andb_true_iff in Dr; tauto).
    ascii_cases c2; try discriminate D2;
      ascii_cases c; try discriminate Dc; cbv beta iota zeta; rewrite Sp;
      reflexivity.
Qed.

Lemma fmt_default_whole n :
  0 <= n < 10 ^ 15 ->
  fmt_default (Num.of_decimal false n 0) = Intl.group (Str.of_Z n).
Proof.
  intros [L U]. destruct n as [|p|p]; [reflexivity | | lia].
  assert (B53 : Z.pos p < 2 ^ 53).
  { assert (10 ^ 15 < 2 ^ 53) by (vm_compute; reflexivity). lia. }
  unfold Num.of_decimal. change (0 <=? 0) with true. cbv iota.
  change (Z.to_pos (10 ^ 0)) with 1%positive. rewrite Pos.mul_1_r.
  destruct (binary_round_exact false p B53) as (m & e & R & _ & _).
  unfold Num.prec, Num.emax. rewrite R.
  destruct (shortest_whole p m e U R) as [Q V].
  unfold fmt_default, Intl.toLocaleString_esVE.
  destruct (Num.shortest m e) as [d q]. cbn [fst snd] in Q, V.
  unfold Intl.round_half_expand. cbv zeta.
  replace (0 <=? q + Z.of_nat 3) with true by (symmetry; apply Z.leb_le; lia).
  rewrite Z.pow_add_r by lia. change (10 ^ Z.of_nat 3) with 1000.
  replace (d * (10 ^ q * 1000)) with (Z.pos p * 1000) by lia.
  rewrite format_scaled_whole by lia. reflexivity.
Qed.

Lemma digits_val_onto s : JS.digits_val s = digits_onto 0 s.
Proof. reflexivity. Qed.

Lemma digit_val_range c : Str.is_digit c = true -> 0 <= Str.digit_val c <= 9.
Proof.
  unfold Str.is_digit, Str.digit_val. cbv zeta. intros D.
  apply andb_true_iff in D. destruct D as [A B].
  apply N.leb_le in A. apply N.leb_le in B. lia.
Qed.

Lemma digits_onto_bound r :
  forall acc, 0 <= acc -> Str.forallb Str.is_digit r = true ->
  0 <= digits_onto acc r < (acc + 1) * 10 ^ Z.of_nat (String.length r).
Proof.
  induction r as [|c r IH]; intros acc A D.
  - cbn. lia.
  - cbn [Str.forallb] in D. apply andb_true_iff in D. destruct D as [Dc Dr].
    pose proof (digit_val_range c Dc) as R.
    cbn [digits_onto String.length].
    specialize (IH (10 * acc + Str.digit_val c) ltac:(lia) Dr).
    rewrite Nat2Z.inj_succ, Z.pow_succ_r by lia.
    assert (0 < 10 ^ Z.of_nat (String.length r))
      by (apply Z.pow_pos_nonneg; lia).
    nia.
Qed.

Lemma to_lu_iter k m :
  DecimalPos.Unsigned.to_lu (Nat.iter k N.succ m)
  = Nat.iter k Decimal.Little.succ (DecimalPos.Unsigned.to_lu m).
Proof.
  induction k as [|k IH]; [reflexivity|].
  change (Nat.iter (S k) N.succ m) with (N.succ (Nat.iter k N.succ m)).
  rewrite DecimalPos.Unsigned.to_lu_succ, IH. reflexivity.
Qed.

Lemma of_N_iter k m : Z.of_N (Nat.iter k N.succ m) = Z.of_N m + Z.of_nat k.
Proof.
  induction k as [|k IH]; [cbn; lia|].
  change (Nat.iter (S k) N.succ m) with (N.succ (Nat.iter k N.succ m)).
  rewrite N2Z.inj_succ, IH. lia.
Qed.

Lemma of_Z_N m :
  (0 < m)%N ->
  Str.of_Z (Z.of_N m)
  = DecimalString.NilEmpty.string_of_uint
      (Decimal.rev (DecimalPos.Unsigned.to_lu m)).
Proof.
  intros H. destruct m as [|q]; [lia|].
  cbn [Z.of_N]. rewrite of_Z_pos. reflexivity.
Qed.

Lemma of_Z_digit n c :
  0 < n -> Str.is_digit c = true ->
  Str.of_Z (10 * n + Str.digit_val c) = Str.of_Z n +:+ String c "".
Proof.
  intros H D. destruct n as [|p|p]; try lia.
  pose proof (digit_val_range c D) as R.
  replace (10 * Z.pos p + Str.digit_val c)
    with (Z.of_N (Nat.iter (Z.to_nat (Str.digit_val c)) N.succ (10 * N.pos p)%N))
    by (rewrite of_N_iter; lia).
  rewrite of_Z_N by (apply N2Z.inj_lt; rewrite of_N_iter; lia).
  rewrite to_lu_iter, DecimalPos.Unsigned.to_ldec_tenfold, of_Z_pos.
  cbn [DecimalPos.Unsigned.to_lu]. unfold Pos.to_uint.
  ascii_cases c; try discriminate D;
    set (k := Z.to_nat (Str.digit_val _)); vm_compute in k; subst k;
    cbn [Nat.iter nat_rect Decimal.Little.succ];
    unfold Decimal.rev; cbn [Decimal.revapp];
    rewrite !string_of_revapp;
    rewrite (rev_onto_append _ (DecimalString.NilEmpty.string_of_uint _));
    reflexivity.
Qed.

Lemma digits_onto_of_Z r :
  forall acc, 0 < acc -> Str.forallb Str.is_digit r = true ->
  Str.of_Z (digits_onto acc r) = Str.of_Z acc +:+ r.
Proof.
  induction r as [|c r IH]; intros acc A D.
  - cbn [digits_onto]. rewrite append_empty. reflexivity.
  - cbn [Str.forallb] in D. apply andb_true_iff in D. destruct D as [Dc Dr].
    pose proof (digit_val_range c Dc) as R.
    cbn [digits_onto]. rewrite IH by (assumption || lia).
    rewrite of_Z_digit by assumption.
    rewrite append_assoc, append_cons, append_nil. reflexivity.
Qed.

Lemma of_Z_digits_val c r :
  Str.forallb Str.is_digit (String c r) = true -> c <> "0"%char ->
  Str.of_Z (JS.digits_val (String c r)) = String c r.
Proof.
  intros D N. cbn [Str.forallb] in D. apply andb_true_iff in D.
  destruct D as [Dc Dr].
  rewrite digits_val_onto. cbn [digits_onto].
  change (10 * 0 + Str.digit_val c) with (Str.digit_val c).
  pose proof (digit_val_range c Dc) as R.
  assert (P : 0 < Str.digit_val c).
  { ascii_cases c; try discriminate Dc; try (vm_compute; reflexivity).
    contradiction N. reflexivity. }
  rewrite digits_onto_of_Z by assumption.
  assert (E : Str.of_Z (Str.digit_val c) = String c "")
    by (ascii_cases c; try discriminate Dc; reflexivity).
  rewrite E. reflexivity.
Qed.

Lemma formatCedula_plain c r :
  Str.forallb Str.is_digit (String c r) = true ->
  (String.length (String c r) <= 15)%nat ->
  formatCedula (String c r)
  = "V-" +:+ Intl.group (Str.of_Z (JS.digits_val (String c r))).
Proof.
  intros D L. unfold formatCedula. cbn [Str.is_empty].
  rewrite (parseInt_digits c r D).
  pose proof (digits_onto_bound (String c r) 0 ltac:(lia) D) as B.
  rewrite <- digits_val_onto in B.
  assert (10 ^ Z.of_nat (String.length (String c r)) <= 10 ^ 15)
    by (apply Z.pow_le_mono_r; lia).
  rewrite fmt_default_whole by lia. reflexivity.
Qed.

(** X29.  A cedula of one to fifteen digits is shown as [V-] and its
    value in decimal with a full stop before every group of three digits:
    no fraction, no rounding, leading zeros dropped.  When it does not
    start with a zero the digits shown are the digits given, so a cedula
    of eight digits reads [V-12.345.678]. *)
Theorem formatCedula_groups_digits (c : ascii) (r : string) :
  Str.forallb Str.is_digit (String c r) = true ->
  (String.length (String c r) <= 15)%nat ->
  formatCedula (String c r)
  = "V-" +:+ Intl.group (Str.of_Z (JS.digits_val (String c r)))
  /\ (c <> "0"%char ->
      formatCedula (String c r) = "V-" +:+ Intl.group (String c r))
  /\ (c <> "0"%char ->
      forall d2 d3 d4 d5 d6 d7 d8,
        r = String d2 (String d3 (String d4 (String d5 (String d6
              (String d7 (String d8 "")))))) ->
        formatCedula (String c r)
        = "V-" +:+ String c (String d2 ("." +:+ String d3 (String d4
            (String d5 ("." +:+ String d6 (String d7 (String d8 "")))))))).
Proof.
  intros D L. pose proof (formatCedula_plain c r D L) as P.
  split; [exact P|].
  assert (Q : c <> "0"%char ->
              formatCedula (String c r) = "V-" +:+ Intl.group (String c r))
    by (intros N; rewrite P, (of_Z_digits_val c r D N); reflexivity).
  split; [exact Q|].
  intros N d2 d3 d4 d5 d6 d7 d8 ->. rewrite (Q N). reflexivity.
Qed.

Lemma formatCedula_groups_digits_witness :
  formatCedula "12345678" = "V-" +:+ Intl.group "12345678"
  /\ formatCedula "12345678" = "V-12.345.678".
Proof.
  assert (D : Str.forallb Str.is_digit "12345678" = true)
    by (vm_compute; reflexivity).
  assert (L : (String.length "12345678" <= 15)%nat) by (cbn; lia).
  assert (N : "1"%char <> "0"%char) by discriminate.
  destruct (formatCedula_groups_digits "1" "2345678" D L) as (_ & Q & E).
  split; [exact (Q N) | exact (E N _ _ _ _ _ _ _ eq_refl)].
Defined.

(** X30.  A cedula that does not start with a number is not rejected:
    when its first character is an ASCII character other than white
    space, a sign or a digit, what is shown is [V-NaN].  Only the empty
    cedula is shown as nothing. *)
Theorem formatCedula_not_a_number (ced : string) :
  starts_without_number ced ->
  formatCedula ced = "V-NaN" /\ formatCedula "" = "".
Proof.
  intros S. split; [|reflexivity].
  destruct ced as [|c r]; [contradiction|].
  destruct S as (A & W & D & M & P).
  unfold formatCedula, parseInt. cbn [Str.is_empty].
  rewrite (trim_start_plain c r A W).
  ascii_cases c; try discriminate D;
    try (exfalso; vm_compute in A; discriminate A);
    try (contradiction M; reflexivity); try (contradiction P; reflexivity);
    reflexivity.
Qed.

Lemma formatCedula_not_a_number_witness :
  formatCedula "V12345678" = "V-NaN" /\ formatCedula "" = "".
Proof.
  apply (formatCedula_not_a_number "V12345678").
  cbn. repeat split; try reflexivity; discriminate.
Defined.
